(** * Sandwich bot: optimizer, classifier, token registry, executor, coordinator

    A shallow embedding of the JavaScript sources
    [utils/SandwichOptimizer.js], [utils/TransactionDecoder.js],
    [utils/TokenManager.js], [utils/SandwichExecutor.js],
    [utils/ProfitTracker.js], [utils/monitoring.js],
    [core/OpportunityProcessor.js] and [core/MempoolObserver.js].

    JavaScript numbers are IEEE 754 binary64 values; they are modelled by
    the Standard Library's [spec_float] at precision 53 and maximal
    exponent 1024, so every arithmetic step below rounds exactly as the
    JavaScript engine does.  ethers' [BigNumber] is an arbitrary-precision
    signed integer and is modelled by [Z].  Asynchronous calls to
    collaborators (RPC provider, contract, ABI decoder) are modelled by
    their outcome: a value or a thrown error. *)

From Stdlib Require Import ZArith NArith List String Ascii Bool Lia Permutation.
From Stdlib Require Import Floats.SpecFloat.
Import ListNotations.

Local Open Scope Z_scope.

(** ** Exceptions *)

(** The outcome of a JavaScript computation: a value or a thrown error
    (carrying its message). *)
Inductive result (A : Type) : Type :=
| Ok (a : A)
| Throw (msg : string).
Arguments Ok {A} a.
Arguments Throw {A} msg.

Definition bind {A B : Type} (r : result A) (k : A -> result B) : result B :=
  match r with
  | Ok a => k a
  | Throw msg => Throw msg
  end.

(** [try { body } catch (error) { handler error.message }] *)
Definition try_catch {A : Type} (body : result A) (handler : string -> A) : A :=
  match body with
  | Ok a => a
  | Throw msg => handler msg
  end.

Declare Scope js_scope.
Delimit Scope js_scope with js.
Notation "x <- c ;; k" := (bind c (fun x => k))
  (at level 61, c at next level, right associativity) : js_scope.
Notation "' p <- c ;; k" := (bind c (fun x => let 'p := x in k))
  (at level 61, p pattern, c at next level, right associativity) : js_scope.

(** ** JavaScript strings (ASCII fragment) *)

Module Str.

Local Open Scope string_scope.

Definition lower_ascii (c : ascii) : ascii :=
  let n := nat_of_ascii c in
  if (Nat.leb 65 n && Nat.leb n 90)%bool then ascii_of_nat (n + 32) else c.

(** [String.prototype.toLowerCase] *)
Fixpoint toLowerCase (s : string) : string :=
  match s with
  | EmptyString => EmptyString
  | String c s' => String (lower_ascii c) (toLowerCase s')
  end.

(** [String.prototype.startsWith] *)
Fixpoint startsWith (p s : string) : bool :=
  match p, s with
  | EmptyString, _ => true
  | String a p', String b s' => (Ascii.eqb a b && startsWith p' s')%bool
  | String _ _, EmptyString => false
  end.

(** [String.prototype.includes] *)
Fixpoint includes (s sub : string) : bool :=
  (startsWith sub s ||
   match s with
   | EmptyString => false
   | String _ s' => includes s' sub
   end)%bool.

(** [s.slice(n)] for [0 <= n] *)
Fixpoint slice (n : nat) (s : string) : string :=
  match n, s with
  | O, _ => s
  | S n', String _ s' => slice n' s'
  | S _, EmptyString => EmptyString
  end.

Fixpoint repeat0 (n : nat) : string :=
  match n with
  | O => EmptyString
  | S n' => String "0" (repeat0 n')
  end.

Definition is_digit (c : ascii) : bool :=
  let n := nat_of_ascii c in (Nat.leb 48 n && Nat.leb n 57)%bool.

Definition digit_val (c : ascii) : N := N.of_nat (nat_of_ascii c - 48).

Definition digit_char (d : N) : ascii := ascii_of_N (48 + d).

Fixpoint digits_rev (fuel : nat) (n : N) (acc : string) : string :=
  let acc' := String (digit_char (n mod 10)) acc in
  match fuel with
  | O => acc'
  | S fuel' => if (n / 10 =? 0)%N then acc' else digits_rev fuel' (n / 10)%N acc'
  end.

(** The decimal numeral of a natural number, without leading zeros. *)
Definition of_N (n : N) : string :=
  digits_rev (N.to_nat (N.log2 n)) n EmptyString.

(** Does the string begin with something other than a minus sign? *)
Definition unsigned_head (s : string) : bool :=
  match s with
  | String c _ => negb (Ascii.eqb c "-")
  | EmptyString => true
  end.

(** Reads a maximal run of decimal digits: the value accumulated on top
    of [acc], the number of digits read, and the rest of the string. *)
Fixpoint read_digits (s : string) (acc : N) (cnt : nat) : N * nat * string :=
  match s with
  | String c s' =>
      if is_digit c then read_digits s' (acc * 10 + digit_val c)%N (S cnt)
      else (acc, cnt, s)
  | EmptyString => (acc, cnt, s)
  end.

End Str.

(** ** JavaScript numbers *)

Module JS.

Local Open Scope string_scope.
Local Open Scope Z_scope.

Definition prec : Z := 53.
Definition emax : Z := 1024.

Definition number : Type := spec_float.

Definition NaN : number := S754_nan.
Definition Infinity : number := S754_infinity false.
Definition zero : number := S754_zero false.

Definition is_nan (x : number) : bool :=
  match x with S754_nan => true | _ => false end.

Definition add : number -> number -> number := SFadd prec emax.
Definition sub : number -> number -> number := SFsub prec emax.
Definition mul : number -> number -> number := SFmul prec emax.
Definition div : number -> number -> number := SFdiv prec emax.
Definition sqrt : number -> number := SFsqrt prec emax.

Definition lt (x y : number) : bool := SFltb x y.
Definition le (x y : number) : bool := SFleb x y.
Definition eq (x y : number) : bool := SFeqb x y.

(** [Math.max(a, b)]: NaN if either is NaN; [+0] is larger than [-0]. *)
Definition Math_max (a b : number) : number :=
  if (is_nan a || is_nan b)%bool then NaN
  else if lt a b then b
  else if lt b a then a
  else match a with S754_zero true => b | _ => a end.

(** [Math.min(a, b)]: NaN if either is NaN; [-0] is smaller than [+0]. *)
Definition Math_min (a b : number) : number :=
  if (is_nan a || is_nan b)%bool then NaN
  else if lt a b then a
  else if lt b a then b
  else match a with S754_zero false => b | _ => a end.

(** The Number value of the decimal [m * 10^e]: the nearest binary64
    value, ties to even. *)
Definition of_decimal (neg : bool) (m : N) (e : Z) : number :=
  match m with
  | N0 => S754_zero neg
  | Npos p =>
      if 0 <=? e
      then binary_round prec emax neg (p * Z.to_pos (10 ^ e)) 0
      else SFdiv prec emax (S754_finite neg p 0)
                           (S754_finite false (Z.to_pos (10 ^ (- e))) 0)
  end.

(** The Number value of an integer. *)
Definition of_Z (z : Z) : number :=
  of_decimal (z <? 0) (Z.abs_N z) 0.

(** *** String to Number *)

Inductive literal : Type :=
| LitInfinity
| LitDecimal (m : N) (e : Z).

Definition literal_value (neg : bool) (l : literal) : number :=
  match l with
  | LitInfinity => S754_infinity neg
  | LitDecimal m e => of_decimal neg m e
  end.

Definition read_sign (s : string) : bool * string :=
  match s with
  | String "-" s' => (true, s')
  | String "+" s' => (false, s')
  | _ => (false, s)
  end.

(** ExponentPart: [e] or [E], an optional sign, at least one digit.  When
    no well-formed exponent follows, nothing is consumed. *)
Definition read_exponent (s : string) : Z * string :=
  match s with
  | String c s1 =>
      if (Ascii.eqb c "e" || Ascii.eqb c "E")%bool then
        let '(neg, s2) := read_sign s1 in
        let '(n, cnt, rest) := Str.read_digits s2 0%N O in
        match cnt with
        | O => (0, s)
        | S _ => ((if neg then - Z.of_N n else Z.of_N n), rest)
        end
      else (0, s)
  | EmptyString => (0, s)
  end.

(** StrUnsignedDecimalLiteral: the longest prefix of [s] that is one,
    with the rest of the string. *)
Definition read_unsigned (s : string) : option (literal * string) :=
  if Str.startsWith "Infinity" s then Some (LitInfinity, Str.slice 8 s)
  else
    let '(ip, ic, s1) := Str.read_digits s 0%N O in
    let '(m, fc, s2) :=
      match s1 with
      | String "." t => Str.read_digits t ip O
      | _ => (ip, O, s1)
      end in
    match (ic + fc)%nat with
    | O => None
    | S _ =>
        let '(e, s3) := read_exponent s2 in
        Some (LitDecimal m (e - Z.of_nat fc), s3)
    end.

(** [Number(s)] / the implicit ToNumber of a string operand.  White space
    around the literal and the radix prefixes [0x], [0o], [0b] are not
    covered (such strings give NaN here); no string built by this program
    contains them. *)
Definition StringToNumber (s : string) : number :=
  match s with
  | EmptyString => zero
  | _ =>
      let '(neg, s1) := read_sign s in
      match read_unsigned s1 with
      | Some (l, EmptyString) => literal_value neg l
      | _ => NaN
      end
  end.

(** [parseFloat(s)]: the longest prefix that is a decimal literal. *)
Definition parseFloat (s : string) : number :=
  let '(neg, s1) := read_sign s in
  match read_unsigned s1 with
  | Some (l, _) => literal_value neg l
  | None => NaN
  end.

(** *** Number to String *)

(** For a positive finite [x = mx * 2^ex] and a decimal exponent [t]:
    [x / 10^t] as the fraction [scale_num / scale_den]. *)
Definition scale_num (mx : positive) (ex t : Z) : Z :=
  Zpos mx * 2 ^ Z.max ex 0 * 10 ^ Z.max (- t) 0.
Definition scale_den (ex t : Z) : Z :=
  2 ^ Z.max (- ex) 0 * 10 ^ Z.max t 0.

(** [floor (x / 10^t)] *)
Definition floor_scaled (mx : positive) (ex t : Z) : Z :=
  scale_num mx ex t / scale_den ex t.

(** The integer [n] with [10^(n-1) <= x < 10^n]. *)
Definition magnitude (mx : positive) (ex : Z) : Z :=
  let n0 := (Z.log2 (Zpos mx) + ex) * 30103 / 100000 in
  if 1 <=? floor_scaled mx ex (n0 + 1) then n0 + 2
  else if 1 <=? floor_scaled mx ex n0 then n0 + 1
  else n0.

(** Does the decimal [s * 10^t] have Number value [x]? *)
Definition rounds_to (x : number) (s : Z) (t : Z) : bool :=
  SFeqb (of_decimal false (Z.to_N s) t) x.

(** The decimal [s * 10^(n-k)] with the fewest digits [k], tried from
    the given [k] upwards, whose Number value is [x]; of two candidates
    the one nearer to [x], and of two equally near the even one.
    Returns [(s, k, n)]. *)
Fixpoint shortest (fuel : nat) (x : number) (mx : positive) (ex n k : Z)
  : Z * Z * Z :=
  let t := n - k in
  let lo := floor_scaled mx ex t in
  let hi := lo + 1 in
  let norm (s : Z) := if s =? 10 ^ k then (10 ^ (k - 1), k, n + 1) else (s, k, n) in
  let lo_ok := rounds_to x lo t in
  let hi_ok := rounds_to x hi t in
  let twice_x := 2 * scale_num mx ex t in
  let twice_middle := (2 * lo + 1) * scale_den ex t in
  let lo_nearer :=
    (twice_x <? twice_middle) || ((twice_x =? twice_middle) && Z.even lo) in
  match fuel with
  | O => (lo, k, n)
  | S fuel' =>
      if (lo_ok && hi_ok)%bool then (if lo_nearer then (lo, k, n) else norm hi)
      else if lo_ok then (lo, k, n)
      else if hi_ok then norm hi
      else shortest fuel' x mx ex n (k + 1)
  end.

Definition exponent_suffix (n : Z) : string :=
  let e := n - 1 in
  "e" ++ (if e <? 0 then "-" else "+") ++ Str.of_N (Z.abs_N e).

(** The decimal digits [s] (there are [k]) laid out for decimal exponent
    [n], as Number::toString prescribes. *)
Definition layout (s k n : Z) : string :=
  let ds := Str.of_N (Z.to_N s) in
  if (k <=? n) && (n <=? 21) then ds ++ Str.repeat0 (Z.to_nat (n - k))
  else if (0 <? n) && (n <=? 21) then
    substring 0 (Z.to_nat n) ds ++ "." ++ Str.slice (Z.to_nat n) ds
  else if (-6 <? n) && (n <=? 0) then
    "0." ++ Str.repeat0 (Z.to_nat (- n)) ++ ds
  else if k =? 1 then ds ++ exponent_suffix n
  else substring 0 1 ds ++ "." ++ Str.slice 1 ds ++ exponent_suffix n.

(** [Number.prototype.toString()] (radix 10) / the implicit ToString of a
    number operand. *)
Definition ToString (x : number) : string :=
  match x with
  | S754_nan => "NaN"
  | S754_zero _ => "0"
  | S754_infinity neg => (if neg then "-" else "") ++ "Infinity"
  | S754_finite neg mx ex =>
      let '(s, k, n) := shortest 17 (S754_finite false mx ex) mx ex (magnitude mx ex) 1 in
      (if neg then "-" else "") ++ layout s k n
  end.

(** Numeric literals of the source text. *)
Definition lit (s : string) : number := StringToNumber s.

(** A number that is NaN or has a clear sign bit. *)
Definition signless (x : number) : bool :=
  match x with
  | S754_nan | S754_zero false | S754_infinity false | S754_finite false _ _ => true
  | _ => false
  end.

(** [Math.floor(x)] *)
Definition Math_floor (x : number) : number :=
  match x with
  | S754_finite neg m e =>
      if 0 <=? e then x
      else
        let q := Zpos m / 2 ^ (- e) in
        let exact := Zpos m mod 2 ^ (- e) =? 0 in
        if neg then (if exact then of_Z (- q) else of_Z (- (q + 1)))
        else of_Z q
  | _ => x
  end.

End JS.

(** ** ethers v5: BigNumber and unit conversion

    [package.json] pins ethers ^5.7.2.  The library is not part of the
    repository; the functions below follow its [formatFixed] and
    [parseFixed] ([@ethersproject/bignumber]). *)

Module Ethers.

Local Open Scope string_scope.
Local Open Scope Z_scope.

Definition BigNumber : Type := Z.

(** [a.div(b)]: BN.js division truncates towards zero; a zero divisor
    throws. *)
Definition div (a b : BigNumber) : result BigNumber :=
  if b =? 0 then Throw "division-by-zero" else Ok (Z.quot a b).

(** Removes the trailing ["0"] characters of a string. *)
Fixpoint rstrip0 (s : string) : string :=
  match s with
  | EmptyString => EmptyString
  | String c s' =>
      match rstrip0 s' with
      | EmptyString => if Ascii.eqb c "0" then EmptyString else String c EmptyString
      | r => String c r
      end
  end.

Definition pad_left0 (width : nat) (s : string) : string :=
  Str.repeat0 (width - String.length s) ++ s.

Definition pad_right0 (width : nat) (s : string) : string :=
  s ++ Str.repeat0 (width - String.length s).

Definition or_zero (s : string) : string :=
  match s with EmptyString => "0" | _ => s end.

(** [formatUnits(value, decimals)] *)
Definition formatUnits (value : BigNumber) (decimals : nat) : string :=
  let multiplier := 10 ^ Z.of_nat decimals in
  let negative := value <? 0 in
  let value := Z.abs value in
  let fraction := pad_left0 decimals (Str.of_N (Z.to_N (value mod multiplier))) in
  let fraction := or_zero (rstrip0 fraction) in
  let whole := Str.of_N (Z.to_N (value / multiplier)) in
  let value := match decimals with O => whole | S _ => whole ++ "." ++ fraction end in
  if negative then "-" ++ value else value.

(** [formatEther(wei)] *)
Definition formatEther (wei : BigNumber) : string := formatUnits wei 18.

Fixpoint all_decimal_chars (s : string) : bool :=
  match s with
  | EmptyString => true
  | String c s' => ((Str.is_digit c || Ascii.eqb c ".") && all_decimal_chars s')%bool
  end.

(** [s.split(".")] *)
Fixpoint split_dot (s : string) : list string :=
  match s with
  | EmptyString => [EmptyString]
  | String c s' =>
      if Ascii.eqb c "." then EmptyString :: split_dot s'
      else match split_dot s' with
           | h :: t => String c h :: t
           | [] => [String c EmptyString]
           end
  end.

(** [BigNumber.from] of a string of decimal digits. *)
Definition from_digits (s : string) : BigNumber :=
  let '(n, _, _) := Str.read_digits s 0%N O in Z.of_N n.

(** [parseUnits(value, decimals)] for a string [value]. *)
Definition parseUnits (value : string) (decimals : nat) : result BigNumber :=
  let multiplier := 10 ^ Z.of_nat decimals in
  let '(negative, value') :=
    match value with
    | String "-" rest => (true, rest)
    | _ => (false, value)
    end in
  match value' with
  | EmptyString => Throw "invalid decimal value"
  | _ =>
    if negb (all_decimal_chars value') then Throw "invalid decimal value"
    else if String.eqb value' "." then Throw "missing value"
    else
      match split_dot value' with
      | whole :: rest =>
          match rest with
          | _ :: _ :: _ => Throw "too many decimal points"
          | _ =>
              let whole := or_zero whole in
              let fraction := or_zero (match rest with f :: _ => f | [] => EmptyString end) in
              let fraction := rstrip0 fraction in
              if Nat.ltb decimals (String.length fraction)
              then Throw "fractional component exceeds decimals"
              else
                let fraction := pad_right0 decimals (or_zero fraction) in
                let wei := from_digits whole * multiplier + from_digits fraction in
                Ok (if negative then wei * -1 else wei)
          end
      | [] => Throw "invalid decimal value"
      end
  end.

(** [parseEther(ether)] *)
Definition parseEther (ether : string) : result BigNumber := parseUnits ether 18.

(** Is the finite value [m * 2^e] an integer? *)
Definition is_integer (m : positive) (e : Z) : bool :=
  (0 <=? e) || (Zpos m mod 2 ^ (- e) =? 0).

Definition MAX_SAFE : Z := 9007199254740991.

(** [BigNumber.from(value)] for a JavaScript number: a fractional part is
    a NUMERIC_FAULT ("underflow"), a magnitude of [MAX_SAFE] or more an
    "overflow". *)
Definition from_number (value : JS.number) : result BigNumber :=
  match value with
  | S754_nan => Throw "invalid BigNumber string"
  | S754_infinity _ => Throw "overflow"
  | S754_zero _ => Ok 0
  | S754_finite neg m e =>
      if negb (is_integer m e) then Throw "underflow"
      else
        let v := if 0 <=? e then Zpos m * 2 ^ e else Zpos m / 2 ^ (- e) in
        if MAX_SAFE <=? v then Throw "overflow"
        else Ok (if neg then - v else v)
  end.

(** [a.toNumber()]: values outside the 53-bit range throw. *)
Definition toNumber (a : BigNumber) : result JS.number :=
  if Z.abs a <? 2 ^ 53 then Ok (JS.of_Z a) else Throw "overflow".

(** [a.mul(n)] for a JavaScript number [n], as ethers defines it. *)
Definition mul_number (a : BigNumber) (n : JS.number) : result BigNumber :=
  bind (from_number n) (fun b => Ok (a * b)).

End Ethers.

(** ** Shared data: configuration, pools, opportunities *)

(** The fields of [config.js] the modelled code reads. *)
Record Config : Type := {
  WETH_ADDRESS : string;
  MIN_VICTIM_SIZE : JS.number;
  MAX_GAS_PRICE : JS.number;
  MIN_PROFIT_THRESHOLD : JS.number;
  USE_DIRECT_ETH : bool;
  OPPORTUNITY_TIMEOUT : Z;
  SUPPORTED_DEXES : list string;     (* the router addresses *)
  BLACKLISTED_TOKENS : list string
}.

(** The object [TokenManager.getPairReserves] returns. *)
Record PairInfo : Type := {
  token0 : string;
  token1 : string;
  reserve0 : Z;
  reserve1 : Z
}.

(** The opportunity object built by
    [TransactionDecoder.analyzePendingTransaction]. *)
Record Opportunity : Type := {
  victimTx : string;
  router : string;
  path : list string;
  amountIn : Z;
  amountOutMin : option Z;
  deadline : option Z;
  pairAddress : string;
  pairInfo : PairInfo;
  optimalFrontRunAmount : Z;
  optimalBackRunAmount : Z;
  estimatedProfit : Z;
  confidence : JS.number;
  gasPrice : Z;
  suggestedGasPrice : Z;
  submittedTime : Z
}.

(** ** utils/SandwichOptimizer.js *)

Module SandwichOptimizer.

Local Open Scope string_scope.
Local Open Scope Z_scope.

Definition BIPS_DIVISOR : Z := 10000.
Definition AAVE_FEE_BIPS : Z := 9.
Definition GAS_BUFFER : JS.number := JS.lit "1.2".

(** The argument of [calculateOptimalFrontRunAmount]. *)
Record Params : Type := {
  reserveIn : Z;
  reserveOut : Z;
  victimAmount : Z;
  fee : JS.number
}.

(** The local variables of [calculateOptimalFrontRunAmount].  [x], [y]
    and [v] are the strings [formatEther] returns; every arithmetic
    operator converts them with ToNumber, and [+] with a string operand
    concatenates. *)
Record Locals : Type := {
  x : string;
  y : string;
  v : string;
  feeMultiplier : JS.number;
  k : JS.number;
  sqrtTerm : JS.number;
  unconstrainedOptimum : JS.number;    (* optimalFrontRunDecimal before Math.max *)
  optimalFrontRunDecimal : JS.number;  (* after Math.max *)
  cap : JS.number;                     (* v * 0.3 *)
  cappedOptimalAmount : JS.number;
  frontRunDenominator : string;        (* x + cappedOptimalAmount * feeMultiplier *)
  frontRunOutput : JS.number;
  newX1 : JS.number;
  newY1 : JS.number;
  victimOutput : JS.number;
  newX2 : JS.number;
  newY2 : JS.number;
  backRunInput : JS.number;
  backRunOutput : JS.number;
  profitDecimal : JS.number;
  priceImpactFrontRun : JS.number;
  confidenceScore : JS.number
}.

(** Lines 110-163 of [SandwichOptimizer.js], one [let] per [const].  The
    operators [*], [-] and [/] apply ToNumber ([num]) to a string operand.
    In the front-run denominator the left operand of [+] is the string
    [x], so the sum is the concatenation of [x] with the printed product,
    converted back to a number by the enclosing division; [newX1] parses
    [x] first and adds numbers. *)
Definition locals (params : Params) : Locals :=
  let num := JS.StringToNumber in
  let x := Ethers.formatEther (reserveIn params) in
  let y := Ethers.formatEther (reserveOut params) in
  let v := Ethers.formatEther (victimAmount params) in
  let feeMultiplier := JS.div (fee params) (JS.lit "1000") in
  let k := JS.mul (num x) (num y) in
  let sqrtTerm := JS.sqrt (JS.mul (JS.mul (num x) (num v)) feeMultiplier) in
  let unconstrained := JS.div (JS.sub sqrtTerm (num x)) feeMultiplier in
  let optimalFrontRunDecimal := JS.Math_max (JS.lit "0") unconstrained in
  let cap := JS.mul (num v) (JS.lit "0.3") in
  let cappedOptimalAmount := JS.Math_min optimalFrontRunDecimal cap in
  let frontRunDenominator := x ++ JS.ToString (JS.mul cappedOptimalAmount feeMultiplier) in
  let frontRunOutput :=
    JS.div (JS.mul (JS.mul (num y) cappedOptimalAmount) feeMultiplier)
           (num frontRunDenominator) in
  let newX1 := JS.add (JS.parseFloat x) (JS.mul cappedOptimalAmount feeMultiplier) in
  let newY1 := JS.sub (JS.parseFloat y) frontRunOutput in
  let victimOutput :=
    JS.div (JS.mul (JS.mul newY1 (num v)) feeMultiplier)
           (JS.add newX1 (JS.mul (num v) feeMultiplier)) in
  let newX2 := JS.add newX1 (JS.mul (num v) feeMultiplier) in
  let newY2 := JS.sub newY1 victimOutput in
  let backRunInput := frontRunOutput in
  let backRunOutput :=
    JS.div (JS.mul (JS.mul newX2 backRunInput) feeMultiplier)
           (JS.add newY2 (JS.mul backRunInput feeMultiplier)) in
  let profitDecimal := JS.sub backRunOutput cappedOptimalAmount in
  let priceImpactFrontRun := JS.div cappedOptimalAmount (num x) in
  let confidence :=
    JS.Math_max (JS.lit "0")
      (JS.Math_min (JS.lit "1")
         (JS.sub (JS.lit "1") (JS.mul priceImpactFrontRun (JS.lit "2")))) in
  {| x := x; y := y; v := v; feeMultiplier := feeMultiplier; k := k;
     sqrtTerm := sqrtTerm; unconstrainedOptimum := unconstrained;
     optimalFrontRunDecimal := optimalFrontRunDecimal; cap := cap;
     cappedOptimalAmount := cappedOptimalAmount;
     frontRunDenominator := frontRunDenominator;
     frontRunOutput := frontRunOutput; newX1 := newX1; newY1 := newY1;
     victimOutput := victimOutput; newX2 := newX2; newY2 := newY2;
     backRunInput := backRunInput; backRunOutput := backRunOutput;
     profitDecimal := profitDecimal;
     priceImpactFrontRun := priceImpactFrontRun;
     confidenceScore := confidence |}.

(** The object [calculateOptimalFrontRunAmount] returns. *)
Record FrontRun : Type := {
  fr_optimalFrontRunAmount : Z;
  fr_optimalBackRunAmount : Z;
  fr_expectedProfit : Z;
  fr_confidence : JS.number
}.

Definition calculateOptimalFrontRunAmount (params : Params) : result FrontRun :=
  let l := locals params in
  (a <- Ethers.parseEther (JS.ToString (cappedOptimalAmount l)) ;;
   b <- Ethers.parseEther (JS.ToString (frontRunOutput l)) ;;
   p <- Ethers.parseEther (JS.ToString (profitDecimal l)) ;;
   Ok {| fr_optimalFrontRunAmount := a;
         fr_optimalBackRunAmount := b;
         fr_expectedProfit := p;
         fr_confidence := confidenceScore l |})%js.

(** The network conditions object. *)
Record NetworkConditions : Type := {
  nc_blockNumber : Z;
  nc_timestamp : Z;
  nc_gasPrice : Z;
  nc_baseFee : Z
}.

Record Block : Type := {
  timestamp : Z;
  baseFeePerGas : option Z
}.

(** The provider calls [getNetworkConditions] awaits, by their outcome. *)
Record Provider : Type := {
  getGasPrice : result Z;
  getBlockNumber : result Z;
  getBlock : Z -> result Block
}.

(** [parseUnits('50', 'gwei')] *)
Definition GWEI_50 : Z := 50 * 10 ^ 9.

(** [getNetworkConditions()]; [now] is [Date.now()]. *)
Definition getNetworkConditions (provider : Provider) (now : Z) : NetworkConditions :=
  try_catch
    (gasPrice <- getGasPrice provider ;;
     blockNumber <- getBlockNumber provider ;;
     block <- getBlock provider blockNumber ;;
     Ok {| nc_blockNumber := blockNumber;
           nc_timestamp := timestamp block;
           nc_gasPrice := gasPrice;
           nc_baseFee := match baseFeePerGas block with
                         | Some b => b
                         | None => gasPrice
                         end |})%js
    (fun _ =>
       {| nc_blockNumber := 0;
          nc_timestamp := now / 1000;
          nc_gasPrice := GWEI_50;
          nc_baseFee := GWEI_50 |}).

(** [calculateOptimalGasPrice(victimGasPrice, networkConditions)] *)
Definition calculateOptimalGasPrice (victimGasPrice : Z) (networkConditions : NetworkConditions) : Z :=
  let minFrontRunGasPrice := Z.quot (victimGasPrice * 115) 100 in
  let effectiveGasPrice := Z.quot (nc_gasPrice networkConditions * 110) 100 in
  if effectiveGasPrice <? minFrontRunGasPrice
  then minFrontRunGasPrice else effectiveGasPrice.

(** The object [calculateOptimalSandwichParams] returns; its [catch]
    branch returns [profitable] and [confidence] only. *)
Record SandwichParams : Type := {
  sp_flashLoanAmount : option Z;
  sp_frontRunAmount : option Z;
  sp_backRunAmount : option Z;
  sp_expectedProfit : option Z;
  sp_netProfit : option Z;
  sp_gasPrice : option Z;
  sp_gasLimit : option Z;
  sp_profitable : bool;
  sp_confidence : JS.number
}.

(** The local variables of [calculateOptimalSandwichParams] ahead of its
    [return] statement. *)
Record SandwichLocals : Type := {
  sl_result : FrontRun;
  sl_flashLoanAmount : Z;
  sl_estimatedGasUsed : Z;
  sl_gasCost : Z;
  sl_flashLoanFee : Z;
  sl_totalCost : Z;
  sl_netProfit : Z;
  sl_profitable : bool;
  sl_optimalGasPrice : Z;
  sl_maxGasPrice : Z;
  sl_finalGasPrice : Z
}.

Section Optimizer.

Variable config : Config.

(** [BigNumber.prototype.mul] applied to a JavaScript number that is not
    an integer literal of the source: the call
    [estimatedGasUsed.mul(this.GAS_BUFFER)].  ethers' own behaviour is
    [Ethers.mul_number], which rejects the fractional 1.2; the outcome
    of the call is kept as a parameter, and the results below hold for
    every choice of it. *)
Variable mulNumber : Z -> JS.number -> result Z.

Variable provider : Provider.
Variable now : Z.

Definition sandwichLocals (opportunity : Opportunity) : result SandwichLocals :=
  let networkConditions := getNetworkConditions provider now in
  match path opportunity with
  | [] => Throw "Cannot read properties of undefined (reading 'toLowerCase')"
  | tokenIn :: _ =>
      let tokenAIs0 :=
        String.eqb (Str.toLowerCase tokenIn)
                   (Str.toLowerCase (token0 (pairInfo opportunity))) in
      let reserveIn :=
        if tokenAIs0 then reserve0 (pairInfo opportunity)
        else reserve1 (pairInfo opportunity) in
      let reserveOut :=
        if tokenAIs0 then reserve1 (pairInfo opportunity)
        else reserve0 (pairInfo opportunity) in
      (result <- calculateOptimalFrontRunAmount
                   {| reserveIn := reserveIn;
                      reserveOut := reserveOut;
                      victimAmount := amountIn opportunity;
                      fee := JS.lit "997" |} ;;
       flashLoanAmount <- Ethers.div (fr_optimalFrontRunAmount result * 12) 10 ;;
       let estimatedGasUsed := 600000 in
       let gasCost := nc_gasPrice networkConditions * estimatedGasUsed in
       flashLoanFee <- Ethers.div (flashLoanAmount * AAVE_FEE_BIPS) BIPS_DIVISOR ;;
       let totalCost := gasCost + flashLoanFee in
       let netProfit := fr_expectedProfit result - totalCost in
       threshold <- Ethers.parseEther (JS.ToString (MIN_PROFIT_THRESHOLD config)) ;;
       let profitable := threshold <? netProfit in
       let optimalGasPrice :=
         calculateOptimalGasPrice (gasPrice opportunity) networkConditions in
       maxGasPrice <- Ethers.parseUnits (JS.ToString (MAX_GAS_PRICE config)) 9 ;;
       let finalGasPrice :=
         if maxGasPrice <? optimalGasPrice then maxGasPrice else optimalGasPrice in
       Ok {| sl_result := result;
             sl_flashLoanAmount := flashLoanAmount;
             sl_estimatedGasUsed := estimatedGasUsed;
             sl_gasCost := gasCost;
             sl_flashLoanFee := flashLoanFee;
             sl_totalCost := totalCost;
             sl_netProfit := netProfit;
             sl_profitable := profitable;
             sl_optimalGasPrice := optimalGasPrice;
             sl_maxGasPrice := maxGasPrice;
             sl_finalGasPrice := finalGasPrice |})%js
  end.

(** [calculateOptimalSandwichParams(opportunity)] *)
Definition calculateOptimalSandwichParams (opportunity : Opportunity) : SandwichParams :=
  try_catch
    (l <- sandwichLocals opportunity ;;
     scaled <- mulNumber (sl_estimatedGasUsed l) GAS_BUFFER ;;
     gasLimit <- Ethers.div scaled 10 ;;
     Ok {| sp_flashLoanAmount := Some (sl_flashLoanAmount l);
           sp_frontRunAmount := Some (fr_optimalFrontRunAmount (sl_result l));
           sp_backRunAmount := Some (fr_optimalBackRunAmount (sl_result l));
           sp_expectedProfit := Some (fr_expectedProfit (sl_result l));
           sp_netProfit := Some (sl_netProfit l);
           sp_gasPrice := Some (sl_finalGasPrice l);
           sp_gasLimit := Some gasLimit;
           sp_profitable := sl_profitable l;
           sp_confidence := fr_confidence (sl_result l) |})%js
    (fun _ =>
       {| sp_flashLoanAmount := None;
          sp_frontRunAmount := None;
          sp_backRunAmount := None;
          sp_expectedProfit := None;
          sp_netProfit := None;
          sp_gasPrice := None;
          sp_gasLimit := None;
          sp_profitable := false;
          sp_confidence := JS.lit "0" |}).

End Optimizer.

End SandwichOptimizer.

(** ** JavaScript [Map] and [Set] (insertion-ordered) *)

Module JSMap.

Section WithValue.
Context {V : Type}.

(** A [Map] with string keys: the entries in insertion order. *)
Definition t : Type := list (string * V).

Fixpoint get (m : t) (key : string) : option V :=
  match m with
  | [] => None
  | (k', v) :: rest => if String.eqb k' key then Some v else get rest key
  end.

Definition has (m : t) (key : string) : bool :=
  match get m key with Some _ => true | None => false end.

(** [m.set(key, value)]: an existing key keeps its position and takes
    the new value; a new key is appended. *)
Fixpoint set (m : t) (key : string) (value : V) : t :=
  match m with
  | [] => [(key, value)]
  | (k', v) :: rest =>
      if String.eqb k' key then (k', value) :: rest
      else (k', v) :: set rest key value
  end.

(** [m.delete(key)] *)
Fixpoint delete (m : t) (key : string) : t :=
  match m with
  | [] => []
  | (k', v) :: rest =>
      if String.eqb k' key then rest else (k', v) :: delete rest key
  end.

Definition keys (m : t) : list string := map fst m.

(** The number of entries held for [key]. *)
Definition count (m : t) (key : string) : nat :=
  List.length (filter (fun e => String.eqb (fst e) key) m).

End WithValue.

Arguments t V : clear implicits.

End JSMap.

Module JSSet.

(** A [Set] of strings: the members in insertion order. *)
Definition t : Type := list string.

Definition has (s : t) (x : string) : bool := existsb (String.eqb x) s.

Definition add (s : t) (x : string) : t := if has s x then s else s ++ [x].

Definition of_list (l : list string) : t := fold_left add l [].

End JSSet.

(** ** utils/TokenManager.js *)

Module TokenManager.

Local Open Scope string_scope.

Record Log : Type := { topics : list string }.

(** The values the detector predicate [hasFee] is applied to: the array
    of logs its body expects, or the address string [detectTokenFees]
    passes. *)
Inductive Value : Type :=
| VString (s : string)
| VLogs (logs : list Log).

Definition TRANSFER_TOPIC : string :=
  "0xddf252ad1be2c89b69c2b068fc378daa952ba7f163c4a11628f55a4df523b3ef".

(** [(logs) => { const transferEvents = logs.filter(log => log.topics[0]
    === TRANSFER_TOPIC); return transferEvents.length > 1; }].  A string
    has no [filter] method, so the call throws a TypeError. *)
Definition hasFee (logs : Value) : result bool :=
  match logs with
  | VLogs l =>
      let transferEvents :=
        filter (fun log => match topics log with
                           | t :: _ => String.eqb t TRANSFER_TOPIC
                           | [] => false
                           end) l in
      Ok (Nat.ltb 1 (List.length transferEvents))
  | VString _ => Throw "logs.filter is not a function"
  end.

Record DetectorSig : Type := {
  selector : string;
  sig_hasFee : option (Value -> result bool);
  isRebase : bool
}.

(** [this.tokenDetectorSigs], in the order [Object.entries] yields. *)
Definition tokenDetectorSigs : list (string * DetectorSig) :=
  [ ("transfer(address,uint256)",
     {| selector := "0xa9059cbb"; sig_hasFee := Some hasFee; isRebase := false |});
    ("_beforeTokenTransfer(address,address,uint256)",
     {| selector := "0x4a15e35d"; sig_hasFee := None; isRebase := true |});
    ("rebase(uint256,uint256)",
     {| selector := "0x46a4e0ed"; sig_hasFee := None; isRebase := true |}) ].

(** The body of the [for ... of] loop of [detectTokenFees] followed by
    its [return false]. *)
Fixpoint scanSignatures (code tokenAddress : string)
    (sigs : list (string * DetectorSig)) : result bool :=
  match sigs with
  | [] => Ok false
  | (_, sig) :: rest =>
      if Str.includes code (Str.slice 2 (selector sig)) then
        if isRebase sig then Ok true
        else
          match sig_hasFee sig with
          | Some f =>
              (fee <- f (VString tokenAddress) ;;
               if fee : bool then Ok true
               else scanSignatures code tokenAddress rest)%js
          | None => scanSignatures code tokenAddress rest
          end
      else scanSignatures code tokenAddress rest
  end.

Section TokenManager.

(** [provider.getCode(address)], by its outcome. *)
Variable getCode : string -> result string.

(** [detectTokenFees(tokenAddress)]: the whole body sits in a [try]
    whose [catch] returns [false], so the call itself never throws. *)
Definition detectTokenFees (tokenAddress : string) : result bool :=
  Ok (try_catch
        (code <- getCode tokenAddress ;;
         scanSignatures code tokenAddress tokenDetectorSigs)%js
        (fun _ => false)).

(** [isTokenBlacklisted(tokenAddress)]: the answer and the updated
    [this.blacklistedTokens]. *)
Definition isTokenBlacklisted (blacklistedTokens : JSSet.t) (tokenAddress : string)
  : bool * JSSet.t :=
  let address := Str.toLowerCase tokenAddress in
  if JSSet.has blacklistedTokens address then (true, blacklistedTokens)
  else
    try_catch
      (hasFees <- detectTokenFees address ;;
       Ok (if hasFees : bool
           then (true, JSSet.add blacklistedTokens address)
           else (false, blacklistedTokens)))%js
      (fun _ => (true, blacklistedTokens)).

End TokenManager.

(** [this.blacklistedTokens] as the constructor builds it. *)
Definition initialBlacklist (config : Config) : JSSet.t :=
  JSSet.of_list (map Str.toLowerCase (BLACKLISTED_TOKENS config)).

End TokenManager.

(** ** utils/TransactionDecoder.js *)

Module TransactionDecoder.

Local Open Scope string_scope.
Local Open Scope Z_scope.

(** A pending transaction as the provider returns it. *)
Record Tx : Type := {
  hash : string;
  to : option string;
  data : string;
  value : Z;
  tx_gasPrice : Z
}.

(** The named arguments of a decoded router call; an argument the
    function does not have is [undefined]. *)
Record Args : Type := {
  arg_path : option (list string);
  arg_amountIn : option Z;
  arg_amountInMax : option Z;
  arg_amountOut : option Z;
  arg_amountOutMin : option Z;
  arg_deadline : option Z
}.

(** What [Interface.parseTransaction] returns. *)
Record DecodedInput : Type := {
  name : string;
  args : Args
}.

Record SwapDetails : Type := {
  sd_path : option (list string);
  sd_amountIn : option Z;
  sd_amountOutMin : option Z;
  sd_amountOut : option Z;
  sd_deadline : option Z
}.

Record LiquidityCheck : Type := {
  isLiquid : bool;
  isTooDeep : bool
}.

Record SandwichParameters : Type := {
  p_optimalFrontRunAmount : Z;
  p_optimalBackRunAmount : Z;
  p_estimatedProfit : Z;
  p_confidence : JS.number
}.

(** [isSwapFunction(functionName)] *)
Definition isSwapFunction (functionName : string) : bool :=
  Str.startsWith "swap" functionName
  || Str.includes functionName "Swap"
  || Str.includes functionName "ExactTokens".

Definition undefined_property {A : Type} (prop : string) : result A :=
  Throw ("Cannot read properties of undefined (reading '" ++ prop ++ "')").

Section Decoder.

Variable config : Config.

(** [this.minOpportunitySize], which the constructor computes as
    [parseEther(config.MIN_VICTIM_SIZE.toString())]. *)
Variable minOpportunitySize : Z.

(** [routerInterface.parseTransaction({ data })] for the router at the
    given (lower-cased) address, by its outcome. *)
Variable parseTransaction : string -> string -> result (option DecodedInput).

(** The token manager and pair-address calls, by their outcome. *)
Variable isTokenBlacklisted : string -> result bool.
Variable checkPairLiquidity : string -> string -> result LiquidityCheck.
Variable getTokenValueInETH : string -> option Z -> result Z.
Variable getPairAddress : string -> string -> string -> result string.
Variable getPairReserves : string -> string -> string -> result (option PairInfo).

(** [Date.now()] *)
Variable now : Z.

(** [isSupportedRouter(address)] *)
Definition isSupportedRouter (address : string) : bool :=
  existsb (fun dex => String.eqb (Str.toLowerCase dex) (Str.toLowerCase address))
          (SUPPORTED_DEXES config).

(** [this.routerInterfaces], keyed by lower-cased router address: is
    there an interface under [key]? *)
Definition hasRouterInterface (key : string) : bool :=
  existsb (fun dex => String.eqb (Str.toLowerCase dex) key) (SUPPORTED_DEXES config).

(** [args.path.filter(p => p.toLowerCase() !== this.WETH.toLowerCase())] *)
Definition withoutWETH (path : option (list string)) : result (list string) :=
  match path with
  | None => undefined_property "filter"
  | Some p =>
      Ok (filter (fun t => negb (String.eqb (Str.toLowerCase t)
                                            (Str.toLowerCase (WETH_ADDRESS config)))) p)
  end.

(** [extractSwapDetails(decodedInput, tx)] *)
Definition extractSwapDetails (decodedInput : DecodedInput) (tx : Tx) : option SwapDetails :=
  let name := name decodedInput in
  let args := args decodedInput in
  let WETH := WETH_ADDRESS config in
  try_catch
    (if Str.includes name "swapExactTokensForTokens" then
       Ok (Some {| sd_path := arg_path args;
                   sd_amountIn := arg_amountIn args;
                   sd_amountOutMin := arg_amountOutMin args;
                   sd_amountOut := None;
                   sd_deadline := arg_deadline args |})
     else if Str.includes name "swapTokensForExactTokens" then
       Ok (Some {| sd_path := arg_path args;
                   sd_amountIn := arg_amountInMax args;
                   sd_amountOutMin := None;
                   sd_amountOut := arg_amountOut args;
                   sd_deadline := arg_deadline args |})
     else if Str.includes name "swapExactETHForTokens" then
       (rest <- withoutWETH (arg_path args) ;;
        Ok (Some {| sd_path := Some (WETH :: rest);
                    sd_amountIn := Some (value tx);
                    sd_amountOutMin := arg_amountOutMin args;
                    sd_amountOut := None;
                    sd_deadline := arg_deadline args |}))%js
     else if Str.includes name "swapExactTokensForETH" then
       (rest <- withoutWETH (arg_path args) ;;
        Ok (Some {| sd_path := Some (rest ++ [WETH])%list;
                    sd_amountIn := arg_amountIn args;
                    sd_amountOutMin := arg_amountOutMin args;
                    sd_amountOut := None;
                    sd_deadline := arg_deadline args |}))%js
     else if Str.includes name "swapTokensForExactETH" then
       (rest <- withoutWETH (arg_path args) ;;
        Ok (Some {| sd_path := Some (rest ++ [WETH])%list;
                    sd_amountIn := arg_amountInMax args;
                    sd_amountOutMin := None;
                    sd_amountOut := arg_amountOut args;
                    sd_deadline := arg_deadline args |}))%js
     else if Str.includes name "swapETHForExactTokens" then
       (rest <- withoutWETH (arg_path args) ;;
        Ok (Some {| sd_path := Some (WETH :: rest);
                    sd_amountIn := Some (value tx);
                    sd_amountOutMin := None;
                    sd_amountOut := arg_amountOut args;
                    sd_deadline := arg_deadline args |}))%js
     else Ok None)
    (fun _ => None).

(** [isValidTokenPair(path)] *)
Definition isValidTokenPair (path : option (list string)) : result bool :=
  match path with
  | None => Ok false
  | Some p =>
      match p with
      | tokenA :: _ :: _ =>
          let tokenB := last p tokenA in
          (blackA <- isTokenBlacklisted tokenA ;;
           if blackA : bool then Ok false
           else
             blackB <- isTokenBlacklisted tokenB ;;
             if blackB : bool then Ok false
             else
               liquidityCheck <- checkPairLiquidity tokenA tokenB ;;
               Ok (isLiquid liquidityCheck && negb (isTooDeep liquidityCheck)))%js
      | _ => Ok false
      end
  end.

(** [calculateSandwichParameters(path, victimAmountIn, pairInfo)] *)
Definition calculateSandwichParameters (path : list string)
    (victimAmountIn : option Z) (pairInfo : PairInfo) : result SandwichParameters :=
  match path with
  | [] => undefined_property "toLowerCase"
  | tokenIn :: _ =>
      let token0IsInput :=
        String.eqb (Str.toLowerCase tokenIn) (Str.toLowerCase (token0 pairInfo)) in
      let reserveIn := if token0IsInput then reserve0 pairInfo else reserve1 pairInfo in
      let frontRunRatio := JS.lit "0.2" in
      match victimAmountIn with
      | None => undefined_property "mul"
      | Some victimAmountIn =>
          (ratio <- Ethers.from_number
                      (JS.Math_floor (JS.mul frontRunRatio (JS.lit "100"))) ;;
           optimalFrontRunAmount <- Ethers.div (victimAmountIn * ratio) 100 ;;
           impact <- Ethers.div (victimAmountIn * 1000) reserveIn ;;
           impactNumber <- Ethers.toNumber impact ;;
           let priceImpact := JS.div impactNumber (JS.lit "1000") in
           let confidence :=
             JS.Math_min (JS.lit "1")
               (JS.Math_max (JS.lit "0")
                  (JS.sub (JS.lit "1") (JS.mul priceImpact (JS.lit "2")))) in
           let profitBps := 20 in
           estimatedProfit <- Ethers.div (victimAmountIn * profitBps) 10000 ;;
           optimalBackRunAmount <- Ethers.div (optimalFrontRunAmount * 95) 100 ;;
           Ok {| p_optimalFrontRunAmount := optimalFrontRunAmount;
                 p_optimalBackRunAmount := optimalBackRunAmount;
                 p_estimatedProfit := estimatedProfit;
                 p_confidence := confidence |})%js
      end
  end.

(** The body of the outer [try] of [analyzePendingTransaction], entered
    once [tx.to] is known to be a supported router. *)
Definition analyzeSupported (tx : Tx) (to : string) : result (option Opportunity) :=
  if negb (hasRouterInterface (Str.toLowerCase to)) then Ok None
  else
    match parseTransaction (Str.toLowerCase to) (data tx) with
    | Throw _ => Ok None                (* "Not a method we can decode, skip" *)
    | Ok None => Throw "Cannot read properties of null (reading 'name')"
    | Ok (Some decodedInput) =>
        if negb (isSwapFunction (name decodedInput)) then Ok None
        else
          match extractSwapDetails decodedInput tx with
          | None => Ok None
          | Some swapDetails =>
              (valid <- isValidTokenPair (sd_path swapDetails) ;;
               if negb valid then Ok None
               else
                 match sd_path swapDetails with
                 | Some ((tokenA :: tokenB :: _) as path) =>
                     tokenInValue <- getTokenValueInETH tokenA (sd_amountIn swapDetails) ;;
                     if tokenInValue <? minOpportunitySize then Ok None
                     else
                       pairAddress <- getPairAddress tokenA tokenB to ;;
                       pairInfo <- getPairReserves pairAddress tokenA tokenB ;;
                       match pairInfo with
                       | None => Ok None
                       | Some pairInfo =>
                           params <- calculateSandwichParameters path
                                       (sd_amountIn swapDetails) pairInfo ;;
                           if (p_estimatedProfit params <=? 0)
                              || JS.lt (p_confidence params) (JS.lit "0.7")
                           then Ok None
                           else
                             suggested <- Ethers.div (tx_gasPrice tx * 115) 100 ;;
                             Ok (Some
                               {| victimTx := hash tx;
                                  router := to;
                                  path := path;
                                  amountIn := match sd_amountIn swapDetails with
                                              | Some a => a
                                              | None => 0
                                              end;
                                  amountOutMin := sd_amountOutMin swapDetails;
                                  deadline := sd_deadline swapDetails;
                                  pairAddress := pairAddress;
                                  pairInfo := pairInfo;
                                  optimalFrontRunAmount := p_optimalFrontRunAmount params;
                                  optimalBackRunAmount := p_optimalBackRunAmount params;
                                  estimatedProfit := p_estimatedProfit params;
                                  confidence := p_confidence params;
                                  gasPrice := tx_gasPrice tx;
                                  suggestedGasPrice := suggested;
                                  submittedTime := now |})
                       end
                 | _ => undefined_property "toLowerCase"
                 end)%js
          end
    end.

(** [analyzePendingTransaction(tx)]: [Ok None] is the [null] result,
    [Throw] an exception reaching the caller. *)
Definition analyzePendingTransaction (tx : Tx) : result (option Opportunity) :=
  match to tx with
  | None => Ok None
  | Some to =>
      if negb (isSupportedRouter to) then Ok None
      else Ok (try_catch (analyzeSupported tx to) (fun _ => None))
  end.

End Decoder.

End TransactionDecoder.

(** ** utils/SandwichExecutor.js *)

Module SandwichExecutor.

Local Open Scope string_scope.
Local Open Scope Z_scope.

(** The nonce fields of the executor object. [currentNonce] is [null]
    ([None]) until the first refresh. *)
Record State : Type := {
  currentNonce : option Z;
  lastNonceRefresh : Z
}.

(** The state the constructor sets up. *)
Definition initial : State := {| currentNonce := None; lastNonceRefresh := 0 |}.

Definition nonceRefreshInterval : Z := 30000.

(** A contract call handed to the signer. *)
Record Submission : Type := {
  method : string;
  s_tokenA : option string;
  s_tokenB : option string;
  s_flashLoanAmount : option Z;
  s_frontRunAmount : option Z;
  s_victimAmountMin : Z;
  s_victimAmountMax : Z;
  s_backRunAmount : option Z;
  s_deadline : Z;
  s_value : option Z;
  s_gasPrice : option Z;
  s_gasLimit : option Z;
  s_nonce : Z
}.

(** The requests the executor makes to the outside. *)
Inductive Event : Type :=
| GetTransactionCount
| Submit (s : Submission).

Record ReceiptEvent : Type := {
  event : string;
  args_profit : option Z      (* [args.profit], when [args] is present *)
}.

Record Receipt : Type := {
  status : Z;
  events : list ReceiptEvent;
  gasUsed : Z;
  effectiveGasPrice : Z
}.

(** How [trackTransaction] resolves. *)
Inductive Tracked : Type :=
| Confirmed (receipt : Receipt)
| Reverted (receipt : Receipt)
| TimedOut.

(** The object [executeSandwich] returns. *)
Record ExecutionResult : Type := {
  success : bool;
  txHash : option string;
  profit : option Z;
  gasCost : option Z;
  error : option string
}.

Definition failure (message : string) : ExecutionResult :=
  {| success := false; txHash := None; profit := None; gasCost := None;
     error := Some message |}.

(** [!this.currentNonce]: true for [null] and for [0]. *)
Definition noNonce (st : State) : bool :=
  match currentNonce st with
  | None => true
  | Some n => n =? 0
  end.

(** The condition under which [refreshNonce] queries the chain. *)
Definition refreshDue (st : State) (now : Z) : bool :=
  noNonce st || (nonceRefreshInterval <? now - lastNonceRefresh st).

(** What [refreshNonce] does with the answer of
    [wallet.getTransactionCount()]. *)
Definition applyCount (st : State) (now : Z) (count : result Z) : result State :=
  match count with
  | Ok n => Ok {| currentNonce := Some n; lastNonceRefresh := now |}
  | Throw _ =>
      if noNonce st then Throw "Failed to get nonce and no previous nonce available"
      else Ok st
  end.

(** [const nonce = this.currentNonce++] *)
Definition takeNonce (st : State) : Z * State :=
  let n := match currentNonce st with Some n => n | None => 0 end in
  (n, {| currentNonce := Some (n + 1); lastNonceRefresh := lastNonceRefresh st |}).

(** [extractProfitFromReceipt(receipt)] *)
Definition extractProfitFromReceipt (receipt : Receipt) : option Z :=
  match find (fun e => String.eqb (event e) "SandwichExecuted") (events receipt) with
  | Some sandwichEvent => args_profit sandwichEvent
  | None => Some 0
  end.

Section Executor.

Variable config : Config.

(** The outside world, by the outcome of each call: the chain's
    transaction count, the contract call, the tracking of a hash. *)
Variable getTransactionCount : result Z.
Variable send : Submission -> result string.
Variable trackTransaction : string -> Tracked.

(** [refreshNonce()]; [now] is [Date.now()].  Returns the new state and
    the requests made. *)
Definition refreshNonce (st : State) (now : Z) : result State * list Event :=
  if refreshDue st now
  then (applyCount st now getTransactionCount, [GetTransactionCount])
  else (Ok st, []).

(** The common tail of [executeWithETH] and [executeWithFlashLoan]. *)
Definition submitAndTrack (s : Submission) : ExecutionResult * list Event :=
  (try_catch
     (hash <- send s ;;
      match trackTransaction hash with
      | Confirmed receipt =>
          Ok {| success := true;
                txHash := Some hash;
                profit := extractProfitFromReceipt receipt;
                gasCost := Some (gasUsed receipt * effectiveGasPrice receipt);
                error := None |}
      | Reverted _ => Ok (failure "Transaction reverted")
      | TimedOut => Ok (failure "Transaction timeout")
      end)%js
     failure,
   [Submit s]).

(** [executeWithETH(...)] *)
Definition executeWithETH (tokenB : option string)
    (frontRunAmount backRunAmount : option Z) (victimAmount : Z)
    (gasPrice gasLimit : option Z) (deadline nonce : Z)
  : ExecutionResult * list Event :=
  submitAndTrack
    {| method := "executeSandwichWithETH";
       s_tokenA := None;
       s_tokenB := tokenB;
       s_flashLoanAmount := None;
       s_frontRunAmount := frontRunAmount;
       s_victimAmountMin := Z.quot (victimAmount * 90) 100;
       s_victimAmountMax := Z.quot (victimAmount * 110) 100;
       s_backRunAmount := backRunAmount;
       s_deadline := deadline;
       s_value := frontRunAmount;
       s_gasPrice := gasPrice;
       s_gasLimit := gasLimit;
       s_nonce := nonce |}.

(** [executeWithFlashLoan(...)] *)
Definition executeWithFlashLoan (tokenA tokenB : option string)
    (flashLoanAmount frontRunAmount backRunAmount : option Z) (victimAmount : Z)
    (gasPrice gasLimit : option Z) (deadline nonce : Z)
  : ExecutionResult * list Event :=
  submitAndTrack
    {| method := "executeSandwich";
       s_tokenA := tokenA;
       s_tokenB := tokenB;
       s_flashLoanAmount := flashLoanAmount;
       s_frontRunAmount := frontRunAmount;
       s_victimAmountMin := Z.quot (victimAmount * 90) 100;
       s_victimAmountMax := Z.quot (victimAmount * 110) 100;
       s_backRunAmount := backRunAmount;
       s_deadline := deadline;
       s_value := None;
       s_gasPrice := gasPrice;
       s_gasLimit := gasLimit;
       s_nonce := nonce |}.

(** [executeSandwich(opportunity, params)]; [now] is [Date.now()].
    Returns the result object, the executor's new state and the requests
    made, in order. *)
Definition executeSandwich (st : State) (now : Z)
    (opportunity : Opportunity) (params : SandwichOptimizer.SandwichParams)
  : ExecutionResult * State * list Event :=
  match refreshNonce st now with
  | (Throw message, log) => (failure message, st, log)
  | (Ok st1, log) =>
      let tokenA := nth_error (path opportunity) 0 in
      let tokenB := nth_error (path opportunity) 1 in
      let deadline := now / 1000 + 60 in
      let '(nonce, st2) := takeNonce st1 in
      match tokenA with
      | None =>
          (failure "Cannot read properties of undefined (reading 'toLowerCase')",
           st2, log)
      | Some a =>
          let '(r, log') :=
            if String.eqb (Str.toLowerCase a) (Str.toLowerCase (WETH_ADDRESS config))
               && USE_DIRECT_ETH config
            then executeWithETH tokenB
                   (SandwichOptimizer.sp_frontRunAmount params)
                   (SandwichOptimizer.sp_backRunAmount params)
                   (amountIn opportunity)
                   (SandwichOptimizer.sp_gasPrice params)
                   (SandwichOptimizer.sp_gasLimit params)
                   deadline nonce
            else executeWithFlashLoan tokenA tokenB
                   (SandwichOptimizer.sp_flashLoanAmount params)
                   (SandwichOptimizer.sp_frontRunAmount params)
                   (SandwichOptimizer.sp_backRunAmount params)
                   (amountIn opportunity)
                   (SandwichOptimizer.sp_gasPrice params)
                   (SandwichOptimizer.sp_gasLimit params)
                   deadline nonce in
          (r, st2, (log ++ log')%list)
      end
  end.

End Executor.

(** *** Overlapping calls

    An [async] function runs without interruption between two [await]s.
    [executeSandwich] awaits [refreshNonce], which awaits the chain's
    transaction count when a refresh is due; the statement
    [const nonce = this.currentNonce++] runs after that.  Several calls
    in flight on one executor interleave at these points. *)

(** Where one call of [executeSandwich] stands. *)
Inductive Call : Type :=
| Entered (now : Z)            (* called; [refreshNonce] not yet begun *)
| AwaitingCount (now : Z)      (* waiting for [getTransactionCount] *)
| Refreshed                    (* [refreshNonce] returned *)
| Assigned (nonce : Z)         (* [nonce] taken *)
| Rejected.                    (* [refreshNonce] threw *)

(** One scheduling step: call [i] runs up to its next [await]; a call
    waiting for the chain resumes with the answer [count]. *)
Inductive Step : Type :=
| Run (i : nat)
| Resume (i : nat) (count : result Z).

Fixpoint update {A : Type} (l : list A) (i : nat) (a : A) : list A :=
  match l, i with
  | [], _ => []
  | _ :: t, O => a :: t
  | h :: t, S i' => h :: update t i' a
  end.

Definition step (st : State) (calls : list Call) (s : Step) : State * list Call :=
  match s with
  | Run i =>
      match nth_error calls i with
      | Some (Entered now) =>
          if refreshDue st now then (st, update calls i (AwaitingCount now))
          else (st, update calls i Refreshed)
      | Some Refreshed =>
          let '(nonce, st') := takeNonce st in
          (st', update calls i (Assigned nonce))
      | _ => (st, calls)
      end
  | Resume i count =>
      match nth_error calls i with
      | Some (AwaitingCount now) =>
          match applyCount st now count with
          | Ok st' => (st', update calls i Refreshed)
          | Throw _ => (st, update calls i Rejected)
          end
      | _ => (st, calls)
      end
  end.

Fixpoint run (st : State) (calls : list Call) (schedule : list Step) : State * list Call :=
  match schedule with
  | [] => (st, calls)
  | s :: rest => let '(st', calls') := step st calls s in run st' calls' rest
  end.

(** The nonces the calls hold. *)
Definition assigned (calls : list Call) : list Z :=
  flat_map (fun c => match c with Assigned n => [n] | _ => [] end) calls.

(** A call that will not refresh, on an executor last refreshed at
    [last] and holding a non-zero nonce. *)
Definition quiet (last : Z) (c : Call) : bool :=
  match c with
  | Entered now => now - last <=? nonceRefreshInterval
  | Refreshed | Assigned _ => true
  | AwaitingCount _ | Rejected => false
  end.

(** [base], [base + 1], ..., [base + k - 1] *)
Definition consecutive (base : Z) (k : nat) : list Z :=
  map (fun j => base + Z.of_nat j) (seq 0 k).

(** The nonces of the transactions handed to the signer. *)
Definition submittedNonces (log : list Event) : list Z :=
  flat_map (fun e => match e with Submit s => [s_nonce s] | _ => [] end) log.

End SandwichExecutor.

(** ** core/OpportunityProcessor.js *)

Module OpportunityProcessor.

(** An entry of [this.pendingOpportunities]. *)
Record Pending : Type := {
  opportunity : Opportunity;
  detected : Z
}.

Record State : Type := {
  pendingOpportunities : JSMap.t Pending;
  processedOpportunities : JSSet.t
}.

Definition initial : State :=
  {| pendingOpportunities := []; processedOpportunities := [] |}.

(** [addOpportunity(txHash, opportunity)]; [now] is [Date.now()]. *)
Definition addOpportunity (st : State) (now : Z) (txHash : string) (opp : Opportunity)
  : bool * State :=
  if JSSet.has (processedOpportunities st) txHash then (false, st)
  else
    (true,
     {| pendingOpportunities :=
          JSMap.set (pendingOpportunities st) txHash
                    {| opportunity := opp; detected := now |};
        processedOpportunities := processedOpportunities st |}).

(** A detection: the time it is made, the source transaction hash and
    the opportunity found. *)
Definition Detection : Type := (Z * string * Opportunity)%type.

(** The state after a sequence of [addOpportunity] calls. *)
Definition addAll (st : State) (detections : list Detection) : State :=
  fold_left (fun st '(now, txHash, opp) => snd (addOpportunity st now txHash opp))
            detections st.

End OpportunityProcessor.

(** ** core/MempoolObserver.js *)

Module MempoolObserver.

Local Open Scope Z_scope.

(** An entry of [this.pendingOpportunities]. *)
Record Pending : Type := {
  opportunity : Opportunity;
  sandwichParams : SandwichOptimizer.SandwichParams;
  detected : Z
}.

Record State : Type := {
  processedTxs : JSSet.t;
  pendingOpportunities : JSMap.t Pending;
  txsAnalyzed : Z;
  opportunitiesDetected : Z
}.

Definition initial : State :=
  {| processedTxs := []; pendingOpportunities := [];
     txsAnalyzed := 0; opportunitiesDetected := 0 |}.

(** [isTxGasPriceTooHigh(tx)], given the parsed maximum gas price. *)
Definition isTxGasPriceTooHigh (maxGasPrice : Z) (tx : TransactionDecoder.Tx) : bool :=
  maxGasPrice <? TransactionDecoder.tx_gasPrice tx.

(** [handlePendingTransaction(txHash)], with the awaited collaborators
    given by their outcome: the provider's transaction lookup, the
    decoder's analysis of it, the optimizer's parameters for the
    opportunity found.  [now] is [Date.now()] at the [set]. *)
Definition handlePendingTransaction (st : State) (maxGasPrice : result Z)
    (getTransaction : result (option TransactionDecoder.Tx))
    (analyze : TransactionDecoder.Tx -> result (option Opportunity))
    (optimize : Opportunity -> SandwichOptimizer.SandwichParams)
    (now : Z) (txHash : string) : State :=
  let st1 := {| processedTxs := processedTxs st;
                pendingOpportunities := pendingOpportunities st;
                txsAnalyzed := txsAnalyzed st + 1;
                opportunitiesDetected := opportunitiesDetected st |} in
  match getTransaction with
  | Throw _ | Ok None => st1
  | Ok (Some tx) =>
      match TransactionDecoder.to tx, maxGasPrice with
      | None, _ | _, Throw _ => st1
      | Some _, Ok maxGasPrice =>
          if isTxGasPriceTooHigh maxGasPrice tx then st1
          else
            match analyze tx with
            | Throw _ | Ok None => st1
            | Ok (Some opp) =>
                let st2 := {| processedTxs := processedTxs st1;
                              pendingOpportunities := pendingOpportunities st1;
                              txsAnalyzed := txsAnalyzed st1;
                              opportunitiesDetected := opportunitiesDetected st1 + 1 |} in
                let params := optimize opp in
                if negb (SandwichOptimizer.sp_profitable params) then st2
                else
                  {| processedTxs := processedTxs st2;
                     pendingOpportunities :=
                       JSMap.set (pendingOpportunities st2) txHash
                                 {| opportunity := opp;
                                    sandwichParams := params;
                                    detected := now |};
                     txsAnalyzed := txsAnalyzed st2;
                     opportunitiesDetected := opportunitiesDetected st2 |}
            end
      end
  end.

(** The guard of the message handler: is the notified hash handled at
    all? *)
Definition accepts (st : State) (txHash : string) : bool :=
  negb (JSSet.has (processedTxs st) txHash).

(** What the message handler does once [handlePendingTransaction] has
    returned: the hash joins [processedTxs], and beyond 10000 members
    the 1000 oldest are dropped. *)
Definition markProcessed (st : State) (txHash : string) : State :=
  let processed := JSSet.add (processedTxs st) txHash in
  let processed :=
    if (10000 <? Z.of_nat (List.length processed)) then skipn 1000 processed
    else processed in
  {| processedTxs := processed;
     pendingOpportunities := pendingOpportunities st;
     txsAnalyzed := txsAnalyzed st;
     opportunitiesDetected := opportunitiesDetected st |}.

End MempoolObserver.

(** ** Concrete inputs *)

Module Scenarios.

Local Open Scope string_scope.
Local Open Scope Z_scope.

Definition ether (n : Z) : Z := n * 10 ^ 18.
Definition gwei (n : Z) : Z := n * 10 ^ 9.

(** [config.js] with no environment overrides. *)
Definition defaultConfig : Config :=
  {| WETH_ADDRESS := "0xC02aaA39b223FE8D0A0e5C4F27eAD9083C756Cc2";
     MIN_VICTIM_SIZE := JS.lit "5";
     MAX_GAS_PRICE := JS.lit "100";
     MIN_PROFIT_THRESHOLD := JS.lit "0.005";
     USE_DIRECT_ETH := false;
     OPPORTUNITY_TIMEOUT := 10000;
     SUPPORTED_DEXES :=
       [ "0x7a250d5630B4cF539739dF2C5dAcb4c659F2488D";
         "0xd9e1cE17f2641f24aE83637ab66a2cca9C378B9F" ];
     BLACKLISTED_TOKENS :=
       [ "0x6b3595068778dd592e39a122f4f5a5cf09c90fe2";
         "0x2b591e99afe9f32eaa6214f7b7629768c40eeb39";
         "0x798d1be841a82a273720ce31c822c61a67a601c3";
         "0x67c597624b17b16fb77959217360b7cd18284253";
         "0x7fc66500c84a76ad7e9c93437bfc5ac33e2ddae9";
         "0x9f8f72aa9304c8b593d555f12ef6589cc3a579a2";
         "0xa693b19d2931d498c5b318df961919bb4aee87a5";
         "0x6123b0049f904d730db3c36a31167d9d4121fa6b";
         "0x1f9840a85d5af5bf1d1762f925bdaddc4201f984";
         "0xc0d4ceb216b3ba9c3701b291766fdcba977cec3a";
         "0xd533a949740bb3306d119cc777fa900ba034cd52";
         "0x0391d2021f89dc339f60fff84546ea23e337750f";
         "0x9d65ff81a3c488d585bbfb0bfe3c7707c7917f54" ] |}.

Definition DAI : string := "0x6B175474E89094C44Da98b954EedeAC495271d0F".

(** Scenario A: reserves (1000, 1000), fee 0.3%, victim input 10. *)
Definition scenarioA : SandwichOptimizer.Params :=
  {| SandwichOptimizer.reserveIn := ether 1000;
     SandwichOptimizer.reserveOut := ether 1000;
     SandwichOptimizer.victimAmount := ether 10;
     SandwichOptimizer.fee := JS.lit "997" |}.

(** A thin pool: reserves (1, 10), fee 0.3%, victim input
    9.027081243731194. *)
Definition thinPool : SandwichOptimizer.Params :=
  {| SandwichOptimizer.reserveIn := ether 1;
     SandwichOptimizer.reserveOut := ether 10;
     SandwichOptimizer.victimAmount := 9027081243731194000;
     SandwichOptimizer.fee := JS.lit "997" |}.

(** Reserves (0.997, 10), fee 0.3%, victim input 100. *)
Definition fractionalPool : SandwichOptimizer.Params :=
  {| SandwichOptimizer.reserveIn := 997 * 10 ^ 15;
     SandwichOptimizer.reserveOut := ether 10;
     SandwichOptimizer.victimAmount := ether 100;
     SandwichOptimizer.fee := JS.lit "997" |}.

(** An opportunity over the given pool and victim, WETH to DAI. *)
Definition opportunityOver (r0 r1 victim victimGasPrice : Z) : Opportunity :=
  {| victimTx := "0x1111111111111111111111111111111111111111111111111111111111111111";
     router := "0x7a250d5630B4cF539739dF2C5dAcb4c659F2488D";
     path := [WETH_ADDRESS defaultConfig; DAI];
     amountIn := victim;
     amountOutMin := Some 0;
     deadline := Some 1700000000;
     pairAddress := "0xA478c2975Ab1Ea89e8196811F51A7B7Ade33eB11";
     pairInfo := {| token0 := Str.toLowerCase (WETH_ADDRESS defaultConfig);
                    token1 := Str.toLowerCase DAI;
                    reserve0 := r0;
                    reserve1 := r1 |};
     optimalFrontRunAmount := Z.quot (victim * 20) 100;
     optimalBackRunAmount := Z.quot (Z.quot (victim * 20) 100 * 95) 100;
     estimatedProfit := Z.quot (victim * 20) 10000;
     confidence := JS.lit "1";
     gasPrice := victimGasPrice;
     suggestedGasPrice := Z.quot (victimGasPrice * 115) 100;
     submittedTime := 1699999000000 |}.

(** The victim bids the configured maximum, 100 gwei. *)
Definition thinPoolOpportunity : Opportunity :=
  opportunityOver (ether 1) (ether 10) 9027081243731194000 (gwei 100).

(** A provider reporting a network gas price of 50 gwei. *)
Definition calmProvider : SandwichOptimizer.Provider :=
  {| SandwichOptimizer.getGasPrice := Ok (gwei 50);
     SandwichOptimizer.getBlockNumber := Ok 18500000;
     SandwichOptimizer.getBlock := fun _ =>
       Ok {| SandwichOptimizer.timestamp := 1699999000;
             SandwichOptimizer.baseFeePerGas := Some (gwei 40) |} |}.

(** A token outside the static deny-list. *)
Definition someToken : string := "0x00000000000000000000000000000000000000AA".

(** A provider whose [getCode] call fails. *)
Definition failingGetCode (_ : string) : result string := Throw "network error".

(** Byte code that contains the [rebase(uint256,uint256)] selector and
    not the [transfer] selector. *)
Definition rebaseOnlyCode (_ : string) : result string :=
  Ok "0x608060405263ffffffff60e01b6346a4e0ed14610030575b600080fd".

End Scenarios.

(** ** Stateful calls: state, exceptions, the clock *)

Module Eff.

Section WithState.
Context {S : Type}.

(** A computation over the mutable state [S] that returns a value or
    throws; what it wrote to the state before a throw stays written. *)
Definition M (A : Type) : Type := S -> result A * S.

Definition ret {A : Type} (a : A) : M A := fun s => (Ok a, s).

Definition lift {A : Type} (r : result A) : M A := fun s => (r, s).

Definition bind {A B : Type} (m : M A) (k : A -> M B) : M B :=
  fun s =>
    match m s with
    | (Ok a, s') => k a s'
    | (Throw msg, s') => (Throw msg, s')
    end.

(** [try { body } catch (error) { handler error.message }] *)
Definition try_catch {A : Type} (body : M A) (handler : string -> M A) : M A :=
  fun s =>
    match body s with
    | (Ok a, s') => (Ok a, s')
    | (Throw msg, s') => handler msg s'
    end.

Definition get : M S := fun s => (Ok s, s).

Definition put (s : S) : M unit := fun _ => (Ok tt, s).

End WithState.

Arguments M S A : clear implicits.

End Eff.

Declare Scope eff_scope.
Delimit Scope eff_scope with eff.
Notation "x <- c ;; k" := (Eff.bind c (fun x => k))
  (at level 61, c at next level, right associativity) : eff_scope.
Notation "c ;;; k" := (Eff.bind c (fun _ => k))
  (at level 61, right associativity) : eff_scope.

(** ** utils/TokenManager.js: token data, pair reserves, liquidity, value *)

Module TokenLookups.

Local Open Scope string_scope.
Local Open Scope Z_scope.

(** One entry of [config.SUPPORTED_DEXES]. *)
Record Dex : Type := {
  dex_name : string;
  dex_address : string;
  dex_factory : string;
  dex_initCodeHash : string
}.

(** The fields of [config.js] the token manager reads besides those of
    [Config]: the USDC address, the liquidity bounds, and
    [SUPPORTED_DEXES] with all the fields of its objects ([DEXES]; the
    [SUPPORTED_DEXES] of [Config] lists their [address] alone). *)
Record MarketConfig : Type := {
  base : Config;
  DEXES : list Dex;
  USDC_ADDRESS : string;
  MIN_PAIR_LIQUIDITY : JS.number;
  MAX_PAIR_LIQUIDITY : JS.number
}.

(** The object [getTokenInfo] returns. *)
Record TokenInfo : Type := {
  address : string;
  symbol : string;
  name : string;
  decimals : nat
}.

(** The object [getPairReserves] returns. *)
Record PairReserves : Type := {
  pairAddress : string;
  token0 : string;
  token1 : string;
  reserve0 : Z;
  reserve1 : Z;
  timestamp : Z
}.

(** An entry of [this.tokenCache] or [this.pairCache]; [cachedAt] is its
    [timestamp] property. *)
Record Cached (A : Type) : Type := {
  data : A;
  cachedAt : Z
}.
Arguments data {A} c.
Arguments cachedAt {A} c.

(** The caches of the token manager, and how often [Date.now()] has been
    read. *)
Record State : Type := {
  tokenCache : JSMap.t (Cached TokenInfo);
  pairCache : JSMap.t (Cached PairReserves);
  clockReads : nat
}.

(** The state the constructor sets up. *)
Definition initial : State :=
  {| tokenCache := []; pairCache := []; clockReads := 0 |}.

(** The state after one more reading of the clock. *)
Definition tick (s : State) : State :=
  {| tokenCache := tokenCache s;
     pairCache := pairCache s;
     clockReads := S (clockReads s) |}.

(** An ERC-20 contract instance, by the outcome of its view calls. *)
Record TokenContract : Type := {
  call_symbol : result string;
  call_name : result string;
  call_decimals : result nat
}.

(** A pair contract instance, by the outcome of its view calls;
    [getReserves] yields [reserve0] and [reserve1] first. *)
Record PairContract : Type := {
  call_token0 : result string;
  call_token1 : result string;
  call_getReserves : result (Z * Z)
}.

(** The world outside the token manager: contract construction and
    calls by their outcome, and the successive readings of [Date.now()]. *)
Record Chain : Type := {
  tokenContract : string -> result TokenContract;
  pairContract : string -> result PairContract;
  getPair : string -> string -> string -> result string;  (* factory, tokenA, tokenB *)
  clock : nat -> Z
}.

Definition cacheExpirationTime : Z := 10 * 60 * 1000.

(** [ethers.constants.AddressZero] *)
Definition AddressZero : string := "0x0000000000000000000000000000000000000000".

(** The result of [checkPairLiquidity]; its two early exits leave out
    [pair] and [dex]. *)
Record Liquidity : Type := {
  isLiquid : bool;
  isTooDeep : bool;
  liquidityValue : Z;
  pair : option PairReserves;
  dex : option string
}.

Definition notLiquid : Liquidity :=
  {| isLiquid := false; isTooDeep := false; liquidityValue := 0;
     pair := None; dex := None |}.

(** The loop variables [bestPair], [highestLiquidity], [bestDex]. *)
Record Best : Type := {
  bestPair : option PairReserves;
  highestLiquidity : Z;
  bestDex : option string
}.

(** [parseUnits(value, decimals)] with a numeric [decimals]: sizes above
    256 are rejected. *)
Definition parseUnitsBy (value : string) (decimals : nat) : result Z :=
  if Nat.leb decimals 256 then Ethers.parseUnits value decimals
  else Throw "invalid decimal size".

(** The token-side reserve of [p], doubled; the loop of
    [checkPairLiquidity] and its ETH valuation both compute it. *)
Definition doubledReserveOf (token : string) (p : PairReserves) : Z :=
  if String.eqb (Str.toLowerCase token) (Str.toLowerCase (token0 p))
  then reserve0 p * 2 else reserve1 p * 2.

(** The loop variables agree with one another: a pair is held exactly
    when a positive liquidity has been seen, and that liquidity is the
    pair's. *)
Definition coherent (tokenA : string) (best : Best) : bool :=
  match bestPair best with
  | Some p =>
      (highestLiquidity best =? doubledReserveOf tokenA p)
      && (0 <? highestLiquidity best)
  | None => highestLiquidity best =? 0
  end.

Section TokenLookups.

Variable config : MarketConfig.
Variable chain : Chain.

Local Abbreviation M := (Eff.M State).
Local Open Scope eff_scope.

Definition WETH : string := WETH_ADDRESS (base config).

(** [Date.now()] *)
Definition Date_now : M Z :=
  fun s => (Ok (clock chain (clockReads s)), tick s).

(** [this.tokenCache.set(key, entry)] *)
Definition setTokenCache (key : string) (entry : Cached TokenInfo) : M unit :=
  fun s =>
    (Ok tt,
     {| tokenCache := JSMap.set (tokenCache s) key entry;
        pairCache := pairCache s;
        clockReads := clockReads s |}).

(** [this.pairCache.set(key, entry)] *)
Definition setPairCache (key : string) (entry : Cached PairReserves) : M unit :=
  fun s =>
    (Ok tt,
     {| tokenCache := tokenCache s;
        pairCache := JSMap.set (pairCache s) key entry;
        clockReads := clockReads s |}).

(** The cache look-up that opens [getTokenInfo] and [getPairReserves]:
    the entry under [key] when there is one younger than [maxAge]. The
    clock is read only when an entry exists. *)
Definition cachedValue {A : Type} (cache : State -> JSMap.t (Cached A))
    (key : string) (maxAge : Z) : M (option A) :=
  s <- Eff.get ;;
  match JSMap.get (cache s) key with
  | Some cached =>
      now <- Date_now ;;
      Eff.ret (if now - cachedAt cached <? maxAge then Some (data cached) else None)
  | None => Eff.ret None
  end.

(** [getTokenInfo(tokenAddress)] *)
Definition getTokenInfo (tokenAddress : string) : M TokenInfo :=
  let cacheKey := Str.toLowerCase tokenAddress in
  hit <- cachedValue tokenCache cacheKey cacheExpirationTime ;;
  match hit with
  | Some info => Eff.ret info
  | None =>
      Eff.try_catch
        (tokenContract <- Eff.lift (tokenContract chain tokenAddress) ;;
         let symbol := try_catch (call_symbol tokenContract) (fun _ => "UNKNOWN") in
         let name := try_catch (call_name tokenContract) (fun _ => "Unknown Token") in
         let decimals := try_catch (call_decimals tokenContract) (fun _ => 18%nat) in
         let tokenInfo :=
           {| address := tokenAddress; symbol := symbol; name := name;
              decimals := decimals |} in
         now <- Date_now ;;
         setTokenCache cacheKey {| data := tokenInfo; cachedAt := now |} ;;;
         Eff.ret tokenInfo)
        (fun _ =>
           Eff.ret {| address := tokenAddress; symbol := "UNKNOWN";
                      name := "Unknown Token"; decimals := 18 |})
  end.

(** [getPairReserves(pairAddress, tokenA, tokenB)]; [None] is [null]. *)
Definition getPairReserves (pairAddress tokenA tokenB : string)
  : M (option PairReserves) :=
  let cacheKey := Str.toLowerCase pairAddress in
  hit <- cachedValue pairCache cacheKey 30000 ;;
  match hit with
  | Some reserves => Eff.ret (Some reserves)
  | None =>
      Eff.try_catch
        (pairContract <- Eff.lift (pairContract chain pairAddress) ;;
         token0 <- Eff.lift (call_token0 pairContract) ;;
         token1 <- Eff.lift (call_token1 pairContract) ;;
         reserves <- Eff.lift (call_getReserves pairContract) ;;
         let '(reserve0, reserve1) := reserves in
         stamped <- Date_now ;;
         let result :=
           {| pairAddress := pairAddress;
              token0 := Str.toLowerCase token0;
              token1 := Str.toLowerCase token1;
              reserve0 := reserve0;
              reserve1 := reserve1;
              timestamp := stamped |} in
         now <- Date_now ;;
         setPairCache cacheKey {| data := result; cachedAt := now |} ;;;
         Eff.ret (Some result))
        (fun _ => Eff.ret None)
  end.

(** The body of the [for (const factory of factoryAddresses)] loop of
    [checkPairLiquidity]; its [catch] moves on to the next factory. *)
Definition considerFactory (tokenA tokenB : string) (best : Best) (factory : string)
  : M Best :=
  Eff.try_catch
    (pairAddress <- Eff.lift (getPair chain factory tokenA tokenB) ;;
     if negb (String.eqb pairAddress "") && negb (String.eqb pairAddress AddressZero)
     then
       pairInfo <- getPairReserves pairAddress tokenA tokenB ;;
       match pairInfo with
       | Some pairInfo =>
           let liquidity := doubledReserveOf tokenA pairInfo in
           if highestLiquidity best <? liquidity
           then Eff.ret {| bestPair := Some pairInfo;
                           highestLiquidity := liquidity;
                           bestDex := Some factory |}
           else Eff.ret best
       | None => Eff.ret best
       end
     else Eff.ret best)
    (fun _ => Eff.ret best).

Fixpoint considerFactories (tokenA tokenB : string) (best : Best)
    (factories : list string) : M Best :=
  match factories with
  | [] => Eff.ret best
  | factory :: rest =>
      best' <- considerFactory tokenA tokenB best factory ;;
      considerFactories tokenA tokenB best' rest
  end.

(** [checkPairLiquidity(tokenA, tokenB)] *)
Definition checkPairLiquidity (tokenA tokenB : string) : M Liquidity :=
  Eff.try_catch
    (let factoryAddresses := map dex_factory (DEXES config) in
     best <- considerFactories tokenA tokenB
               {| bestPair := None; highestLiquidity := 0; bestDex := None |}
               factoryAddresses ;;
     match bestPair best with
     | None => Eff.ret notLiquid
     | Some bestPair =>
         let liquidityValueETH :=
           if String.eqb (Str.toLowerCase tokenA) (Str.toLowerCase WETH)
           then doubledReserveOf WETH bestPair
           else if String.eqb (Str.toLowerCase tokenB) (Str.toLowerCase WETH)
           then doubledReserveOf WETH bestPair
           else highestLiquidity best in
         minLiquidity <-
           Eff.lift (Ethers.parseEther (JS.ToString (MIN_PAIR_LIQUIDITY config))) ;;
         maxLiquidity <-
           Eff.lift (Ethers.parseEther (JS.ToString (MAX_PAIR_LIQUIDITY config))) ;;
         Eff.ret {| isLiquid := minLiquidity <=? liquidityValueETH;
                    isTooDeep := maxLiquidity <=? liquidityValueETH;
                    liquidityValue := liquidityValueETH;
                    pair := Some bestPair;
                    dex := bestDex best |}
     end)
    (fun _ => Eff.ret notLiquid).

(** [getTokenValueInETH(tokenAddress, amount)] *)
Definition getTokenValueInETH (tokenAddress : string) (amount : Z) : M Z :=
  Eff.try_catch
    (if String.eqb (Str.toLowerCase tokenAddress) (Str.toLowerCase WETH)
     then Eff.ret amount
     else
       wethPairCheck <- checkPairLiquidity tokenAddress WETH ;;
       if isLiquid wethPairCheck then
         tokenInfo <- getTokenInfo tokenAddress ;;
         let decimals := decimals tokenInfo in
         match pair wethPairCheck with
         | None => Eff.lift (Throw "Cannot read properties of undefined (reading 'token0')")
         | Some pair =>
             let isToken0 :=
               String.eqb (Str.toLowerCase (token0 pair)) (Str.toLowerCase tokenAddress) in
             let tokenReserve := if isToken0 then reserve0 pair else reserve1 pair in
             let wethReserve := if isToken0 then reserve1 pair else reserve0 pair in
             oneToken <- Eff.lift (parseUnitsBy "1" decimals) ;;
             one <- Eff.lift (Ethers.parseEther "1") ;;
             pricePerToken <- Eff.lift (Ethers.div (wethReserve * one) tokenReserve) ;;
             Eff.lift (Ethers.div (amount * pricePerToken) oneToken)
         end
       else
         let usdcAddress := USDC_ADDRESS config in
         usdcPairCheck <- checkPairLiquidity tokenAddress usdcAddress ;;
         wethUsdcPairCheck <- checkPairLiquidity WETH usdcAddress ;;
         if isLiquid usdcPairCheck && isLiquid wethUsdcPairCheck
         then Eff.lift (Ethers.div amount 100)
         else Eff.lift (Ethers.div amount 1000))
    (fun _ => Eff.lift (Ethers.div amount 1000)).

End TokenLookups.

End TokenLookups.

(** ** ethers v5: BigNumber to and from text *)

Module BigNumberText.

Local Open Scope string_scope.
Local Open Scope Z_scope.

(** [a.toString()]: the decimal numeral, with a minus sign when
    negative. *)
Definition toString (a : Z) : string :=
  (if a <? 0 then "-" else "") ++ Str.of_N (Z.abs_N a).

Definition is_hex_digit (c : ascii) : bool :=
  let n := nat_of_ascii c in
  Str.is_digit c
  || (Nat.leb 97 n && Nat.leb n 102)       (* a-f *)
  || (Nat.leb 65 n && Nat.leb n 70).       (* A-F *)

Definition hex_digit_val (c : ascii) : N :=
  let n := nat_of_ascii c in
  if Str.is_digit c then N.of_nat (n - 48)
  else if Nat.leb 97 n then N.of_nat (n - 87)
  else N.of_nat (n - 55).

Fixpoint all_chars (p : ascii -> bool) (s : string) : bool :=
  match s with
  | EmptyString => true
  | String c s' => p c && all_chars p s'
  end.

Fixpoint hex_value (s : string) (acc : N) : N :=
  match s with
  | EmptyString => acc
  | String c s' => hex_value s' (acc * 16 + hex_digit_val c)%N
  end.

(** What [BigNumber.from] makes of a string it does not reject: a
    number, or, for a hexadecimal numeral whose prefix is written
    ["0X"], an object that is no number.  ([toHex] puts ["0x"] before a
    string that does not begin with it, so the [_hex] of that object
    holds an ["X"]; nothing checks it until the object is first used,
    which then throws.)  [text] is the string given. *)
Inductive Built : Type :=
| Number (value : Z)
| Unusable (text : string).

(** [BigNumber.from(value)] for a string: [/^-?0x[0-9a-f]+$/i] is read
    as hexadecimal, [/^-?[0-9]+$/] as decimal, anything else is
    rejected. *)
Definition from_string (value : string) : result Built :=
  let '(negative, body) :=
    match value with
    | String "-" rest => (true, rest)
    | _ => (false, value)
    end in
  let signed (n : Z) := if negative then - n else n in
  match body with
  | String "0" (String x (String c rest)) =>
      if (Ascii.eqb x "x" || Ascii.eqb x "X") && all_chars is_hex_digit (String c rest)
      then
        if Ascii.eqb x "x"
        then Ok (Number (signed (Z.of_N (hex_value (String c rest) 0))))
        else Ok (Unusable value)
      else if all_chars Str.is_digit body
      then Ok (Number (signed (Ethers.from_digits body)))
      else Throw "invalid BigNumber string"
  | String _ _ =>
      if all_chars Str.is_digit body then Ok (Number (signed (Ethers.from_digits body)))
      else Throw "invalid BigNumber string"
  | EmptyString => Throw "invalid BigNumber string"
  end.

End BigNumberText.

(** ** utils/ProfitTracker.js *)

Module ProfitTracker.

Local Open Scope string_scope.
Local Open Scope Z_scope.

Record Tokens : Type := {
  tokenA : option string;
  tokenB : option string
}.

(** A profit entry; its three amounts are BigNumbers in memory ([Entry Z])
    and decimal strings in the log file ([Entry string]). *)
Record Entry (Amount : Type) : Type := {
  timestamp : Z;
  victimTxHash : string;
  sandwichTxHash : option string;
  profit : Amount;
  gasCost : Amount;
  netProfit : Amount;
  tokens : Tokens
}.
Arguments timestamp {Amount} e.
Arguments victimTxHash {Amount} e.
Arguments sandwichTxHash {Amount} e.
Arguments profit {Amount} e.
Arguments gasCost {Amount} e.
Arguments netProfit {Amount} e.
Arguments tokens {Amount} e.

(** [({ ...entry, profit: f(entry.profit), gasCost: f(entry.gasCost),
    netProfit: f(entry.netProfit) })] *)
Definition convert {A B : Type} (f : A -> result B) (entry : Entry A) : result (Entry B) :=
  (p <- f (profit entry) ;;
   g <- f (gasCost entry) ;;
   n <- f (netProfit entry) ;;
   Ok {| timestamp := timestamp entry;
         victimTxHash := victimTxHash entry;
         sandwichTxHash := sandwichTxHash entry;
         profit := p;
         gasCost := g;
         netProfit := n;
         tokens := tokens entry |})%js.

(** [array.map(f)] for an [f] that may throw. *)
Fixpoint mapResult {A B : Type} (f : A -> result B) (l : list A) : result (list B) :=
  match l with
  | [] => Ok []
  | a :: rest =>
      (b <- f a ;;
       bs <- mapResult f rest ;;
       Ok (b :: bs))%js
  end.

(** The log file: absent, or present with the outcome of reading and
    [JSON.parse]-ing it. *)
Inductive File : Type :=
| Absent
| Present (parsedData : result (list (Entry string))).

(** [loadProfitHistory()]: the value [this.profits] is left with. *)
Definition loadProfitHistory (file : File) : list (Entry BigNumberText.Built) :=
  match file with
  | Absent => []
  | Present parsed =>
      try_catch
        (parsedData <- parsed ;;
         mapResult (convert BigNumberText.from_string) parsedData)%js
        (fun _ => [])
  end.

(** An entry held in memory whose three amounts are numbers. *)
Definition asBuilt (entry : Entry Z) : Entry BigNumberText.Built :=
  {| timestamp := timestamp entry;
     victimTxHash := victimTxHash entry;
     sandwichTxHash := sandwichTxHash entry;
     profit := BigNumberText.Number (profit entry);
     gasCost := BigNumberText.Number (gasCost entry);
     netProfit := BigNumberText.Number (netProfit entry);
     tokens := tokens entry |}.

(** [saveProfitHistory()]: the data handed to [JSON.stringify] and
    written to the file. *)
Definition saveProfitHistory (profits : list (Entry Z)) : list (Entry string) :=
  map (fun entry =>
         {| timestamp := timestamp entry;
            victimTxHash := victimTxHash entry;
            sandwichTxHash := sandwichTxHash entry;
            profit := BigNumberText.toString (profit entry);
            gasCost := BigNumberText.toString (gasCost entry);
            netProfit := BigNumberText.toString (netProfit entry);
            tokens := tokens entry |})
      profits.

(** The tracker: the entries held, all with numbers for amounts; the
    data handed to [fs.writeFileSync] so far, oldest first, whether or
    not the write went through; and whether the interval timer
    [this.autoSaveInterval] is still set. *)
Record State : Type := {
  profits : list (Entry Z);
  written : list (list (Entry string));
  autoSaveInterval : bool
}.

(** The tracker the constructor leaves when [loadProfitHistory] has read
    the entries [loaded]: nothing is written at that point and the timer
    is set.  ([calculateStatistics], called before the timer is set,
    throws on an amount that is no number, so the constructor finishes
    only when all loaded amounts are numbers.) *)
Definition constructed (loaded : list (Entry Z)) : State :=
  {| profits := loaded; written := []; autoSaveInterval := true |}.

(** [saveProfitHistory()] as a step of the tracker. *)
Definition save (st : State) : State :=
  {| profits := profits st;
     written := (written st ++ [saveProfitHistory (profits st)])%list;
     autoSaveInterval := autoSaveInterval st |}.

(** [recordProfit(profitData)] *)
Definition recordProfit (st : State) (profitData : Entry Z) : State :=
  let st :=
    {| profits := (profits st ++ [profitData])%list;
       written := written st;
       autoSaveInterval := autoSaveInterval st |} in
  if Nat.eqb (Nat.modulo (List.length (profits st)) 5) 0 then save st else st.

(** The callback of the five-minute interval timer; it runs only while
    the timer is set. *)
Definition autoSave (st : State) : State :=
  if autoSaveInterval st then save st else st.

(** [cleanup()] *)
Definition cleanup (st : State) : State :=
  save {| profits := profits st; written := written st; autoSaveInterval := false |}.

(** What happens to a tracker during a run. *)
Inductive Event : Type :=
| Recorded (profitData : Entry Z)
| TimerFired
| CleanedUp.

Definition step (st : State) (event : Event) : State :=
  match event with
  | Recorded profitData => recordProfit st profitData
  | TimerFired => autoSave st
  | CleanedUp => cleanup st
  end.

Definition run (st : State) (events : list Event) : State := fold_left step events st.

(** The entries the events record, in order. *)
Definition recorded (events : list Event) : list (Entry Z) :=
  flat_map (fun event => match event with Recorded e => [e] | _ => [] end) events.

(** The log file after the writes [written], the file being [found] at
    the start: [outcomes] tells how each write went, [None] for one that
    succeeded and [Some file] for one that threw and left [file]
    behind. *)
Definition fileAfter (found : File) (written : list (list (Entry string)))
    (outcomes : list (option File)) : File :=
  fold_left (fun file '(data, outcome) =>
               match outcome with
               | None => Present (Ok data)
               | Some leftBehind => leftBehind
               end)
            (combine written outcomes) found.

(** How the entries held stand to the last write: [kept] are the entries
    of the last write (or, before any write, those loaded), [unsaved]
    the entries after them. *)
Definition splitAtLastWrite (loaded : list (Entry Z)) (st : State)
    (kept unsaved : list (Entry Z)) : Prop :=
  profits st = (kept ++ unsaved)%list /\
  (List.length unsaved <= List.length (profits st) mod 5)%nat /\
  (written st = [] /\ kept = loaded \/
   exists earlier, written st = (earlier ++ [saveProfitHistory kept])%list).

(** The tracker of a first run: no log file was found. *)
Definition empty : State := constructed [].

(** [profits.reduce((sum, entry) => sum.add(field(entry)),
    BigNumber.from(0))] *)
Definition total (field : Entry Z -> Z) (profits : list (Entry Z)) : Z :=
  fold_left (fun sum entry => sum + field entry) profits 0.

(** A value of [pairProfits]. *)
Record PairData : Type := {
  pair : string;
  pd_tokenA : option string;
  pd_tokenB : option string;
  totalProfit : Z;
  count : Z
}.

(** A template literal's rendering of a token that may be
    [undefined]. *)
Definition show (token : option string) : string :=
  match token with
  | Some t => t
  | None => "undefined"
  end.

(** The body of the [for (const entry of this.profits)] loop of
    [calculateStatistics]. *)
Definition addToPair (pairProfits : JSMap.t PairData) (entry : Entry Z)
  : JSMap.t PairData :=
  let pairKey := show (tokenA (tokens entry)) ++ "-" ++ show (tokenB (tokens entry)) in
  let pairProfits :=
    if negb (JSMap.has pairProfits pairKey)
    then JSMap.set pairProfits pairKey
           {| pair := pairKey;
              pd_tokenA := tokenA (tokens entry);
              pd_tokenB := tokenB (tokens entry);
              totalProfit := 0;
              count := 0 |}
    else pairProfits in
  match JSMap.get pairProfits pairKey with
  | Some pairData =>
      JSMap.set pairProfits pairKey
        {| pair := pair pairData;
           pd_tokenA := pd_tokenA pairData;
           pd_tokenB := pd_tokenB pairData;
           totalProfit := totalProfit pairData + netProfit entry;
           count := count pairData + 1 |}
  | None => pairProfits
  end.

(** The sum of [field] over the values of [pairProfits]. *)
Definition sumOver (field : PairData -> Z) (pairProfits : JSMap.t PairData) : Z :=
  fold_right (fun e acc => field (snd e) + acc) 0 pairProfits.

(** [pairProfits] once the loop has run. *)
Definition pairProfits (profits : list (Entry Z)) : JSMap.t PairData :=
  fold_left addToPair profits [].

End ProfitTracker.

(** ** The processing loops *)

(** The counters of [this.stats] the two loops update. *)
Record ExecutionStats : Type := {
  opportunitiesExecuted : Z;
  successfulExecutions : Z;
  failedExecutions : Z;
  totalProfit : Z;
  totalGasCost : Z
}.

Definition noExecutions : ExecutionStats :=
  {| opportunitiesExecuted := 0;
     successfulExecutions := 0; failedExecutions := 0;
     totalProfit := 0; totalGasCost := 0 |}.

(** [this.stats.opportunitiesExecuted++] *)
Definition countExecuted (s : ExecutionStats) : ExecutionStats :=
  {| opportunitiesExecuted := opportunitiesExecuted s + 1;
     successfulExecutions := successfulExecutions s;
     failedExecutions := failedExecutions s;
     totalProfit := totalProfit s;
     totalGasCost := totalGasCost s |}.

(** [this.stats.successfulExecutions++] *)
Definition countSuccessful (s : ExecutionStats) : ExecutionStats :=
  {| opportunitiesExecuted := opportunitiesExecuted s;
     successfulExecutions := successfulExecutions s + 1;
     failedExecutions := failedExecutions s;
     totalProfit := totalProfit s;
     totalGasCost := totalGasCost s |}.

(** [this.stats.failedExecutions++] *)
Definition countFailed (s : ExecutionStats) : ExecutionStats :=
  {| opportunitiesExecuted := opportunitiesExecuted s;
     successfulExecutions := successfulExecutions s;
     failedExecutions := failedExecutions s + 1;
     totalProfit := totalProfit s;
     totalGasCost := totalGasCost s |}.

(** [this.stats.totalProfit = this.stats.totalProfit.add(profit)] *)
Definition addProfit (s : ExecutionStats) (profit : Z) : ExecutionStats :=
  {| opportunitiesExecuted := opportunitiesExecuted s;
     successfulExecutions := successfulExecutions s;
     failedExecutions := failedExecutions s;
     totalProfit := totalProfit s + profit;
     totalGasCost := totalGasCost s |}.

(** [this.stats.totalGasCost = this.stats.totalGasCost.add(gasCost)] *)
Definition addGasCost (s : ExecutionStats) (gasCost : Z) : ExecutionStats :=
  {| opportunitiesExecuted := opportunitiesExecuted s;
     successfulExecutions := successfulExecutions s;
     failedExecutions := failedExecutions s;
     totalProfit := totalProfit s;
     totalGasCost := totalGasCost s + gasCost |}.

(** [path[path.length - 1]] *)
Definition lastToken (path : list string) : option string :=
  nth_error path (List.length path - 1).

(** The argument both loops hand to [profitTracker.recordProfit]. *)
Definition profitEntry (recordedAt : Z) (txHash : string) (opportunity : Opportunity)
    (result : SandwichExecutor.ExecutionResult) (profit gasCost : Z)
  : ProfitTracker.Entry Z :=
  {| ProfitTracker.timestamp := recordedAt;
     ProfitTracker.victimTxHash := txHash;
     ProfitTracker.sandwichTxHash := SandwichExecutor.txHash result;
     ProfitTracker.profit := profit;
     ProfitTracker.gasCost := gasCost;
     ProfitTracker.netProfit := profit - gasCost;
     ProfitTracker.tokens :=
       {| ProfitTracker.tokenA := nth_error (path opportunity) 0;
          ProfitTracker.tokenB := lastToken (path opportunity) |} |}.

(** *** core/OpportunityProcessor.js: [processOpportunities] *)

Module ProcessorLoop.

Section WithExecutor.

(** The state of the executor the loop drives. *)
Context {E : Type}.

(** The processor: its queue and set of processed hashes, its counters,
    its executor and profit tracker, and the victim hashes it has handed
    to [executeSandwich], oldest first. *)
Record State : Type := {
  queue : OpportunityProcessor.State;
  stats : ExecutionStats;
  executor : E;
  profitTracker : ProfitTracker.State;
  executed : list string
}.

Variable config : Config.

(** The awaited collaborators by their outcome: the optimizer's
    parameters for an opportunity, the executor's run on them, and the
    reading of [Date.now()] when the profit of a hash is recorded. *)
Variable optimize : Opportunity -> SandwichOptimizer.SandwichParams.
Variable execute :
  E -> Opportunity -> SandwichOptimizer.SandwichParams ->
  SandwichExecutor.ExecutionResult * E.
Variable recordedAt : string -> Z.

(** [this.pendingOpportunities.delete(txHash);
    this.processedOpportunities.add(txHash);] *)
Definition retire (txHash : string) (st : State) : State :=
  {| queue :=
       {| OpportunityProcessor.pendingOpportunities :=
            JSMap.delete (OpportunityProcessor.pendingOpportunities (queue st)) txHash;
          OpportunityProcessor.processedOpportunities :=
            JSSet.add (OpportunityProcessor.processedOpportunities (queue st)) txHash |};
     stats := stats st;
     executor := executor st;
     profitTracker := profitTracker st;
     executed := executed st |}.

Definition withStats (f : ExecutionStats -> ExecutionStats) (st : State) : State :=
  {| queue := queue st;
     stats := f (stats st);
     executor := executor st;
     profitTracker := profitTracker st;
     executed := executed st |}.

(** [await this.executor.executeSandwich(opportunity, sandwichParams)] *)
Definition runExecutor (txHash : string) (opportunity : Opportunity)
    (sandwichParams : SandwichOptimizer.SandwichParams) (st : State)
  : SandwichExecutor.ExecutionResult * State :=
  let '(result, executor') := execute (executor st) opportunity sandwichParams in
  (result,
   {| queue := queue st;
      stats := stats st;
      executor := executor';
      profitTracker := profitTracker st;
      executed := executed st ++ [txHash] |}).

(** [this.profitTracker.recordProfit(entry)] *)
Definition track (entry : ProfitTracker.Entry Z) (st : State) : State :=
  {| queue := queue st;
     stats := stats st;
     executor := executor st;
     profitTracker := ProfitTracker.recordProfit (profitTracker st) entry;
     executed := executed st |}.

(** What follows a successful execution inside the [try]: the counters
    and the profit record.  An [undefined] profit or gas cost makes
    [BigNumber.add] throw; what was written before stays written. *)
Definition recordSuccess (txHash : string) (opportunity : Opportunity)
    (result : SandwichExecutor.ExecutionResult) : Eff.M State unit :=
  fun st =>
    let st := withStats countSuccessful st in
    match SandwichExecutor.profit result with
    | None => (Throw "invalid BigNumber value", st)
    | Some profit =>
        let st := withStats (fun s => addProfit s profit) st in
        match SandwichExecutor.gasCost result with
        | None => (Throw "invalid BigNumber value", st)
        | Some gasCost =>
            let st := withStats (fun s => addGasCost s gasCost) st in
            (Ok tt,
             track (profitEntry (recordedAt txHash) txHash opportunity result
                                profit gasCost) st)
        end
    end.

(** The body of the [for ... of this.pendingOpportunities.entries()]
    loop; [now] is the [Date.now()] read once, when the pass began: an
    entry's age is tested against it however long the executions
    awaited before the entry's turn have taken. *)
Definition processEntry (now : Z) (st : State)
    (entry : string * OpportunityProcessor.Pending) : State :=
  let '(txHash, pending) := entry in
  let opportunity := OpportunityProcessor.opportunity pending in
  if OPPORTUNITY_TIMEOUT config <? now - OpportunityProcessor.detected pending
  then retire txHash st
  else
    let sandwichParams := optimize opportunity in
    if negb (SandwichOptimizer.sp_profitable sandwichParams)
    then retire txHash st
    else
      let st := withStats countExecuted st in
      let '(result, st) := runExecutor txHash opportunity sandwichParams st in
      let st := retire txHash st in
      if SandwichExecutor.success result then
        match recordSuccess txHash opportunity result st with
        | (Ok _, st) => st
        | (Throw _, st) => retire txHash st
        end
      else withStats countFailed st.

(** Is the entry one the loop hands to the executor: not timed out,
    and profitable by the optimizer? *)
Definition reachesExecutor (now : Z) (entry : string * OpportunityProcessor.Pending)
  : bool :=
  negb (OPPORTUNITY_TIMEOUT config <? now - OpportunityProcessor.detected (snd entry))
  && SandwichOptimizer.sp_profitable
       (optimize (OpportunityProcessor.opportunity (snd entry))).

(** One turn of the [while (this.isActive)] loop, up to its [sleep], no
    opportunity being added meanwhile; [currentGasPrice] is the outcome
    of [provider.getGasPrice()]. *)
Definition pass (now : Z) (currentGasPrice : result Z) (st : State) : State :=
  try_catch
    (currentGasPrice <- currentGasPrice ;;
     maxGasPrice <- Ethers.parseUnits (JS.ToString (MAX_GAS_PRICE config)) 9 ;;
     Ok (if maxGasPrice <? currentGasPrice then st
         else fold_left (processEntry now)
                (OpportunityProcessor.pendingOpportunities (queue st)) st))%js
    (fun _ => st).

End WithExecutor.

Arguments State E : clear implicits.

(** [cleanupProcessedOpportunities()] on [this.processedOpportunities] *)
Definition cleanupProcessedOpportunities (processed : JSSet.t) : JSSet.t :=
  let size := Z.of_nat (List.length processed) in
  if 10000 <? size
  then
    let toRemove := size - 5000 in
    skipn (Z.to_nat toRemove) processed
  else processed.

End ProcessorLoop.

(** *** core/MempoolObserver.js: [processOpportunities] *)

Module ObserverLoop.

Section WithExecutor.

Context {E : Type}.

(** The part of the observer its processing loop works on. *)
Record State : Type := {
  pendingOpportunities : JSMap.t MempoolObserver.Pending;
  stats : ExecutionStats;
  lastStatsReport : Z;
  executor : E;
  profitTracker : ProfitTracker.State;
  executed : list string
}.

Definition reportingInterval : Z := 5 * 60 * 1000.

Variable config : Config.

(** The awaited collaborators by their outcome: the network gas price
    asked for when the entry of a hash is reached, the executor's run,
    and the reading of [Date.now()] when the profit of a hash is
    recorded. *)
Variable getGasPrice : string -> result Z.
Variable execute :
  E -> Opportunity -> SandwichOptimizer.SandwichParams ->
  SandwichExecutor.ExecutionResult * E.
Variable recordedAt : string -> Z.

(** [this.pendingOpportunities.delete(txHash)] *)
Definition remove (txHash : string) (st : State) : State :=
  {| pendingOpportunities := JSMap.delete (pendingOpportunities st) txHash;
     stats := stats st;
     lastStatsReport := lastStatsReport st;
     executor := executor st;
     profitTracker := profitTracker st;
     executed := executed st |}.

Definition withStats (f : ExecutionStats -> ExecutionStats) (st : State) : State :=
  {| pendingOpportunities := pendingOpportunities st;
     stats := f (stats st);
     lastStatsReport := lastStatsReport st;
     executor := executor st;
     profitTracker := profitTracker st;
     executed := executed st |}.

(** [await this.executor.executeSandwich(opportunity, sandwichParams)] *)
Definition runExecutor (txHash : string) (opportunity : Opportunity)
    (sandwichParams : SandwichOptimizer.SandwichParams) (st : State)
  : SandwichExecutor.ExecutionResult * State :=
  let '(result, executor') := execute (executor st) opportunity sandwichParams in
  (result,
   {| pendingOpportunities := pendingOpportunities st;
      stats := stats st;
      lastStatsReport := lastStatsReport st;
      executor := executor';
      profitTracker := profitTracker st;
      executed := executed st ++ [txHash] |}).

(** [this.profitTracker.recordProfit(entry)] *)
Definition track (entry : ProfitTracker.Entry Z) (st : State) : State :=
  {| pendingOpportunities := pendingOpportunities st;
     stats := stats st;
     lastStatsReport := lastStatsReport st;
     executor := executor st;
     profitTracker := ProfitTracker.recordProfit (profitTracker st) entry;
     executed := executed st |}.

(** [currentGasPrice.gt(ethers.utils.parseUnits(
    config.MAX_GAS_PRICE.toString(), 'gwei'))] for the price awaited at
    the entry of [txHash]. *)
Definition gasPriceTooHigh (txHash : string) : result bool :=
  (currentGasPrice <- getGasPrice txHash ;;
   maxGasPrice <- Ethers.parseUnits (JS.ToString (MAX_GAS_PRICE config)) 9 ;;
   Ok (maxGasPrice <? currentGasPrice))%js.

(** Has the entry timed out at [now]? *)
Definition expired (now : Z) (entry : string * MempoolObserver.Pending) : bool :=
  OPPORTUNITY_TIMEOUT config <? now - MempoolObserver.detected (snd entry).

(** Does the loop leave the entry in the queue: not timed out, and the
    gas price above the maximum at its turn? *)
Definition staysQueued (now : Z) (entry : string * MempoolObserver.Pending) : bool :=
  negb (expired now entry)
  && match gasPriceTooHigh (fst entry) with Ok true => true | _ => false end.

(** Does the loop hand the entry to the executor: not timed out, and
    the gas price within the maximum at its turn? *)
Definition reachesExecutor (now : Z) (entry : string * MempoolObserver.Pending) : bool :=
  negb (expired now entry)
  && match gasPriceTooHigh (fst entry) with Ok false => true | _ => false end.

(** The body of the [for ... of this.pendingOpportunities.entries()]
    loop; a throw leaves the loop for the [catch] of the pass.  [now] is
    the [Date.now()] read once, before the loop: an entry's age is
    tested against it however long the executions awaited before the
    entry's turn have taken. *)
Definition processEntry (now : Z) (entry : string * MempoolObserver.Pending)
  : Eff.M State unit :=
  fun st =>
    let '(txHash, pending) := entry in
    let opportunity := MempoolObserver.opportunity pending in
    let sandwichParams := MempoolObserver.sandwichParams pending in
    if OPPORTUNITY_TIMEOUT config <? now - MempoolObserver.detected pending
    then (Ok tt, remove txHash st)
    else
      match gasPriceTooHigh txHash with
      | Throw message => (Throw message, st)
      | Ok true => (Ok tt, st)
      | Ok false =>
          let st := withStats countExecuted st in
          let '(result, st) := runExecutor txHash opportunity sandwichParams st in
          let st := remove txHash st in
          if SandwichExecutor.success result then
            let st := withStats countSuccessful st in
            match SandwichExecutor.profit result with
            | None => (Throw "invalid BigNumber value", st)
            | Some profit =>
                let st := withStats (fun s => addProfit s profit) st in
                match SandwichExecutor.gasCost result with
                | None => (Throw "invalid BigNumber value", st)
                | Some gasCost =>
                    let st := withStats (fun s => addGasCost s gasCost) st in
                    (Ok tt,
                     track (profitEntry (recordedAt txHash) txHash opportunity result
                                        profit gasCost) st)
                end
            end
          else (Ok tt, withStats countFailed st)
      end.

(** The [for] loop over the entries present when the pass began. *)
Fixpoint processEntries (now : Z) (entries : list (string * MempoolObserver.Pending))
  : Eff.M State unit :=
  match entries with
  | [] => Eff.ret tt
  | entry :: rest =>
      Eff.bind (processEntry now entry) (fun _ => processEntries now rest)
  end.

(** [if (now - this.lastStatsReport > this.reportingInterval) {
    this.generateStatsReport(); this.lastStatsReport = now; }] *)
Definition reportIfDue (now : Z) : Eff.M State unit :=
  fun st =>
    (Ok tt,
     if reportingInterval <? now - lastStatsReport st
     then {| pendingOpportunities := pendingOpportunities st;
             stats := stats st;
             lastStatsReport := now;
             executor := executor st;
             profitTracker := profitTracker st;
             executed := executed st |}
     else st).

(** One turn of the [while (this.isActive)] loop, up to its [sleep], no
    opportunity being added meanwhile: the state it leaves, and whether
    it went through or ended in its [catch]. *)
Definition pass (now : Z) (st : State) : result unit * State :=
  Eff.bind (processEntries now (pendingOpportunities st))
           (fun _ => reportIfDue now) st.

End WithExecutor.

Arguments State E : clear implicits.

End ObserverLoop.

(** ** utils/SandwichExecutor.js: replacing and tracking a transaction *)

Module Replacement.

Local Open Scope string_scope.
Local Open Scope Z_scope.

(** A transaction as [provider.getTransaction] returns it. *)
Record Transaction : Type := {
  to : option string;
  from : string;
  nonce : Z;
  data : string;
  value : Z;
  gasLimit : Z;
  gasPrice : option Z;
  blockNumber : option Z
}.

(** The object handed to [wallet.signTransaction]. *)
Record ReplacementTx : Type := {
  r_to : option string;
  r_from : string;
  r_nonce : Z;
  r_data : string;
  r_value : Z;
  r_gasLimit : Z;
  r_gasPrice : Z
}.

(** The requests [speedUpTransaction] makes to the outside. *)
Inductive Request : Type :=
| GetTransaction (txHash : string)
| SignTransaction (replacementTx : ReplacementTx)
| SendTransaction (signedTx : string).

(** The object [speedUpTransaction] returns. *)
Record Outcome : Type := {
  success : bool;
  originalTxHash : option string;
  newTxHash : option string;
  newGasPrice : option Z;        (* the [gasPrice] property *)
  error : option string
}.

Definition failure (message : string) : Outcome :=
  {| success := false; originalTxHash := None; newTxHash := None;
     newGasPrice := None; error := Some message |}.

Section Replacement.

Variable config : Config.

(** The provider and the wallet, by the outcome of each call. *)
Variable getTransaction : string -> result (option Transaction).
Variable signTransaction : ReplacementTx -> result string.
Variable sendTransaction : string -> result string.

Local Abbreviation M := (Eff.M (list Request)).
Local Open Scope eff_scope.

(** A call is made: it joins the log and its outcome comes back. *)
Definition request {A : Type} (r : Request) (outcome : result A) : M A :=
  fun log => (outcome, (log ++ [r])%list).

(** [if (tx.blockNumber)]: a block number other than [null] and [0]. *)
Definition confirmed (tx : Transaction) : bool :=
  match blockNumber tx with
  | Some n => negb (n =? 0)
  | None => false
  end.

(** [speedUpTransaction(txHash, gasPriceMultiplier = 1.5)]; [None] is an
    omitted multiplier. Returns the result object and the requests made,
    in order. *)
Definition speedUpTransaction (txHash : string) (gasPriceMultiplier : option JS.number)
  : Outcome * list Request :=
  let gasPriceMultiplier :=
    match gasPriceMultiplier with
    | Some m => m
    | None => JS.lit "1.5"
    end in
  let '(outcome, log) :=
    Eff.try_catch
      (tx <- request (GetTransaction txHash) (getTransaction txHash) ;;
       match tx with
       | None => Eff.lift (Throw ("Transaction " ++ txHash ++ " not found"))
       | Some tx =>
           if confirmed tx then Eff.ret (failure "Transaction already confirmed")
           else
             gasPrice <-
               Eff.lift match gasPrice tx with
                        | Some p => Ok p
                        | None => Throw "Cannot read properties of undefined (reading 'mul')"
                        end ;;
             scaled <-
               Eff.lift (Ethers.mul_number gasPrice
                           (JS.Math_floor (JS.mul gasPriceMultiplier (JS.lit "100")))) ;;
             newGasPrice <- Eff.lift (Ethers.div scaled 100) ;;
             maxGasPrice <-
               Eff.lift (Ethers.parseUnits (JS.ToString (MAX_GAS_PRICE config)) 9) ;;
             let finalGasPrice :=
               if maxGasPrice <? newGasPrice then maxGasPrice else newGasPrice in
             let replacementTx :=
               {| r_to := to tx;
                  r_from := from tx;
                  r_nonce := nonce tx;
                  r_data := data tx;
                  r_value := value tx;
                  r_gasLimit := gasLimit tx;
                  r_gasPrice := finalGasPrice |} in
             signedTx <- request (SignTransaction replacementTx)
                                 (signTransaction replacementTx) ;;
             txResponse <- request (SendTransaction signedTx) (sendTransaction signedTx) ;;
             Eff.ret {| success := true;
                        originalTxHash := Some txHash;
                        newTxHash := Some txResponse;
                        newGasPrice := Some finalGasPrice;
                        error := None |}
       end)
      (fun message => Eff.ret (failure message))
      [] in
  (match outcome with
   | Ok o => o
   | Throw message => failure message
   end,
   log).

End Replacement.

End Replacement.

Module Tracking.

Local Open Scope string_scope.
Local Open Scope Z_scope.

(** What reaches a tracked transaction: its timer runs out, or the
    provider delivers its receipt. *)
Inductive Signal : Type :=
| TimerFired
| ReceiptArrived (receipt : SandwichExecutor.Receipt).

(** The object the promise of [trackTransaction] resolves with. *)
Record Resolution : Type := {
  success : bool;
  error : option string;
  receipt : option SandwichExecutor.Receipt
}.

(** One call of [trackTransaction]: the [resolved] flag of its tracking
    entry, the hashes in [this.pendingTxs] with the time tracking began,
    whether its timer is armed, and the values [resolve] was called
    with, oldest first. *)
Record State : Type := {
  resolved : bool;
  pendingTxs : JSMap.t Z;
  timerArmed : bool;
  resolutions : list Resolution
}.

(** The synchronous part of [trackTransaction(txHash)], begun at
    [startTime] with [pendingTxs] as found. *)
Definition trackTransaction (pendingTxs : JSMap.t Z) (txHash : string) (startTime : Z)
  : State :=
  {| resolved := false;
     pendingTxs := JSMap.set pendingTxs txHash startTime;
     timerArmed := true;
     resolutions := [] |}.

(** The timeout callback and the receipt listener. *)
Definition signal (txHash : string) (st : State) (s : Signal) : State :=
  match s with
  | TimerFired =>
      if timerArmed st && negb (resolved st) then
        {| resolved := true;
           pendingTxs := JSMap.delete (pendingTxs st) txHash;
           timerArmed := false;
           resolutions :=
             resolutions st
             ++ [{| success := false; error := Some "Transaction timeout";
                    receipt := None |}] |}
      else
        {| resolved := resolved st;
           pendingTxs := pendingTxs st;
           timerArmed := false;
           resolutions := resolutions st |}
  | ReceiptArrived r =>
      if negb (resolved st) then
        {| resolved := true;
           pendingTxs := JSMap.delete (pendingTxs st) txHash;
           timerArmed := false;                        (* [clearTimeout] *)
           resolutions :=
             resolutions st
             ++ [if SandwichExecutor.status r =? 1
                 then {| success := true; error := None; receipt := Some r |}
                 else {| success := false; error := Some "Transaction reverted";
                         receipt := Some r |}] |}
      else st
  end.

(** What [executeWithETH] and [executeWithFlashLoan] read off a
    resolution. *)
Definition tracked (r : Resolution) : SandwichExecutor.Tracked :=
  match success r, receipt r with
  | true, Some receipt => SandwichExecutor.Confirmed receipt
  | false, Some receipt => SandwichExecutor.Reverted receipt
  | _, None => SandwichExecutor.TimedOut
  end.

End Tracking.

(** ** utils/monitoring.js *)

Module Monitoring.

Local Open Scope string_scope.
Local Open Scope Z_scope.

(** An alert handed to [axios.post]: the title and level of its payload,
    and the [Date.now()] the throttle recorded for it. *)
Record Alert : Type := {
  title : string;
  level : string;
  sentAt : Z
}.

(** The monitor: its two settings, the object [this.lastAlertTime] (its
    keys all hold a ["-"], so none meets an inherited property), and the
    alerts handed to [axios.post], oldest first. *)
Record State : Type := {
  enabled : bool;
  webhookUrl : option string;
  lastAlertTime : JSMap.t Z;
  posted : list Alert
}.

Definition alertThrottleTime : Z := 5 * 60 * 1000.

(** [`${title}-${level}`] *)
Definition throttleKey (title level : string) : string := title ++ "-" ++ level.

(** [!this.webhookUrl]: [undefined] and the empty string are falsy. *)
Definition noWebhook (st : State) : bool :=
  match webhookUrl st with
  | Some url => String.eqb url ""
  | None => true
  end.

(** [this.lastAlertTime[key] && (now - this.lastAlertTime[key] <
    this.alertThrottleTime)]: a recorded time of [0] is falsy. *)
Definition throttled (st : State) (key : string) (now : Z) : bool :=
  match JSMap.get (lastAlertTime st) key with
  | Some last => negb (last =? 0) && (now - last <? alertThrottleTime)
  | None => false
  end.

(** [sendAlert(title, data, level)]; [now] is [Date.now()]. Whether the
    post succeeds changes nothing in the state. *)
Definition sendAlert (st : State) (title level : string) (now : Z) : State :=
  if negb (enabled st) || noWebhook st then st
  else
    let key := throttleKey title level in
    if throttled st key now then st
    else
      {| enabled := enabled st;
         webhookUrl := webhookUrl st;
         lastAlertTime := JSMap.set (lastAlertTime st) key now;
         posted := posted st ++ [{| title := title; level := level; sentAt := now |}] |}.

(** The alerts of [posted] filed under [key], oldest first. *)
Definition postedUnder (key : string) (posted : list Alert) : list Alert :=
  filter (fun a => String.eqb (throttleKey (title a) (level a)) key) posted.

(** The state the constructor sets up, for the two values it reads from
    the configuration: [config.MONITORING_ENABLED === 'true'] and
    [config.ALERT_WEBHOOK_URL]. *)
Definition constructed (enabled : bool) (webhookUrl : option string) : State :=
  {| enabled := enabled; webhookUrl := webhookUrl; lastAlertTime := []; posted := [] |}.

(** A sequence of [sendAlert] calls: title, level and time of each. *)
Definition sendAlerts (st : State) (calls : list (string * string * Z)) : State :=
  fold_left (fun st '(title, level, now) => sendAlert st title level now) calls st.

End Monitoring.

(** ** core/MempoolObserver.js: the subscription *)

Module Subscription.

(** A pending-transaction notification ([message.params.result]) with the
    outcome of each call its handling awaits. *)
Record Notification : Type := {
  txHash : string;
  getTransaction : result (option TransactionDecoder.Tx);
  analyze : TransactionDecoder.Tx -> result (option Opportunity);
  optimize : Opportunity -> SandwichOptimizer.SandwichParams;
  now : Z
}.

(** The ['message'] listener on a notification, run to its end before
    the next message arrives. *)
Definition onMessage (maxGasPrice : result Z) (st : MempoolObserver.State)
    (n : Notification) : MempoolObserver.State :=
  if MempoolObserver.accepts st (txHash n) then
    MempoolObserver.markProcessed
      (MempoolObserver.handlePendingTransaction st maxGasPrice (getTransaction n)
         (analyze n) (optimize n) (now n) (txHash n))
      (txHash n)
  else st.

(** The observer after a sequence of notifications. *)
Definition deliver (maxGasPrice : result Z) (st : MempoolObserver.State)
    (notifications : list Notification) : MempoolObserver.State :=
  fold_left (onMessage maxGasPrice) notifications st.

End Subscription.

(** ** Concrete inputs: a market, a queue, a wallet *)

Module Examples.

Import Scenarios.
Local Open Scope string_scope.
Local Open Scope Z_scope.

Definition uniswapFactory : string := "0x5C69bEe701ef814a2B6a3EDD4B1652CB9cc5aA6f".
Definition sushiswapFactory : string := "0xC0AEe478e3658e2610c5F7A4A2E1777cE9e4f2Ac".

(** [config.js] with no environment overrides, exchanges included. *)
Definition market : TokenLookups.MarketConfig :=
  {| TokenLookups.base := defaultConfig;
     TokenLookups.DEXES :=
       [ {| TokenLookups.dex_name := "Uniswap V2";
            TokenLookups.dex_address := "0x7a250d5630B4cF539739dF2C5dAcb4c659F2488D";
            TokenLookups.dex_factory := uniswapFactory;
            TokenLookups.dex_initCodeHash :=
              "0x96e8ac4277198ff8b6f785478aa9a39f403cb768dd02cbee326c3e7da348845f" |};
         {| TokenLookups.dex_name := "Sushiswap";
            TokenLookups.dex_address := "0xd9e1cE17f2641f24aE83637ab66a2cca9C378B9F";
            TokenLookups.dex_factory := sushiswapFactory;
            TokenLookups.dex_initCodeHash :=
              "0xe18a34eb0e04b04f7a0ac29a6e80748dca96319b42c54d679cb821dca90c6303" |} ];
     TokenLookups.USDC_ADDRESS := "0xA0b86991c6218b36c1d19D4a2e9Eb0cE3606eB48";
     TokenLookups.MIN_PAIR_LIQUIDITY := JS.lit "50";
     TokenLookups.MAX_PAIR_LIQUIDITY := JS.lit "10000" |}.

Definition daiPairAddress : string := "0xA478c2975Ab1Ea89e8196811F51A7B7Ade33eB11".

(** A chain with one pool, DAI/WETH on Uniswap holding 2,000,000 DAI and
    1,000 WETH, whose clock advances a second per reading. *)
Definition chain : TokenLookups.Chain :=
  {| TokenLookups.tokenContract := fun _ =>
       Ok {| TokenLookups.call_symbol := Ok "DAI";
             TokenLookups.call_name := Ok "Dai Stablecoin";
             TokenLookups.call_decimals := Ok 18%nat |};
     TokenLookups.pairContract := fun _ =>
       Ok {| TokenLookups.call_token0 := Ok DAI;
             TokenLookups.call_token1 := Ok (WETH_ADDRESS defaultConfig);
             TokenLookups.call_getReserves := Ok (ether 2000000, ether 1000) |};
     TokenLookups.getPair := fun factory _ _ =>
       if String.eqb factory uniswapFactory then Ok daiPairAddress
       else Ok TokenLookups.AddressZero;
     TokenLookups.clock := fun n => 1700000000000 + 1000 * Z.of_nat n |}.

(** Parameters of a sandwich the optimizer calls profitable. *)
Definition profitableParams : SandwichOptimizer.SandwichParams :=
  {| SandwichOptimizer.sp_flashLoanAmount := Some (ether 12);
     SandwichOptimizer.sp_frontRunAmount := Some (ether 10);
     SandwichOptimizer.sp_backRunAmount := Some (ether 19000);
     SandwichOptimizer.sp_expectedProfit := Some (ether 1);
     SandwichOptimizer.sp_netProfit := Some (ether 1 - gwei 30000000 - 108 * 10 ^ 14);
     SandwichOptimizer.sp_gasPrice := Some (gwei 55);
     SandwichOptimizer.sp_gasLimit := Some 72000;
     SandwichOptimizer.sp_profitable := true;
     SandwichOptimizer.sp_confidence := JS.lit "1" |}.

(** An executor whose every sandwich confirms with a profit of 0.01 ETH
    at a gas cost of 0.003 ETH. *)
Definition confirmingExecutor (e : unit) (_ : Opportunity)
    (_ : SandwichOptimizer.SandwichParams) : SandwichExecutor.ExecutionResult * unit :=
  ({| SandwichExecutor.success := true;
      SandwichExecutor.txHash :=
        Some "0x2222222222222222222222222222222222222222222222222222222222222222";
      SandwichExecutor.profit := Some (10 ^ 16);
      SandwichExecutor.gasCost := Some (3 * 10 ^ 15);
      SandwichExecutor.error := None |},
   e).

(** The victim of [thinPoolOpportunity], detected half a second before
    the pass that finds it queued. *)
Definition victimHash : string := victimTx thinPoolOpportunity.
Definition detectedAt : Z := 1699999999500.
Definition passAt : Z := 1700000000000.

(** A processor holding that one opportunity. *)
Definition processor : ProcessorLoop.State unit :=
  {| ProcessorLoop.queue :=
       {| OpportunityProcessor.pendingOpportunities :=
            [(victimHash,
              {| OpportunityProcessor.opportunity := thinPoolOpportunity;
                 OpportunityProcessor.detected := detectedAt |})];
          OpportunityProcessor.processedOpportunities := [] |};
     ProcessorLoop.stats := noExecutions;
     ProcessorLoop.executor := tt;
     ProcessorLoop.profitTracker := ProfitTracker.empty;
     ProcessorLoop.executed := [] |}.

(** An observer holding the same opportunity with its parameters. *)
Definition observer : ObserverLoop.State unit :=
  {| ObserverLoop.pendingOpportunities :=
       [(victimHash,
         {| MempoolObserver.opportunity := thinPoolOpportunity;
            MempoolObserver.sandwichParams := profitableParams;
            MempoolObserver.detected := detectedAt |})];
     ObserverLoop.stats := noExecutions;
     ObserverLoop.lastStatsReport := passAt;
     ObserverLoop.executor := tt;
     ObserverLoop.profitTracker := ProfitTracker.empty;
     ObserverLoop.executed := [] |}.

(** A second victim, seen a tenth of a second before the pass. *)
Definition laterVictimHash : string :=
  "0x3333333333333333333333333333333333333333333333333333333333333333".

Definition laterOpportunity : Opportunity :=
  {| victimTx := laterVictimHash;
     router := router thinPoolOpportunity;
     path := path thinPoolOpportunity;
     amountIn := amountIn thinPoolOpportunity;
     amountOutMin := amountOutMin thinPoolOpportunity;
     deadline := deadline thinPoolOpportunity;
     pairAddress := pairAddress thinPoolOpportunity;
     pairInfo := pairInfo thinPoolOpportunity;
     optimalFrontRunAmount := optimalFrontRunAmount thinPoolOpportunity;
     optimalBackRunAmount := optimalBackRunAmount thinPoolOpportunity;
     estimatedProfit := estimatedProfit thinPoolOpportunity;
     confidence := confidence thinPoolOpportunity;
     gasPrice := gasPrice thinPoolOpportunity;
     suggestedGasPrice := suggestedGasPrice thinPoolOpportunity;
     submittedTime := submittedTime thinPoolOpportunity |}.

(** An observer holding both opportunities, the older one first. *)
Definition busyObserver : ObserverLoop.State unit :=
  {| ObserverLoop.pendingOpportunities :=
       [(victimHash,
         {| MempoolObserver.opportunity := thinPoolOpportunity;
            MempoolObserver.sandwichParams := profitableParams;
            MempoolObserver.detected := detectedAt |});
        (laterVictimHash,
         {| MempoolObserver.opportunity := laterOpportunity;
            MempoolObserver.sandwichParams := profitableParams;
            MempoolObserver.detected := passAt - 100 |})];
     ObserverLoop.stats := noExecutions;
     ObserverLoop.lastStatsReport := passAt;
     ObserverLoop.executor := tt;
     ObserverLoop.profitTracker := ProfitTracker.empty;
     ObserverLoop.executed := [] |}.

(** A clock for the profit records of a pass begun at [passAt] whose
    first sandwich takes a minute to confirm and whose second takes
    another. *)
Definition slowConfirmations (txHash : string) : Z :=
  if String.eqb txHash victimHash then passAt + 60000 else passAt + 120000.

(** A notification whose transaction the provider does not know. *)
Definition unknownTransaction : Subscription.Notification :=
  {| Subscription.txHash := victimHash;
     Subscription.getTransaction := Ok None;
     Subscription.analyze := fun _ => Ok None;
     Subscription.optimize := fun _ => profitableParams;
     Subscription.now := passAt |}.

(** Two profit entries as the loops record them. *)
Definition firstProfit : ProfitTracker.Entry Z :=
  profitEntry passAt victimHash thinPoolOpportunity
    (fst (confirmingExecutor tt thinPoolOpportunity profitableParams))
    (10 ^ 16) (3 * 10 ^ 15).

Definition secondProfit : ProfitTracker.Entry Z :=
  profitEntry (passAt + 12000) victimHash thinPoolOpportunity
    (fst (confirmingExecutor tt thinPoolOpportunity profitableParams))
    (2 * 10 ^ 16) (25 * 10 ^ 15).

(** A log entry whose profit was not written by [saveProfitHistory]. *)
Definition editedEntry : ProfitTracker.Entry string :=
  {| ProfitTracker.timestamp := passAt;
     ProfitTracker.victimTxHash := victimHash;
     ProfitTracker.sandwichTxHash := None;
     ProfitTracker.profit := "0.01";
     ProfitTracker.gasCost := "3000000000000000";
     ProfitTracker.netProfit := "7000000000000000";
     ProfitTracker.tokens :=
       {| ProfitTracker.tokenA := Some (WETH_ADDRESS defaultConfig);
          ProfitTracker.tokenB := Some DAI |} |}.

(** Three alerts under one title and level: a second apart, then after
    more than five minutes. *)
Definition lowBalanceAlerts : list (string * string * Z) :=
  [ ("Low contract balance", "warning", passAt);
    ("Low contract balance", "warning", passAt + 1000);
    ("Low contract balance", "warning", passAt + 400000) ].

(** A transaction of the bot still pending at 90 gwei. *)
Definition stuckTransaction : Replacement.Transaction :=
  {| Replacement.to := Some "0x7a250d5630B4cF539739dF2C5dAcb4c659F2488D";
     Replacement.from := "0x00000000000000000000000000000000000000B0";
     Replacement.nonce := 7;
     Replacement.data := "0x";
     Replacement.value := 0;
     Replacement.gasLimit := 720000;
     Replacement.gasPrice := Some (gwei 90);
     Replacement.blockNumber := None |}.

(** What [speedUpTransaction] signs for it. *)
Definition replacement : Replacement.ReplacementTx :=
  {| Replacement.r_to := Replacement.to stuckTransaction;
     Replacement.r_from := Replacement.from stuckTransaction;
     Replacement.r_nonce := 7;
     Replacement.r_data := "0x";
     Replacement.r_value := 0;
     Replacement.r_gasLimit := 720000;
     Replacement.r_gasPrice := gwei 100 |}.

(** A swap of 10 WETH for DAI through the Uniswap router, bidding
    20 gwei. *)
Definition swapCall : TransactionDecoder.DecodedInput :=
  {| TransactionDecoder.name := "swapExactTokensForTokens";
     TransactionDecoder.args :=
       {| TransactionDecoder.arg_path := Some [WETH_ADDRESS defaultConfig; DAI];
          TransactionDecoder.arg_amountIn := Some (ether 10);
          TransactionDecoder.arg_amountInMax := None;
          TransactionDecoder.arg_amountOut := None;
          TransactionDecoder.arg_amountOutMin := Some 0;
          TransactionDecoder.arg_deadline := Some 1700000000 |} |}.

Definition swapTransaction : TransactionDecoder.Tx :=
  {| TransactionDecoder.hash :=
       "0x1111111111111111111111111111111111111111111111111111111111111111";
     TransactionDecoder.to := Some "0x7a250d5630B4cF539739dF2C5dAcb4c659F2488D";
     TransactionDecoder.data := "0x38ed1739";
     TransactionDecoder.value := 0;
     TransactionDecoder.tx_gasPrice := gwei 20 |}.

(** The same swap paid in ETH. *)
Definition ethSwapCall : TransactionDecoder.DecodedInput :=
  {| TransactionDecoder.name := "swapExactETHForTokens";
     TransactionDecoder.args :=
       {| TransactionDecoder.arg_path := Some [WETH_ADDRESS defaultConfig; DAI];
          TransactionDecoder.arg_amountIn := None;
          TransactionDecoder.arg_amountInMax := None;
          TransactionDecoder.arg_amountOut := None;
          TransactionDecoder.arg_amountOutMin := Some 0;
          TransactionDecoder.arg_deadline := Some 1700000000 |} |}.

(** The pool the swap goes through: 20,000 WETH and 40,000,000 DAI. *)
Definition deepPool : PairInfo :=
  {| token0 := Str.toLowerCase (WETH_ADDRESS defaultConfig);
     token1 := Str.toLowerCase DAI;
     reserve0 := ether 20000;
     reserve1 := ether 40000000 |}.

(** A multiplication that accepts the gas buffer, scaling it by ten. *)
Definition lenientMul (a : Z) (_ : JS.number) : result Z := Ok (a * 12).

End Examples.

(** * Properties *)

(** ** JavaScript numbers: order, [Math.max], [Math.min] *)

Section NumberFacts.

Import JS.









End NumberFacts.

(** ** Sign of parsed and multiplied numbers *)

Section Signs.

Import JS.

Lemma binary_round_aux_signless (mx ex : Z) (lx : location) :
  signless (binary_round_aux prec emax false mx ex lx) = true.
Proof.
  unfold binary_round_aux.
  destruct (shr_fexp prec emax mx ex lx) as [mrs' e'].
  destruct (shr_fexp prec emax _ e' loc_Exact) as [mrs'' e''].
  destruct (shr_m mrs''); try reflexivity.
  now destruct (e'' <=? emax - prec).
Qed.

Lemma of_decimal_signless (m : N) (e : Z) : signless (of_decimal false m e) = true.
Proof.
  unfold of_decimal. destruct m as [|p]; [reflexivity|].
  destruct (0 <=? e).
  - unfold binary_round.
    destruct (shl_align _ _ _) as [mz ez]. apply binary_round_aux_signless.
  - unfold SFdiv.
    destruct (SFdiv_core_binary _ _ _ _ _ _) as [[mz ez] lz].
    apply binary_round_aux_signless.
Qed.

Lemma mul_signless (a b : number) :
  signless a = true -> signless b = true -> signless (mul a b) = true.
Proof.
  destruct a as [[]|[]| |[] ma ea], b as [[]|[]| |[] mb eb];
    simpl; try reflexivity; try discriminate.
  intros _ _. apply binary_round_aux_signless.
Qed.


Lemma StringToNumber_digit_signless (c : ascii) (rest : string) :
  Str.is_digit c = true -> signless (StringToNumber (String c rest)) = true.
Proof.
  intros Hc.
  assert (Hs : read_sign (String c rest) = (false, String c rest)).
  { destruct c as [[] [] [] [] [] [] [] []]; try discriminate Hc; reflexivity. }
  unfold StringToNumber. rewrite Hs.
  destruct (read_unsigned (String c rest)) as [[l [|? ?]]|]; try reflexivity.
  destruct l; [reflexivity|]. apply of_decimal_signless.
Qed.

End Signs.

Section Printing.

Lemma digit_char_is_digit (d : N) : (d < 10)%N -> Str.is_digit (Str.digit_char d) = true.
Proof.
  intros H.
  assert (d = 0 \/ d = 1 \/ d = 2 \/ d = 3 \/ d = 4 \/ d = 5 \/ d = 6 \/ d = 7
          \/ d = 8 \/ d = 9)%N as Hd by lia.
  repeat (destruct Hd as [-> | Hd]; [reflexivity|]). now subst.
Qed.

Lemma digits_rev_head (fuel : nat) (n : N) (acc : string) :
  exists d rest, (d < 10)%N /\ Str.digits_rev fuel n acc = String (Str.digit_char d) rest.
Proof.
  revert n acc. induction fuel as [|fuel IH]; intros n acc; simpl.
  - exists (n mod 10)%N, acc. split; [now apply N.mod_lt|reflexivity].
  - destruct (n / 10 =? 0)%N.
    + exists (n mod 10)%N, acc. split; [now apply N.mod_lt|reflexivity].
    + apply IH.
Qed.

Lemma of_N_head (n : N) :
  exists c rest, Str.is_digit c = true /\ Str.of_N n = String c rest.
Proof.
  unfold Str.of_N.
  destruct (digits_rev_head (N.to_nat (N.log2 n)) n EmptyString) as (d & rest & Hd & E).
  exists (Str.digit_char d), rest. split; [now apply digit_char_is_digit|exact E].
Qed.

Lemma formatEther_head (wei : Z) :
  0 <= wei ->
  exists c rest, Str.is_digit c = true /\ Ethers.formatEther wei = String c rest.
Proof.
  intros H. unfold Ethers.formatEther, Ethers.formatUnits.
  replace (wei <? 0) with false by (symmetry; apply Z.ltb_ge; lia).
  destruct (of_N_head (Z.to_N (Z.abs wei / 10 ^ Z.of_nat 18))) as (c & rest & Hc & E).
  rewrite E. simpl. eauto.
Qed.

End Printing.

(** ** Printed numbers and parsed amounts *)

Section ToStringFacts.
Import JS.
Local Open Scope string_scope.
Local Open Scope Z_scope.

Lemma digit_not_minus (c : ascii) :
  Str.is_digit c = true -> negb (Ascii.eqb c "-") = true.
Proof. destruct c as [[] [] [] [] [] [] [] []]; try discriminate; reflexivity. Qed.

Lemma layout_unsigned (s k n : Z) : Str.unsigned_head (layout s k n) = true.
Proof.
  unfold layout.
  destruct (of_N_head (Z.to_N s)) as (c & rest & Hc & E). rewrite E.
  destruct ((k <=? n) && (n <=? 21)); [simpl; now apply digit_not_minus|].
  destruct ((0 <? n) && (n <=? 21)) eqn:Hn.
  - apply andb_true_iff in Hn as [Hn _]. apply Z.ltb_lt in Hn.
    destruct (Z.to_nat n) eqn:En; [lia|]. simpl. now apply digit_not_minus.
  - destruct ((-6 <? n) && (n <=? 0)); [reflexivity|].
    destruct (k =? 1); simpl; now apply digit_not_minus.
Qed.

Lemma ToString_unsigned (a : number) :
  le (S754_zero false) a = true -> Str.unsigned_head (ToString a) = true.
Proof.
  destruct a as [[]|[]| |[] m e]; try discriminate; try reflexivity.
  intros _. unfold ToString.
  destruct (shortest _ _ _ _ _ _) as [[s k] n]. apply layout_unsigned.
Qed.

Lemma parseUnits_unsigned (value : string) (decimals : nat) (wei : Z) :
  Str.unsigned_head value = true ->
  Ethers.parseUnits value decimals = Ok wei -> 0 <= wei.
Proof.
  intros Hhead. unfold Ethers.parseUnits.
  assert (Hs : match value with
               | String "-" rest => (true, rest)
               | _ => (false, value)
               end = (false, value)).
  { destruct value as [|c rest]; [reflexivity|].
    destruct c as [[] [] [] [] [] [] [] []]; try reflexivity; discriminate Hhead. }
  rewrite Hs.
  destruct value as [|c rest]; [discriminate|].
  destruct (negb _); [discriminate|].
  destruct (String.eqb _ _); [discriminate|].
  destruct (Ethers.split_dot _) as [|whole tl]; [discriminate|].
  destruct tl as [|f [|? ?]]; try discriminate;
    (destruct (Nat.ltb _ _); [discriminate|]);
    intros E; injection E as <-;
    unfold Ethers.from_digits;
    repeat match goal with
           | |- context [Str.read_digits ?s ?a ?c] =>
               destruct (Str.read_digits s a c) as [[? ?] ?]
           end; nia.
Qed.

End ToStringFacts.


(** ** Admission by the observer *)

(** An opportunity the optimizer reports as not profitable is dropped:
    [handlePendingTransaction] returns without storing it. *)
Lemma unprofitable_is_dropped (st : MempoolObserver.State) (maxGasPrice : result Z)
    (lookup : result (option TransactionDecoder.Tx))
    (analyze : TransactionDecoder.Tx -> result (option Opportunity))
    (optimize : Opportunity -> SandwichOptimizer.SandwichParams)
    (now : Z) (txHash : string) :
  (forall tx opp, analyze tx = Ok (Some opp) ->
                  SandwichOptimizer.sp_profitable (optimize opp) = false) ->
  MempoolObserver.pendingOpportunities
    (MempoolObserver.handlePendingTransaction st maxGasPrice lookup analyze optimize
       now txHash)
  = MempoolObserver.pendingOpportunities st.
Proof.
  intros Hdrop. unfold MempoolObserver.handlePendingTransaction.
  destruct lookup as [[tx|]|]; try reflexivity.
  destruct (TransactionDecoder.to tx), maxGasPrice as [m|]; try reflexivity.
  destruct (MempoolObserver.isTxGasPriceTooHigh m tx); try reflexivity.
  destruct (analyze tx) as [[opp|]|] eqn:E; try reflexivity.
  now rewrite (Hdrop tx opp E).
Qed.

(** ** The optimizer *)

Section OptimizerFacts.

Import SandwichOptimizer.
Local Open Scope string_scope.
Local Open Scope Z_scope.

Lemma lit_0 : JS.lit "0" = S754_zero false.
Proof. reflexivity. Qed.


Lemma capped_unfold (params : Params) :
  cappedOptimalAmount (locals params)
  = JS.Math_min (JS.Math_max (JS.lit "0") (unconstrainedOptimum (locals params)))
                (JS.mul (JS.StringToNumber (v (locals params))) (JS.lit "0.3")).
Proof. reflexivity. Qed.

Lemma v_unfold (params : Params) :
  v (locals params) = Ethers.formatEther (victimAmount params).
Proof. reflexivity. Qed.


Lemma thinPool_front_run :
  calculateOptimalFrontRunAmount Scenarios.thinPool
  = Ok {| fr_optimalFrontRunAmount := 2006018054162487500;
          fr_optimalBackRunAmount := 19607843137254903000;
          fr_expectedProfit := 11674942494722590000;
          fr_confidence := JS.lit "0" |}.
Proof. vm_compute. reflexivity. Qed.


Lemma parsed_threshold_nonneg (t : JS.number) (th : Z) :
  JS.le (JS.lit "0") t = true ->
  Ethers.parseEther (JS.ToString t) = Ok th -> 0 <= th.
Proof.
  rewrite lit_0. intros Ht Hp.
  exact (parseUnits_unsigned _ 18 _ (ToString_unsigned _ Ht) Hp).
Qed.

Lemma network_gas_price_nonneg (provider : Provider) (now : Z) :
  (forall g, getGasPrice provider = Ok g -> 0 <= g) ->
  0 <= nc_gasPrice (getNetworkConditions provider now).
Proof.
  intros Hg. unfold getNetworkConditions, bind, try_catch.
  destruct (getGasPrice provider) as [g|] eqn:E; [|now vm_compute].
  destruct (getBlockNumber provider) as [bn|]; [|now vm_compute].
  destruct (getBlock provider bn); [|now vm_compute].
  simpl. now apply Hg.
Qed.

Lemma scenarioA_front_run :
  calculateOptimalFrontRunAmount Scenarios.scenarioA
  = Ok {| fr_optimalFrontRunAmount := 0;
          fr_optimalBackRunAmount := 0;
          fr_expectedProfit := 0;
          fr_confidence := JS.lit "1" |}.
Proof. vm_compute. reflexivity. Qed.

(** C2. For reserves (1000, 1000), fee 0.3% and victim input 10 the
    unconstrained optimum is negative, [calculateOptimalFrontRunAmount]
    returns front-run amount 0 and expected profit 0, and
    [calculateOptimalSandwichParams] reports the opportunity as not
    profitable (for any profit threshold and network gas price that are
    not negative); the observer, on that answer, does not admit it to
    the in-flight map. *)
Theorem C2_scenario_A (config : Config) (mulNumber : Z -> JS.number -> result Z)
    (provider : Provider) (now : Z) (opp : Opportunity) :
  reserve0 (pairInfo opp) = Scenarios.ether 1000 ->
  reserve1 (pairInfo opp) = Scenarios.ether 1000 ->
  amountIn opp = Scenarios.ether 10 ->
  JS.le (JS.lit "0") (MIN_PROFIT_THRESHOLD config) = true ->
  (forall g, getGasPrice provider = Ok g -> 0 <= g) ->
  JS.lt (unconstrainedOptimum (locals Scenarios.scenarioA)) (JS.lit "0") = true /\
  calculateOptimalFrontRunAmount Scenarios.scenarioA
  = Ok {| fr_optimalFrontRunAmount := 0;
          fr_optimalBackRunAmount := 0;
          fr_expectedProfit := 0;
          fr_confidence := JS.lit "1" |} /\
  sp_profitable (calculateOptimalSandwichParams config mulNumber provider now opp)
  = false /\
  (forall st maxGasPrice lookup detected txHash,
     MempoolObserver.pendingOpportunities
       (MempoolObserver.handlePendingTransaction st maxGasPrice lookup
          (fun _ => Ok (Some opp))
          (calculateOptimalSandwichParams config mulNumber provider now)
          detected txHash)
     = MempoolObserver.pendingOpportunities st).
Proof.
  intros H0 H1 Ha Hth Hg.
  split; [vm_compute; reflexivity|].
  split; [exact scenarioA_front_run|].
  assert (Hunprofitable :
    sp_profitable (calculateOptimalSandwichParams config mulNumber provider now opp)
    = false);
    [|split; [exact Hunprofitable|];
      intros st maxGasPrice lookup detected txHash;
      apply unprofitable_is_dropped; intros tx o [= <-]; exact Hunprofitable].
  pose proof (network_gas_price_nonneg provider now Hg) as Hgas.
  unfold calculateOptimalSandwichParams, sandwichLocals.
  destruct (path opp) as [|tokenIn rest]; [reflexivity|].
  rewrite H0, H1, Ha.
  replace (if String.eqb _ _ then Scenarios.ether 1000 else Scenarios.ether 1000)
    with (Scenarios.ether 1000) by (now destruct (String.eqb _ _)).
  change {| reserveIn := Scenarios.ether 1000;
            reserveOut := Scenarios.ether 1000;
            victimAmount := Scenarios.ether 10;
            fee := JS.lit "997" |} with Scenarios.scenarioA.
  rewrite scenarioA_front_run.
  cbn [bind fr_optimalFrontRunAmount fr_expectedProfit].
  change (Ethers.div (0 * 12) 10) with (Ok (A:=Z) 0).
  cbn [bind].
  change (Ethers.div (0 * AAVE_FEE_BIPS) BIPS_DIVISOR) with (Ok (A:=Z) 0).
  cbn [bind].
  destruct (Ethers.parseEther (JS.ToString (MIN_PROFIT_THRESHOLD config)))
    as [th|] eqn:Eth; [|reflexivity].
  pose proof (parsed_threshold_nonneg _ _ Hth Eth) as Hth0.
  cbn [bind].
  destruct (Ethers.parseUnits (JS.ToString (MAX_GAS_PRICE config)) 9); [|reflexivity].
  cbn [bind sl_estimatedGasUsed].
  destruct (mulNumber 600000 GAS_BUFFER) as [scaled|]; [|reflexivity].
  cbn [bind]. unfold Ethers.div at 1.
  cbn [Z.eqb bind try_catch sp_profitable sl_profitable].
  apply Z.ltb_ge. lia.
Qed.

Lemma C2_scenario_A_witness :
  let opp := Scenarios.opportunityOver (Scenarios.ether 1000) (Scenarios.ether 1000)
               (Scenarios.ether 10) (Scenarios.gwei 50) in
  JS.lt (unconstrainedOptimum (locals Scenarios.scenarioA)) (JS.lit "0") = true /\
  calculateOptimalFrontRunAmount Scenarios.scenarioA
  = Ok {| fr_optimalFrontRunAmount := 0;
          fr_optimalBackRunAmount := 0;
          fr_expectedProfit := 0;
          fr_confidence := JS.lit "1" |} /\
  sp_profitable (calculateOptimalSandwichParams Scenarios.defaultConfig
                   Ethers.mul_number Scenarios.calmProvider 0 opp)
  = false /\
  (forall st maxGasPrice lookup detected txHash,
     MempoolObserver.pendingOpportunities
       (MempoolObserver.handlePendingTransaction st maxGasPrice lookup
          (fun _ => Ok (Some opp))
          (calculateOptimalSandwichParams Scenarios.defaultConfig
             Ethers.mul_number Scenarios.calmProvider 0)
          detected txHash)
     = MempoolObserver.pendingOpportunities st).
Proof.
  intros opp.
  apply (C2_scenario_A Scenarios.defaultConfig Ethers.mul_number
           Scenarios.calmProvider 0 opp).
  - reflexivity.
  - reflexivity.
  - reflexivity.
  - vm_compute. reflexivity.
  - intros g E. injection E as <-. vm_compute. discriminate.
Defined.

(** C3 (the code departs from the claim). In the thin-pool input
    [x + cappedOptimalAmount * feeMultiplier] is the string ["1.0"]
    followed by ["2"], the number 1.02 instead of 3: the front-run hop
    returns 19.6 out of a reserve of 10 and both updated output-side
    reserves are negative. *)
Theorem C3_front_run_output_exceeds_reserve :
  let l := locals Scenarios.thinPool in
  x l = "1.0" /\
  JS.ToString (JS.mul (cappedOptimalAmount l) (feeMultiplier l)) = "2" /\
  frontRunDenominator l = "1.02" /\
  JS.ToString (JS.StringToNumber (y l)) = "10" /\
  JS.ToString (frontRunOutput l) = "19.607843137254903" /\
  JS.lt (JS.StringToNumber (y l)) (frontRunOutput l) = true /\
  JS.ToString (newX1 l) = "3" /\
  JS.ToString (newY1 l) = "-9.607843137254903" /\
  JS.lt (newY1 l) (JS.lit "0") = true /\
  JS.lt (newY2 l) (JS.lit "0") = true.
Proof. vm_compute. repeat split. Qed.

(** With a fractional product the concatenation is not a numeral at
    all: the hop output and the reserves are NaN and the function
    throws. *)
Lemma fractional_pool_is_not_a_number :
  let l := locals Scenarios.fractionalPool in
  JS.ToString (cappedOptimalAmount l) = "9" /\
  frontRunDenominator l = "0.9978.973" /\
  JS.is_nan (frontRunOutput l) = true /\
  JS.is_nan (newY1 l) = true /\
  JS.is_nan (newY2 l) = true /\
  calculateOptimalFrontRunAmount Scenarios.fractionalPool
  = Throw "invalid decimal value".
Proof. vm_compute. repeat split. Qed.

Lemma calculateOptimalGasPrice_max (victimGasPrice : Z) (nc : NetworkConditions) :
  calculateOptimalGasPrice victimGasPrice nc
  = Z.max (Z.quot (victimGasPrice * 115) 100) (Z.quot (nc_gasPrice nc * 110) 100).
Proof.
  unfold calculateOptimalGasPrice.
  destruct (Z.ltb_spec (Z.quot (nc_gasPrice nc * 110) 100)
                       (Z.quot (victimGasPrice * 115) 100)); lia.
Qed.

(** What [calculateOptimalSandwichParams] has computed when it reaches
    its [return] statement: the gas price is
    [max (victimGasPrice * 115 / 100) (networkGasPrice * 110 / 100)] in
    integer arithmetic, capped at the configured maximum, and
    [profitable] compares the net profit with the profit threshold. *)
Lemma computed_gas_price_is_the_capped_maximum (config : Config) (provider : Provider)
    (now : Z) (opp : Opportunity) (l : SandwichLocals) :
  sandwichLocals config provider now opp = Ok l ->
  let nc := getNetworkConditions provider now in
  Ethers.parseUnits (JS.ToString (MAX_GAS_PRICE config)) 9 = Ok (sl_maxGasPrice l) /\
  sl_optimalGasPrice l
  = Z.max (Z.quot (gasPrice opp * 115) 100) (Z.quot (nc_gasPrice nc * 110) 100) /\
  sl_finalGasPrice l = Z.min (sl_optimalGasPrice l) (sl_maxGasPrice l) /\
  (exists threshold,
      Ethers.parseEther (JS.ToString (MIN_PROFIT_THRESHOLD config)) = Ok threshold /\
      sl_profitable l = (threshold <? sl_netProfit l)).
Proof.
  intros Hl nc. revert Hl. unfold sandwichLocals, bind. fold nc.
  destruct (path opp) as [|tokenIn rest]; [discriminate|].
  destruct (calculateOptimalFrontRunAmount _); [|discriminate].
  destruct (Ethers.div _ 10); [|discriminate].
  destruct (Ethers.div _ BIPS_DIVISOR); [|discriminate].
  destruct (Ethers.parseEther _) as [th|]; [|discriminate].
  destruct (Ethers.parseUnits _ 9) as [mgp|]; [|discriminate].
  intros E. injection E as <-. cbn.
  split; [reflexivity|]. split; [apply calculateOptimalGasPrice_max|].
  split; [|now exists th].
  destruct (Z.ltb_spec mgp (calculateOptimalGasPrice (gasPrice opp) nc)); lia.
Qed.

(** C4 (the code departs from the claim). A victim swapping 10 WETH
    into a pool of 20,000 WETH bids 100 gwei, the configured maximum,
    on a network at 50 gwei.  The code computes the price the claim
    names, 115 gwei capped to 100 gwei, and then builds its result:
    [estimatedGasUsed.mul(this.GAS_BUFFER)] multiplies a BigNumber by
    1.2, which ethers rejects, and the [catch] returns an object without
    any gas price. *)
Theorem C4_gas_price_is_lost_with_the_gas_limit :
  let opp :=
    Scenarios.opportunityOver (Scenarios.ether 20000) (Scenarios.ether 40000000)
      (Scenarios.ether 10) (Scenarios.gwei 100) in
  (exists l,
      sandwichLocals Scenarios.defaultConfig Scenarios.calmProvider 0 opp = Ok l /\
      sl_optimalGasPrice l = Scenarios.gwei 115 /\
      sl_maxGasPrice l = Scenarios.gwei 100 /\
      sl_finalGasPrice l = Scenarios.gwei 100) /\
  Ethers.mul_number 600000 GAS_BUFFER = Throw "underflow" /\
  calculateOptimalSandwichParams Scenarios.defaultConfig Ethers.mul_number
    Scenarios.calmProvider 0 opp
  = {| sp_flashLoanAmount := None;
       sp_frontRunAmount := None;
       sp_backRunAmount := None;
       sp_expectedProfit := None;
       sp_netProfit := None;
       sp_gasPrice := None;
       sp_gasLimit := None;
       sp_profitable := false;
       sp_confidence := JS.lit "0" |}.
Proof.
  cbv zeta. split; [|split].
  - eexists. split; [vm_compute; reflexivity|]. repeat split.
  - reflexivity.
  - vm_compute. reflexivity.
Qed.

(** With ethers' own [BigNumber.mul] the [gasLimit] expression throws:
    every opportunity is answered by the [catch] branch. *)
Lemma ethers_rejects_gas_buffer (config : Config) (provider : Provider) (now : Z)
    (opp : Opportunity) :
  let r := calculateOptimalSandwichParams config Ethers.mul_number provider now opp in
  sp_profitable r = false /\ sp_gasPrice r = None.
Proof.
  unfold calculateOptimalSandwichParams.
  destruct (sandwichLocals config provider now opp) as [l|]; [|split; reflexivity].
  cbn [bind].
  replace (Ethers.mul_number (sl_estimatedGasUsed l) GAS_BUFFER)
    with (Throw (A:=Z) "underflow") by reflexivity.
  split; reflexivity.
Qed.

End OptimizerFacts.

(** ** The classifier *)

Section DecoderFacts.

Import TransactionDecoder.

Variable config : Config.
Variable minOpportunitySize : Z.
Variable parseTransaction : string -> string -> result (option DecodedInput).
Variable isTokenBlacklisted : string -> result bool.
Variable checkPairLiquidity : string -> string -> result LiquidityCheck.
Variable getTokenValueInETH : string -> option Z -> result Z.
Variable getPairAddress : string -> string -> string -> result string.
Variable getPairReserves : string -> string -> string -> result (option PairInfo).
Variable now : Z.

Local Abbreviation analyze :=
  (analyzePendingTransaction config minOpportunitySize parseTransaction
     isTokenBlacklisted checkPairLiquidity getTokenValueInETH getPairAddress
     getPairReserves now).

Lemma analyze_never_throws (tx : Tx) : exists o, analyze tx = Ok o.
Proof.
  unfold analyzePendingTransaction.
  destruct (to tx) as [router|]; [|now exists None].
  destruct (negb (isSupportedRouter config router)); eauto.
Qed.

(** C5. For a pending transaction sent to a supported router whose call
    data the router interface cannot decode (unknown selector, malformed
    arguments: [parseTransaction] throws), [analyzePendingTransaction]
    returns null; and it throws for no transaction at all. *)
Theorem C5_undecodable_call_is_null (tx : Tx) (router message : string) :
  to tx = Some router ->
  isSupportedRouter config router = true ->
  parseTransaction (Str.toLowerCase router) (data tx) = Throw message ->
  analyze tx = Ok None /\ (forall tx', exists o, analyze tx' = Ok o).
Proof.
  intros Hto Hrouter Hparse. split; [|exact analyze_never_throws].
  unfold analyzePendingTransaction, analyzeSupported.
  rewrite Hto, Hrouter. cbn [negb].
  destruct (negb (hasRouterInterface config (Str.toLowerCase router)));
    [reflexivity|].
  now rewrite Hparse.
Qed.

End DecoderFacts.

Lemma C5_undecodable_call_is_null_witness :
  let router := "0x7a250d5630B4cF539739dF2C5dAcb4c659F2488D"%string in
  let tx := {| TransactionDecoder.hash := "0x22"%string;
               TransactionDecoder.to := Some router;
               TransactionDecoder.data := "0xdeadbeef"%string;
               TransactionDecoder.value := 0;
               TransactionDecoder.tx_gasPrice := Scenarios.gwei 30 |} in
  let parse := fun _ _ : string =>
                 Throw (A := option TransactionDecoder.DecodedInput)
                       "no matching function"%string in
  TransactionDecoder.isSupportedRouter Scenarios.defaultConfig router = true /\
  TransactionDecoder.analyzePendingTransaction Scenarios.defaultConfig
    (Scenarios.ether 5) parse
    (fun _ => Ok false)
    (fun _ _ => Ok {| TransactionDecoder.isLiquid := true;
                      TransactionDecoder.isTooDeep := false |})
    (fun _ _ => Ok 0) (fun _ _ _ => Ok ""%string) (fun _ _ _ => Ok None) 0 tx
  = Ok None.
Proof.
  intros router tx parse.
  assert (Hrouter :
    TransactionDecoder.isSupportedRouter Scenarios.defaultConfig router = true)
    by reflexivity.
  split; [exact Hrouter|].
  exact (proj1 (C5_undecodable_call_is_null Scenarios.defaultConfig
                  (Scenarios.ether 5) parse
                  (fun _ => Ok false)
                  (fun _ _ => Ok {| TransactionDecoder.isLiquid := true;
                                    TransactionDecoder.isTooDeep := false |})
                  (fun _ _ => Ok 0) (fun _ _ _ => Ok ""%string)
                  (fun _ _ _ => Ok None) 0 tx router
                  "no matching function"%string
                  eq_refl Hrouter eq_refl)).
Defined.

(** ** The token registry *)

Section TokenManagerFacts.

Import TokenManager.
Local Open Scope string_scope.

Lemma hasFee_of_address_throws (address : string) :
  hasFee (VString address) = Throw "logs.filter is not a function".
Proof. reflexivity. Qed.

(** C10. [hasFee], applied to the address string [detectTokenFees]
    passes, throws for every address; [detectTokenFees] therefore
    returns true exactly when the byte code was fetched, contains no
    [transfer] selector (whose entry is examined first and ends the scan
    in the [catch]) and contains one of the two rebase selectors: never
    on account of a transfer fee, and only when a rebase selector
    matches. *)
Theorem C10_fee_branch_never_detects (getCode : string -> result string)
    (tokenAddress : string) :
  (forall address, exists message, hasFee (VString address) = Throw message) /\
  detectTokenFees getCode tokenAddress
  = Ok match getCode tokenAddress with
       | Ok code =>
           negb (Str.includes code "a9059cbb")
           && (Str.includes code "4a15e35d" || Str.includes code "46a4e0ed")
       | Throw _ => false
       end.
Proof.
  split; [intros address; eexists; apply hasFee_of_address_throws|].
  unfold detectTokenFees. f_equal.
  destruct (getCode tokenAddress) as [code|]; [|reflexivity].
  cbn [bind try_catch scanSignatures tokenDetectorSigs selector isRebase sig_hasFee].
  change (Str.slice 2 "0xa9059cbb") with "a9059cbb".
  change (Str.slice 2 "0x4a15e35d") with "4a15e35d".
  change (Str.slice 2 "0x46a4e0ed") with "46a4e0ed".
  destruct (Str.includes code "a9059cbb"); [reflexivity|].
  destruct (Str.includes code "4a15e35d"); [reflexivity|].
  destruct (Str.includes code "46a4e0ed"); reflexivity.
Qed.

(** The rebase branch does detect. *)
Lemma rebase_selector_is_detected :
  detectTokenFees Scenarios.rebaseOnlyCode Scenarios.someToken = Ok true.
Proof. reflexivity. Qed.

Lemma blacklisted_when_listed (getCode : string -> result string)
    (blacklist : JSSet.t) (tokenAddress : string) :
  JSSet.has blacklist (Str.toLowerCase tokenAddress) = true ->
  fst (isTokenBlacklisted getCode blacklist tokenAddress) = true.
Proof. intros H. unfold isTokenBlacklisted. now rewrite H. Qed.

Lemma blacklisted_when_detected (getCode : string -> result string)
    (blacklist : JSSet.t) (tokenAddress : string) :
  detectTokenFees getCode (Str.toLowerCase tokenAddress) = Ok true ->
  fst (isTokenBlacklisted getCode blacklist tokenAddress) = true.
Proof.
  intros H. unfold isTokenBlacklisted.
  destruct (JSSet.has _ _); [reflexivity|]. now rewrite H.
Qed.

(** A failed byte-code fetch is answered [false] by [detectTokenFees]
    itself, so the [catch] of [isTokenBlacklisted] is never entered. *)
Lemma not_blacklisted_when_detection_fails (getCode : string -> result string)
    (blacklist : JSSet.t) (tokenAddress message : string) :
  JSSet.has blacklist (Str.toLowerCase tokenAddress) = false ->
  getCode (Str.toLowerCase tokenAddress) = Throw message ->
  isTokenBlacklisted getCode blacklist tokenAddress = (false, blacklist).
Proof.
  intros Hlist Hcode. unfold isTokenBlacklisted, detectTokenFees.
  now rewrite Hlist, Hcode.
Qed.

(** C6 (the code departs from the claim). For a token outside the
    deny-list whose byte code cannot be fetched, [isTokenBlacklisted]
    returns false. *)
Theorem C6_detection_error_fails_open :
  JSSet.has (initialBlacklist Scenarios.defaultConfig)
            (Str.toLowerCase Scenarios.someToken) = false /\
  Scenarios.failingGetCode (Str.toLowerCase Scenarios.someToken)
  = Throw "network error" /\
  isTokenBlacklisted Scenarios.failingGetCode
    (initialBlacklist Scenarios.defaultConfig) Scenarios.someToken
  = (false, initialBlacklist Scenarios.defaultConfig).
Proof. repeat split. Qed.

End TokenManagerFacts.

(** ** The executor *)

Section ExecutorFacts.

Import SandwichExecutor.
Local Open Scope string_scope.
Local Open Scope Z_scope.

Lemma refreshDue_when_stale (st : State) (now : Z) :
  currentNonce st = None \/ now - lastNonceRefresh st > 30000 ->
  refreshDue st now = true.
Proof.
  unfold refreshDue, noNonce, nonceRefreshInterval.
  intros [-> | H]; [reflexivity|].
  apply orb_true_iff. right. apply Z.ltb_lt. lia.
Qed.

(** C7. When no nonce is held or more than 30 seconds have passed since
    the last refresh, [executeSandwich] first asks the chain for the
    transaction count and [refreshNonce] stores the answer with the
    current time.  The dispatch runs on that answer: every request that
    follows is a contract call carrying the count as its nonce (there
    is one, unless the path is empty), and the executor is left with
    the count plus one and the time of the refresh.  If the request
    fails while no nonce is held, [executeSandwich] returns a failure
    result, its state unchanged, having made no other request: nothing
    is submitted. *)
Theorem C7_refresh_before_dispatch (config : Config) (getTransactionCount : result Z)
    (send : Submission -> result string) (trackTransaction : string -> Tracked)
    (st : State) (now : Z) (opp : Opportunity)
    (params : SandwichOptimizer.SandwichParams) :
  currentNonce st = None \/ now - lastNonceRefresh st > 30000 ->
  let run := executeSandwich config getTransactionCount send trackTransaction
               st now opp params in
  (exists rest, snd run = GetTransactionCount :: rest) /\
  (forall n, getTransactionCount = Ok n ->
     fst (refreshNonce getTransactionCount st now)
     = Ok {| currentNonce := Some n; lastNonceRefresh := now |}) /\
  (forall n, getTransactionCount = Ok n ->
     snd (fst run) = {| currentNonce := Some (n + 1); lastNonceRefresh := now |} /\
     exists submissions,
       snd run = GetTransactionCount :: map Submit submissions /\
       map s_nonce submissions = match path opp with [] => [] | _ :: _ => [n] end) /\
  (currentNonce st = None ->
   forall message, getTransactionCount = Throw message ->
     run = (failure "Failed to get nonce and no previous nonce available",
            st, [GetTransactionCount])).
Proof.
  intros Hdue run. pose proof (refreshDue_when_stale st now Hdue) as Hd.
  subst run. unfold executeSandwich, refreshNonce. rewrite Hd.
  split; [|split; [|split]].
  - destruct (applyCount st now getTransactionCount) as [st1|]; [|cbn; eauto].
    destruct (takeNonce st1) as [nonce st2].
    destruct (nth_error (path opp) 0); [|cbn; eauto].
    match goal with |- context [if ?c then _ else _] => destruct c end;
      unfold executeWithETH, executeWithFlashLoan, submitAndTrack; cbn; eauto.
  - intros n ->. reflexivity.
  - intros n ->. cbn [applyCount takeNonce currentNonce lastNonceRefresh].
    destruct (path opp) as [|tokenA rest]; cbn [nth_error].
    + split; [reflexivity|]. exists []. split; reflexivity.
    + match goal with |- context [if ?c then _ else _] => destruct c end;
        unfold executeWithETH, executeWithFlashLoan, submitAndTrack;
        cbn [fst snd app]; (split; [reflexivity|]);
        eexists [_]; split; reflexivity.
  - intros Hnone message ->. unfold applyCount, noNonce. rewrite Hnone. reflexivity.
Qed.

(** A fresh executor: the request times out and nothing is sent; or the
    count 7 arrives and the sandwich of [Examples.profitableParams] is
    dispatched with it. *)
Lemma C7_refresh_before_dispatch_witness :
  let params := SandwichOptimizer.calculateOptimalSandwichParams
                  Scenarios.defaultConfig Ethers.mul_number
                  Scenarios.calmProvider 0 Scenarios.thinPoolOpportunity in
  currentNonce initial = None /\
  executeSandwich Scenarios.defaultConfig (Throw "timeout")
    (fun _ => Ok "0x33") (fun _ => TimedOut)
    initial 1700000000000 Scenarios.thinPoolOpportunity params
  = (failure "Failed to get nonce and no previous nonce available",
     initial, [GetTransactionCount]) /\
  snd (fst (executeSandwich Scenarios.defaultConfig (Ok 7)
              (fun _ => Ok "0x33") (fun _ => TimedOut)
              initial 1700000000000 Scenarios.thinPoolOpportunity
              Examples.profitableParams))
  = {| currentNonce := Some 8; lastNonceRefresh := 1700000000000 |} /\
  submittedNonces
    (snd (executeSandwich Scenarios.defaultConfig (Ok 7)
            (fun _ => Ok "0x33") (fun _ => TimedOut)
            initial 1700000000000 Scenarios.thinPoolOpportunity
            Examples.profitableParams))
  = [7].
Proof.
  intros params. split; [reflexivity|]. split; [|split].
  - exact (proj2 (proj2 (proj2
             (C7_refresh_before_dispatch Scenarios.defaultConfig
                (Throw "timeout") (fun _ => Ok "0x33") (fun _ => TimedOut)
                initial 1700000000000 Scenarios.thinPoolOpportunity params
                (or_introl eq_refl))))
             eq_refl "timeout" eq_refl).
  - exact (proj1 (proj1 (proj2 (proj2
             (C7_refresh_before_dispatch Scenarios.defaultConfig
                (Ok 7) (fun _ => Ok "0x33") (fun _ => TimedOut)
                initial 1700000000000 Scenarios.thinPoolOpportunity
                Examples.profitableParams
                (or_introl eq_refl)))) 7 eq_refl)).
  - vm_compute. reflexivity.
Defined.

(** The read-and-increment itself is one uninterrupted statement. *)
Lemma takeNonce_increments (n last : Z) :
  takeNonce {| currentNonce := Some n; lastNonceRefresh := last |}
  = (n, {| currentNonce := Some (n + 1); lastNonceRefresh := last |}).
Proof. reflexivity. Qed.

(** C9 (the code departs from the claim). Two calls of
    [executeSandwich] on a fresh executor overlap: both ask the chain
    for the transaction count; the first answer (7) arrives and the
    first call takes nonce 7; the second answer (7, nothing having been
    mined) arrives and overwrites the counter, and the second call takes
    nonce 7 as well. *)
Theorem C9_overlapping_refresh_repeats_nonce :
  let schedule :=
    [Run 0; Run 1; Resume 0 (Ok 7); Run 0; Resume 1 (Ok 7); Run 1] in
  let '(st, calls) := run initial [Entered 1000; Entered 1000] schedule in
  calls = [Assigned 7; Assigned 7] /\ assigned calls = [7; 7] /\
  currentNonce st = Some 8.
Proof. vm_compute. repeat split. Qed.

Lemma consecutive_succ (base : Z) (k : nat) :
  consecutive base (S k) = (consecutive base k ++ [base + Z.of_nat k])%list.
Proof. unfold consecutive. now rewrite seq_S, map_app. Qed.

Lemma update_Forall {A : Type} (P : A -> Prop) (l : list A) (i : nat) (a : A) :
  Forall P l -> P a -> Forall P (update l i a).
Proof.
  intros Hl Ha. revert i. induction Hl as [|h t Hh Ht IH]; intros [|i]; simpl;
    constructor; auto.
Qed.

Lemma assigned_update_silent (calls : list Call) (i : nat) (c c' : Call) :
  nth_error calls i = Some c ->
  (forall n, c <> Assigned n) -> (forall n, c' <> Assigned n) ->
  assigned (update calls i c') = assigned calls.
Proof.
  revert i. induction calls as [|h t IH]; intros [|i]; simpl; try discriminate.
  - intros [= ->] Hc Hc'. unfold assigned. simpl.
    destruct c; try (now exfalso; eapply Hc);
      destruct c'; try (now exfalso; eapply Hc'); reflexivity.
  - intros Hi Hc Hc'. unfold assigned in *. simpl. f_equal. now apply (IH i).
Qed.

Lemma assigned_update_taken (calls : list Call) (i : nat) (c : Call) (n : Z) :
  nth_error calls i = Some c ->
  (forall m, c <> Assigned m) ->
  Permutation (assigned (update calls i (Assigned n))) (n :: assigned calls).
Proof.
  revert i. induction calls as [|h t IH]; intros [|i]; simpl; try discriminate.
  - intros [= ->] Hc. unfold assigned. simpl.
    destruct c; try (now exfalso; eapply Hc); reflexivity.
  - intros Hi Hc. unfold assigned in *. simpl.
    rewrite (IH i Hi Hc). symmetry. apply Permutation_middle.
Qed.

Lemma quiet_nth (last : Z) (calls : list Call) (i : nat) (c : Call) :
  Forall (fun c => quiet last c = true) calls ->
  nth_error calls i = Some c -> quiet last c = true.
Proof.
  intros H Hi. rewrite Forall_forall in H. apply H. eapply nth_error_In; eauto.
Qed.

(** While no refresh is due, every step keeps the counter at
    [base + k], [k] the number of nonces handed out, and the nonces
    handed out are [base], ..., [base + k - 1]. *)
Lemma step_quiet (base last : Z) (s : Step) (st : State) (calls : list Call) (k : nat) :
  0 < base ->
  currentNonce st = Some (base + Z.of_nat k) ->
  lastNonceRefresh st = last ->
  Forall (fun c => quiet last c = true) calls ->
  Permutation (assigned calls) (consecutive base k) ->
  exists k',
    currentNonce (fst (step st calls s)) = Some (base + Z.of_nat k') /\
    lastNonceRefresh (fst (step st calls s)) = last /\
    Forall (fun c => quiet last c = true) (snd (step st calls s)) /\
    Permutation (assigned (snd (step st calls s))) (consecutive base k').
Proof.
  intros Hbase Hnonce Hlast Hquiet Hperm.
  destruct s as [i | i count]; simpl.
  - destruct (nth_error calls i) as [c|] eqn:Hi; [|exists k; auto].
    pose proof (quiet_nth _ _ _ _ Hquiet Hi) as Hc.
    destruct c as [now| | | |]; try discriminate Hc; try (exists k; now auto).
    + assert (Hdue : refreshDue st now = false).
      { unfold refreshDue, noNonce. rewrite Hnonce, Hlast. simpl in Hc.
        apply orb_false_iff. split; [apply Z.eqb_neq; lia|].
        apply Z.ltb_ge. apply Z.leb_le in Hc. exact Hc. }
      rewrite Hdue. simpl. exists k. repeat split; auto.
      * now apply update_Forall.
      * rewrite (assigned_update_silent calls i (Entered now) Refreshed Hi);
          [exact Hperm| |]; intros n; discriminate.
    + unfold takeNonce. rewrite Hnonce. simpl. exists (S k). repeat split.
      * f_equal. lia.
      * exact Hlast.
      * now apply update_Forall.
      * rewrite (assigned_update_taken calls i Refreshed _ Hi) by (intros m; discriminate).
        rewrite consecutive_succ. rewrite Hperm.
        apply Permutation_cons_append.
  - destruct (nth_error calls i) as [c|] eqn:Hi; [|exists k; auto].
    pose proof (quiet_nth _ _ _ _ Hquiet Hi) as Hc.
    destruct c; try discriminate Hc; exists k; auto.
Qed.

Lemma run_quiet (base last : Z) (schedule : list Step) (st : State)
    (calls : list Call) (k : nat) :
  0 < base ->
  currentNonce st = Some (base + Z.of_nat k) ->
  lastNonceRefresh st = last ->
  Forall (fun c => quiet last c = true) calls ->
  Permutation (assigned calls) (consecutive base k) ->
  exists k',
    currentNonce (fst (run st calls schedule)) = Some (base + Z.of_nat k') /\
    Permutation (assigned (snd (run st calls schedule))) (consecutive base k').
Proof.
  intros Hbase. revert st calls k.
  induction schedule as [|s rest IH]; intros st calls k Hnonce Hlast Hquiet Hperm.
  - exists k. auto.
  - simpl. destruct (step_quiet base last s st calls k Hbase Hnonce Hlast Hquiet Hperm)
      as (k1 & H1 & H2 & H3 & H4).
    destruct (step st calls s) as [st1 calls1]. simpl in *.
    exact (IH st1 calls1 k1 H1 H2 H3 H4).
Qed.

(** X23. Overlapping calls of [executeSandwich] on an executor
    holding a non-zero nonce [base] refreshed within the last thirty
    seconds: whatever the interleaving, the nonces handed out are
    [base], [base + 1], ..., each once, and the counter ends one past
    the last. *)
Lemma fresh_nonce_calls_get_consecutive_nonces (base last : Z) (times : list Z)
    (schedule : list Step) :
  0 < base ->
  Forall (fun now => now - last <= 30000) times ->
  let final := run {| currentNonce := Some base; lastNonceRefresh := last |}
                   (map Entered times) schedule in
  exists k,
    Permutation (assigned (snd final)) (consecutive base k) /\
    currentNonce (fst final) = Some (base + Z.of_nat k).
Proof.
  intros Hbase Htimes final. subst final.
  destruct (run_quiet base last schedule
              {| currentNonce := Some base; lastNonceRefresh := last |}
              (map Entered times) 0 Hbase) as (k & Hk & Hp).
  - simpl. f_equal. lia.
  - reflexivity.
  - apply Forall_map. eapply Forall_impl; [|exact Htimes].
    intros now H. simpl. apply Z.leb_le. exact H.
  - assert (assigned (map Entered times) = []) as ->.
    { unfold assigned. induction times; simpl; auto.
      inversion Htimes; subst. auto. }
    constructor.
  - exists k. split; assumption.
Qed.

(** The same repetition without overlap: the first transaction is still
    pending when its tracking times out, the chain's count is unchanged,
    and the next dispatch, more than 30 seconds later, refreshes to the
    nonce already used. *)
Lemma sequential_refresh_repeats_nonce :
  let params := SandwichOptimizer.calculateOptimalSandwichParams
                  Scenarios.defaultConfig Ethers.mul_number
                  Scenarios.calmProvider 0 Scenarios.thinPoolOpportunity in
  let dispatch := executeSandwich Scenarios.defaultConfig (Ok 7)
                    (fun _ => Ok "0x33") (fun _ => TimedOut) in
  let '(_, st1, log1) :=
    dispatch initial 1700000000000 Scenarios.thinPoolOpportunity params in
  let '(_, st2, log2) :=
    dispatch st1 1700000120000 Scenarios.thinPoolOpportunity params in
  submittedNonces log1 = [7] /\ submittedNonces log2 = [7] /\
  currentNonce st1 = Some 8 /\ currentNonce st2 = Some 8.
Proof. vm_compute. repeat split. Qed.

End ExecutorFacts.

(** ** The in-flight map *)

Section MapFacts.

Context {V : Type}.

Lemma keys_set_in (m : JSMap.t V) (key : string) (value : V) (k : string) :
  In k (JSMap.keys (JSMap.set m key value)) -> k = key \/ In k (JSMap.keys m).
Proof.
  induction m as [|[k' v] m IH]; simpl.
  - intros [<- | []]. now left.
  - destruct (String.eqb_spec k' key) as [-> | Hne]; simpl.
    + intros [<- | H]; auto.
    + intros [<- | H]; auto. destruct (IH H); auto.
Qed.

Lemma keys_set_NoDup (m : JSMap.t V) (key : string) (value : V) :
  NoDup (JSMap.keys m) -> NoDup (JSMap.keys (JSMap.set m key value)).
Proof.
  induction m as [|[k' v] m IH]; simpl; intros H.
  - constructor; [intros []|constructor].
  - inversion H as [|? ? Hnotin Hnodup]; subst.
    destruct (String.eqb_spec k' key) as [-> | Hne]; simpl.
    + now constructor.
    + constructor; [|now apply IH].
      intros Hin. apply keys_set_in in Hin as [-> | Hin]; [now apply Hne|].
      now apply Hnotin.
Qed.

Lemma keys_set_present (m : JSMap.t V) (key : string) (value : V) :
  JSMap.has m key = true -> JSMap.keys (JSMap.set m key value) = JSMap.keys m.
Proof.
  unfold JSMap.has. induction m as [|[k' v] m IH]; simpl; [discriminate|].
  destruct (String.eqb_spec k' key) as [-> | Hne]; simpl; [reflexivity|].
  intros H. now rewrite IH.
Qed.

Lemma get_set_same (m : JSMap.t V) (key : string) (value : V) :
  JSMap.get (JSMap.set m key value) key = Some value.
Proof.
  induction m as [|[k' v] m IH]; simpl.
  - now rewrite String.eqb_refl.
  - destruct (String.eqb_spec k' key) as [-> | Hne]; simpl.
    + now rewrite String.eqb_refl.
    + destruct (String.eqb_spec k' key); [contradiction|]. exact IH.
Qed.

Lemma count_NoDup (m : JSMap.t V) (key : string) :
  NoDup (JSMap.keys m) -> (JSMap.count m key <= 1)%nat.
Proof.
  unfold JSMap.count. induction m as [|[k' v] m IH]; simpl; intros H; [lia|].
  inversion H as [|? ? Hnotin Hnodup]; subst.
  destruct (String.eqb_spec k' key) as [-> | Hne]; simpl; [|now apply IH].
  assert (filter (fun e : string * V => String.eqb (fst e) key) m = []) as ->;
    [|simpl; lia].
  clear IH H Hnodup. induction m as [|[k'' v'] m IH']; simpl; [reflexivity|].
  simpl in Hnotin.
  destruct (String.eqb_spec k'' key) as [-> | Hne'].
  - exfalso. apply Hnotin. now left.
  - apply IH'. intros Hin. apply Hnotin. now right.
Qed.

End MapFacts.

Section ProcessorFacts.

Import OpportunityProcessor.
Local Open Scope string_scope.

Lemma addOpportunity_NoDup (st : State) (now : Z) (txHash : string) (opp : Opportunity) :
  NoDup (JSMap.keys (pendingOpportunities st)) ->
  NoDup (JSMap.keys (pendingOpportunities (snd (addOpportunity st now txHash opp)))).
Proof.
  intros H. unfold addOpportunity.
  destruct (JSSet.has _ _); simpl; [assumption|]. now apply keys_set_NoDup.
Qed.

Lemma addAll_processed (detections : list Detection) (st : State) :
  processedOpportunities (addAll st detections) = processedOpportunities st.
Proof.
  revert st. induction detections as [|[[now txHash] opp] rest IH]; intros st.
  - reflexivity.
  - unfold addAll. simpl. fold (addAll (snd (addOpportunity st now txHash opp)) rest).
    rewrite IH. unfold addOpportunity. now destruct (JSSet.has _ _).
Qed.

Lemma addAll_NoDup (detections : list Detection) (st : State) :
  NoDup (JSMap.keys (pendingOpportunities st)) ->
  NoDup (JSMap.keys (pendingOpportunities (addAll st detections))).
Proof.
  revert st. induction detections as [|[[now txHash] opp] rest IH]; intros st H.
  - exact H.
  - unfold addAll. simpl. apply IH. now apply addOpportunity_NoDup.
Qed.

(** C8 as stated fails. A second detection of a hash whose entry is in
    flight is not a no-op: the entry is replaced, detection time
    included. *)
Lemma C8_counterexample :
  let txHash := "0x1111111111111111111111111111111111111111111111111111111111111111" in
  let first := Scenarios.opportunityOver (Scenarios.ether 1000) (Scenarios.ether 1000)
                 (Scenarios.ether 10) (Scenarios.gwei 50) in
  let second := Scenarios.opportunityOver (Scenarios.ether 990) (Scenarios.ether 1010)
                  (Scenarios.ether 10) (Scenarios.gwei 50) in
  let st1 := snd (addOpportunity initial 1000 txHash first) in
  let st2 := snd (addOpportunity st1 9000 txHash second) in
  JSMap.get (pendingOpportunities st1) txHash
    = Some {| opportunity := first; detected := 1000 |} /\
  JSMap.get (pendingOpportunities st2) txHash
    = Some {| opportunity := second; detected := 9000 |} /\
  pendingOpportunities st2 <> pendingOpportunities st1.
Proof.
  cbv zeta. repeat split. intros H.
  apply (f_equal (fun m => option_map detected (JSMap.get m
    "0x1111111111111111111111111111111111111111111111111111111111111111"))) in H.
  vm_compute in H. discriminate.
Qed.

(** C8, amended. After any sequence of detections the in-flight map
    holds at most one entry per source transaction hash; a further
    detection of a hash that has an entry adds no entry: it replaces the opportunity and the detection time
    of the one that is there. *)
Theorem C8_one_entry_per_transaction (detections : list Detection)
    (now : Z) (txHash : string) (opp : Opportunity) :
  let st := addAll initial detections in
  let st' := snd (addOpportunity st now txHash opp) in
  JSMap.has (pendingOpportunities st) txHash = true ->
  NoDup (JSMap.keys (pendingOpportunities st)) /\
  (JSMap.count (pendingOpportunities st) txHash <= 1)%nat /\
  NoDup (JSMap.keys (pendingOpportunities st')) /\
  (JSMap.count (pendingOpportunities st') txHash <= 1)%nat /\
  JSMap.keys (pendingOpportunities st') = JSMap.keys (pendingOpportunities st) /\
  JSMap.get (pendingOpportunities st') txHash
  = Some {| opportunity := opp; detected := now |}.
Proof.
  intros st st' Hin.
  assert (Hnew : JSSet.has (processedOpportunities st) txHash = false).
  { subst st. now rewrite addAll_processed. }
  assert (Hst : NoDup (JSMap.keys (pendingOpportunities st))).
  { apply addAll_NoDup. constructor. }
  assert (Hst' : NoDup (JSMap.keys (pendingOpportunities st'))).
  { now apply addOpportunity_NoDup. }
  repeat split; try assumption; try (now apply count_NoDup).
  - subst st'. unfold addOpportunity. rewrite Hnew. simpl. now apply keys_set_present.
  - subst st'. unfold addOpportunity. rewrite Hnew. simpl. apply get_set_same.
Qed.

Lemma C8_one_entry_per_transaction_witness :
  let txHash := "0x1111111111111111111111111111111111111111111111111111111111111111" in
  let first := Scenarios.opportunityOver (Scenarios.ether 1000) (Scenarios.ether 1000)
                 (Scenarios.ether 10) (Scenarios.gwei 50) in
  let second := Scenarios.opportunityOver (Scenarios.ether 990) (Scenarios.ether 1010)
                  (Scenarios.ether 10) (Scenarios.gwei 50) in
  let st := addAll initial [(1000, txHash, first)] in
  let st' := snd (addOpportunity st 9000 txHash second) in
  JSMap.has (pendingOpportunities st) txHash = true /\
  (JSMap.count (pendingOpportunities st') txHash <= 1)%nat /\
  JSMap.get (pendingOpportunities st') txHash
  = Some {| opportunity := second; detected := 9000 |}.
Proof.
  intros txHash first second st st'.
  assert (Hin : JSMap.has (pendingOpportunities st) txHash = true) by reflexivity.
  split; [exact Hin|].
  pose proof (C8_one_entry_per_transaction [(1000, txHash, first)] 9000 txHash second
                Hin) as (_ & _ & _ & Hcount & _ & Hget).
  split; [exact Hcount|exact Hget].
Defined.

End ProcessorFacts.

Section ObserverFacts.

Import MempoolObserver.

(** [handlePendingTransaction] leaves [processedTxs] alone: until the
    message handler that awaits it resumes and records the hash, a
    second notification of the same hash passes the guard as well. *)
Lemma guard_open_while_handling (st : State) (maxGasPrice : result Z)
    (lookup : result (option TransactionDecoder.Tx))
    (analyze : TransactionDecoder.Tx -> result (option Opportunity))
    (optimize : Opportunity -> SandwichOptimizer.SandwichParams)
    (now : Z) (txHash : string) :
  accepts (handlePendingTransaction st maxGasPrice lookup analyze optimize now txHash)
          txHash
  = accepts st txHash.
Proof.
  unfold handlePendingTransaction, accepts.
  destruct lookup as [[tx|]|]; try reflexivity.
  destruct (TransactionDecoder.to tx), maxGasPrice as [m|]; try reflexivity.
  destruct (isTxGasPriceTooHigh m tx); try reflexivity.
  destruct (analyze tx) as [[opp|]|]; try reflexivity.
  destruct (SandwichOptimizer.sp_profitable (optimize opp)); reflexivity.
Qed.

(** A handler that finds a profitable opportunity stores it under the
    hash whatever entry is there. *)
Lemma handler_overwrites_entry (st : State) (maxGasPrice : Z)
    (tx : TransactionDecoder.Tx) (router : string)
    (analyze : TransactionDecoder.Tx -> result (option Opportunity))
    (optimize : Opportunity -> SandwichOptimizer.SandwichParams)
    (now : Z) (txHash : string) (opp : Opportunity) :
  TransactionDecoder.to tx = Some router ->
  isTxGasPriceTooHigh maxGasPrice tx = false ->
  analyze tx = Ok (Some opp) ->
  SandwichOptimizer.sp_profitable (optimize opp) = true ->
  JSMap.get
    (pendingOpportunities
       (handlePendingTransaction st (Ok maxGasPrice) (Ok (Some tx)) analyze optimize
          now txHash))
    txHash
  = Some {| opportunity := opp; sandwichParams := optimize opp; detected := now |}.
Proof.
  intros Hto Hgas Han Hprof. unfold handlePendingTransaction.
  rewrite Hto, Hgas, Han, Hprof. cbn. apply get_set_same.
Qed.

(** The one gas-price gate of the pipeline: a victim bidding above the
    configured maximum is skipped before any analysis. *)
Lemma victims_above_maximum_are_skipped (st : State) (maxGasPrice : Z)
    (tx : TransactionDecoder.Tx)
    (analyze : TransactionDecoder.Tx -> result (option Opportunity))
    (optimize : Opportunity -> SandwichOptimizer.SandwichParams)
    (now : Z) (txHash : string) :
  isTxGasPriceTooHigh maxGasPrice tx = true ->
  pendingOpportunities
    (handlePendingTransaction st (Ok maxGasPrice) (Ok (Some tx)) analyze optimize
       now txHash)
  = pendingOpportunities st.
Proof.
  intros Hgas. unfold handlePendingTransaction.
  destruct (TransactionDecoder.to tx); [|reflexivity]. now rewrite Hgas.
Qed.

End ObserverFacts.

(** ** Token data, pair reserves, liquidity and value *)

Section TokenLookupFacts.

Import TokenLookups.
Local Open Scope string_scope.
Local Open Scope Z_scope.

Lemma cachedValue_miss {A : Type} (chain : Chain) (cache : State -> JSMap.t (Cached A))
    (key : string) (maxAge : Z) (st : State) :
  JSMap.get (cache st) key = None ->
  cachedValue chain cache key maxAge st = (Ok None, st).
Proof.
  intros H. unfold cachedValue, Eff.bind, Eff.get. now rewrite H.
Qed.

Lemma cachedValue_hit {A : Type} (chain : Chain) (cache : State -> JSMap.t (Cached A))
    (key : string) (maxAge : Z) (st : State) (c : Cached A) :
  JSMap.get (cache st) key = Some c ->
  cachedValue chain cache key maxAge st
  = (Ok (if clock chain (clockReads st) - cachedAt c <? maxAge
         then Some (data c) else None),
     tick st).
Proof.
  intros H. unfold cachedValue, Eff.bind, Eff.get. now rewrite H.
Qed.

(** X1. A token not yet cached whose contract can be built is answered
    with its symbol, name and decimals, each replaced by its default
    (["UNKNOWN"], ["Unknown Token"], 18) when its call fails; the answer
    is stored under the lower-cased address with the time it was
    fetched, and for the next ten minutes [getTokenInfo] returns that
    same object for any spelling of the address, reading the clock and
    nothing else. *)
Theorem token_info_is_served_from_cache (chain later : Chain) (st : State)
    (tokenAddress again : string) (c : TokenContract) :
  JSMap.get (tokenCache st) (Str.toLowerCase tokenAddress) = None ->
  tokenContract chain tokenAddress = Ok c ->
  Str.toLowerCase again = Str.toLowerCase tokenAddress ->
  let first := getTokenInfo chain tokenAddress st in
  clock later (clockReads (snd first)) - clock chain (clockReads st) < 600000 ->
  let info :=
    {| address := tokenAddress;
       symbol := match call_symbol c with Ok s => s | Throw _ => "UNKNOWN" end;
       name := match call_name c with Ok s => s | Throw _ => "Unknown Token" end;
       decimals := match call_decimals c with Ok d => d | Throw _ => 18%nat end |} in
  fst first = Ok info /\
  JSMap.get (tokenCache (snd first)) (Str.toLowerCase again)
  = Some {| data := info; cachedAt := clock chain (clockReads st) |} /\
  getTokenInfo later again (snd first) = (Ok info, tick (snd first)).
Proof.
  intros Hmiss Hc Hkey first.
  assert (Hfirst : first
    = (Ok {| address := tokenAddress;
             symbol := match call_symbol c with Ok s => s | Throw _ => "UNKNOWN" end;
             name := match call_name c with Ok s => s | Throw _ => "Unknown Token" end;
             decimals := match call_decimals c with Ok d => d | Throw _ => 18%nat end |},
       {| tokenCache :=
            JSMap.set (tokenCache st) (Str.toLowerCase tokenAddress)
              {| data :=
                   {| address := tokenAddress;
                      symbol := match call_symbol c with Ok s => s | Throw _ => "UNKNOWN" end;
                      name := match call_name c with Ok s => s | Throw _ => "Unknown Token" end;
                      decimals := match call_decimals c with Ok d => d | Throw _ => 18%nat end |};
                 cachedAt := clock chain (clockReads st) |};
          pairCache := pairCache st;
          clockReads := S (clockReads st) |})).
  { subst first. unfold getTokenInfo. unfold Eff.bind at 1.
    rewrite (cachedValue_miss chain tokenCache _ _ st Hmiss).
    unfold Eff.try_catch, Eff.bind, Eff.lift. rewrite Hc. reflexivity. }
  rewrite Hfirst. cbn [fst snd clockReads tokenCache]. intros Hfresh.
  rewrite Hkey. split; [reflexivity|]. split; [apply get_set_same|].
  unfold getTokenInfo. unfold Eff.bind at 1. rewrite Hkey.
  erewrite cachedValue_hit by (cbn [tokenCache]; apply get_set_same).
  cbn [clockReads cachedAt data].
  destruct (Z.ltb_spec (clock later (S (clockReads st)) - clock chain (clockReads st))
                       cacheExpirationTime) as [_|Hge].
  - reflexivity.
  - unfold cacheExpirationTime in Hge. lia.
Qed.


Lemma toLowerCase_idempotent (s : string) :
  Str.toLowerCase (Str.toLowerCase s) = Str.toLowerCase s.
Proof.
  induction s as [|c s IH]; [reflexivity|]. cbn [Str.toLowerCase]. rewrite IH. f_equal.
  unfold Str.lower_ascii.
  destruct (Nat.leb 65 (nat_of_ascii c) && Nat.leb (nat_of_ascii c) 90)%bool eqn:E;
    [|now rewrite E].
  apply andb_true_iff in E as [E1 E2].
  apply Nat.leb_le in E1, E2.
  rewrite nat_ascii_embedding by lia.
  replace (Nat.leb (nat_of_ascii c + 32) 90) with false
    by (symmetry; apply Nat.leb_gt; lia).
  now rewrite andb_false_r.
Qed.

(** [getPairReserves] never throws. *)
Lemma getPairReserves_returns (chain : Chain) (pairAddress tokenA tokenB : string)
    (st : State) :
  exists o, fst (getPairReserves chain pairAddress tokenA tokenB st) = Ok o.
Proof.
  unfold getPairReserves, Eff.bind at 1.
  destruct (cachedValue chain pairCache (Str.toLowerCase pairAddress) 30000 st)
    as [[[r|]|msg] st1] eqn:E.
  - eexists; reflexivity.
  - unfold Eff.try_catch, Eff.bind, Eff.lift.
    destruct (pairContract chain pairAddress) as [c|]; [|eexists; reflexivity].
    destruct (call_token0 c); [|eexists; reflexivity].
    destruct (call_token1 c); [|eexists; reflexivity].
    destruct (call_getReserves c) as [[r0 r1]|]; eexists; reflexivity.
  - exfalso. unfold cachedValue, Eff.bind, Eff.get in E.
    destruct (JSMap.get (pairCache st) (Str.toLowerCase pairAddress)); discriminate.
Qed.

Lemma cachedValue_caches {A : Type} (chain : Chain)
    (cache : State -> JSMap.t (Cached A)) (key : string) (maxAge : Z) (st : State) :
  (forall s, cache (tick s) = cache s) ->
  exists o st', cachedValue chain cache key maxAge st = (Ok o, st') /\
                cache st' = cache st /\
                (st' = st \/ st' = tick st).
Proof.
  intros Htick. destruct (JSMap.get (cache st) key) as [c|] eqn:E.
  - rewrite (cachedValue_hit chain cache key maxAge st c E).
    do 2 eexists. split; [reflexivity|]. split; [apply Htick|now right].
  - rewrite (cachedValue_miss chain cache key maxAge st E).
    do 2 eexists. split; [reflexivity|]. split; [reflexivity|now left].
Qed.

(** X2. [getPairReserves] never throws and never touches the token
    cache; when it answers [null] it has written nothing to the pair
    cache. *)
Theorem failed_pair_lookup_is_not_cached (chain : Chain)
    (pairAddress tokenA tokenB : string) (st : State) :
  let r := getPairReserves chain pairAddress tokenA tokenB st in
  (exists o, fst r = Ok o) /\
  tokenCache (snd r) = tokenCache st /\
  (fst r = Ok None -> pairCache (snd r) = pairCache st).
Proof.
  cbv zeta. split; [apply getPairReserves_returns|].
  remember (getPairReserves chain pairAddress tokenA tokenB st) as r eqn:Hr.
  unfold getPairReserves in Hr. unfold Eff.bind at 1 in Hr.
  destruct (cachedValue_caches chain pairCache (Str.toLowerCase pairAddress) 30000 st
              (fun s => eq_refl)) as (o & st1 & E & Hp & Hst).
  rewrite E in Hr.
  assert (Ht : tokenCache st1 = tokenCache st) by (destruct Hst; subst; reflexivity).
  destruct o as [reserves|].
  - subst r. cbn. split; [assumption|discriminate].
  - unfold Eff.try_catch, Eff.bind, Eff.lift in Hr.
    destruct (pairContract chain pairAddress) as [c|]; [|subst r; cbn; auto].
    destruct (call_token0 c); [|subst r; cbn; auto].
    destruct (call_token1 c); [|subst r; cbn; auto].
    destruct (call_getReserves c) as [[r0 r1]|]; [|subst r; cbn; auto].
    subst r. cbn. split; [assumption|discriminate].
Qed.

Lemma getPairReserves_miss (chain : Chain) (pairAddress tokenA tokenB : string)
    (st : State) :
  JSMap.get (pairCache st) (Str.toLowerCase pairAddress) = None ->
  getPairReserves chain pairAddress tokenA tokenB st
  = match pairContract chain pairAddress with
    | Ok c =>
        match call_token0 c, call_token1 c, call_getReserves c with
        | Ok t0, Ok t1, Ok (r0, r1) =>
            let result :=
              {| TokenLookups.pairAddress := pairAddress;
                 token0 := Str.toLowerCase t0;
                 token1 := Str.toLowerCase t1;
                 reserve0 := r0;
                 reserve1 := r1;
                 timestamp := clock chain (clockReads st) |} in
            (Ok (Some result),
             {| tokenCache := tokenCache st;
                pairCache :=
                  JSMap.set (pairCache st) (Str.toLowerCase pairAddress)
                    {| data := result; cachedAt := clock chain (S (clockReads st)) |};
                clockReads := S (S (clockReads st)) |})
        | _, _, _ => (Ok None, st)
        end
    | Throw _ => (Ok None, st)
    end.
Proof.
  intros Hmiss. unfold getPairReserves. unfold Eff.bind at 1.
  rewrite (cachedValue_miss chain pairCache _ _ st Hmiss).
  unfold Eff.try_catch, Eff.bind, Eff.lift.
  destruct (pairContract chain pairAddress) as [c|]; [|reflexivity].
  destruct (call_token0 c) as [t0|]; [|reflexivity].
  destruct (call_token1 c) as [t1|]; [|reflexivity].
  destruct (call_getReserves c) as [[r0 r1]|]; reflexivity.
Qed.

(** X3. Reserves fetched for a pair not yet cached are returned again,
    from the cache and for thirty seconds, to any call that names the
    same pair address in any case, whatever tokens that call passes; the
    token addresses of the object are lower-cased and its [pairAddress]
    is the address as first given. *)
Theorem pair_reserves_are_served_from_cache (chain later : Chain) (st : State)
    (pairAddress again tokenA tokenB tokenA' tokenB' : string)
    (reserves : PairReserves) :
  JSMap.get (pairCache st) (Str.toLowerCase pairAddress) = None ->
  fst (getPairReserves chain pairAddress tokenA tokenB st) = Ok (Some reserves) ->
  Str.toLowerCase again = Str.toLowerCase pairAddress ->
  let st1 := snd (getPairReserves chain pairAddress tokenA tokenB st) in
  clock later (clockReads st1) - clock chain (S (clockReads st)) < 30000 ->
  getPairReserves later again tokenA' tokenB' st1 = (Ok (Some reserves), tick st1) /\
  Str.toLowerCase (token0 reserves) = token0 reserves /\
  Str.toLowerCase (token1 reserves) = token1 reserves /\
  TokenLookups.pairAddress reserves = pairAddress.
Proof.
  intros Hmiss. rewrite (getPairReserves_miss chain _ tokenA tokenB st Hmiss).
  destruct (pairContract chain pairAddress) as [c|]; [|discriminate].
  destruct (call_token0 c) as [t0|]; [|discriminate].
  destruct (call_token1 c) as [t1|]; [|discriminate].
  destruct (call_getReserves c) as [[r0 r1]|]; [|discriminate].
  cbn. intros [= <-] Hkey Hfresh. cbn [token0 token1 TokenLookups.pairAddress].
  rewrite !toLowerCase_idempotent. repeat split.
  unfold getPairReserves, Eff.bind at 1. rewrite Hkey.
  erewrite cachedValue_hit by (cbn [pairCache]; apply get_set_same).
  cbn [clockReads cachedAt data].
  destruct (Z.ltb_spec (clock later (S (S (clockReads st))) - clock chain (S (clockReads st)))
                       30000) as [_|Hge]; [reflexivity|lia].
Qed.


Lemma considerFactory_coherent (chain : Chain) (tokenA tokenB factory : string)
    (best : Best) (st : State) :
  coherent tokenA best = true ->
  exists best' st',
    considerFactory chain tokenA tokenB best factory st = (Ok best', st') /\
    coherent tokenA best' = true.
Proof.
  intros Hbest. unfold considerFactory, Eff.try_catch, Eff.bind at 1, Eff.lift.
  destruct (getPair chain factory tokenA tokenB) as [pairAddress|];
    [|do 2 eexists; split; [reflexivity|assumption]].
  destruct (negb (String.eqb pairAddress "") && negb (String.eqb pairAddress AddressZero))%bool;
    [|do 2 eexists; split; [reflexivity|assumption]].
  unfold Eff.bind.
  destruct (getPairReserves_returns chain pairAddress tokenA tokenB st) as [o Ho].
  destruct (getPairReserves chain pairAddress tokenA tokenB st) as [r st1].
  cbn in Ho. subst r.
  destruct o as [p|]; [|do 2 eexists; split; [reflexivity|assumption]].
  destruct (Z.ltb_spec (highestLiquidity best) (doubledReserveOf tokenA p)) as [Hlt|Hge];
    [|do 2 eexists; split; [reflexivity|assumption]].
  do 2 eexists. split; [reflexivity|].
  unfold coherent. cbn [bestPair highestLiquidity].
  rewrite Z.eqb_refl. cbn [andb]. apply Z.ltb_lt.
  unfold coherent in Hbest. destruct (bestPair best).
  - apply andb_true_iff in Hbest as [_ Hpos]. apply Z.ltb_lt in Hpos. lia.
  - apply Z.eqb_eq in Hbest. lia.
Qed.

Lemma considerFactories_coherent (chain : Chain) (tokenA tokenB : string)
    (factories : list string) (best : Best) (st : State) :
  coherent tokenA best = true ->
  exists best' st',
    considerFactories chain tokenA tokenB best factories st = (Ok best', st') /\
    coherent tokenA best' = true.
Proof.
  revert best st. induction factories as [|factory rest IH]; intros best st Hbest.
  - do 2 eexists. split; [reflexivity|assumption].
  - cbn [considerFactories]. unfold Eff.bind.
    destruct (considerFactory_coherent chain tokenA tokenB factory best st Hbest)
      as (best1 & st1 & E & H1).
    rewrite E. apply IH, H1.
Qed.

(** X4. [checkPairLiquidity] never throws.  A result that is liquid
    carries a pair; a pair it carries holds a positive reserve on the
    side [tokenA] is valued on; a result without a pair is the
    not-liquid object with liquidity 0. *)
Theorem liquid_pair_has_token_reserves (config : MarketConfig) (chain : Chain)
    (tokenA tokenB : string) (st : State) :
  exists l,
    fst (checkPairLiquidity config chain tokenA tokenB st) = Ok l /\
    (isLiquid l = true -> exists p, pair l = Some p) /\
    (forall p, pair l = Some p -> 0 < doubledReserveOf tokenA p) /\
    (pair l = None -> l = notLiquid).
Proof.
  unfold checkPairLiquidity, Eff.try_catch, Eff.bind at 1.
  destruct (considerFactories_coherent chain tokenA tokenB
              (map dex_factory (DEXES config))
              {| bestPair := None; highestLiquidity := 0; bestDex := None |} st
              eq_refl) as (best & st1 & E & Hbest).
  rewrite E.
  assert (Hnone : exists l, Ok notLiquid = Ok l /\
            (isLiquid l = true -> exists p, pair l = Some p) /\
            (forall p, pair l = Some p -> 0 < doubledReserveOf tokenA p) /\
            (pair l = None -> l = notLiquid)).
  { exists notLiquid. repeat split; try discriminate. }
  unfold coherent in Hbest.
  destruct (bestPair best) as [p|] eqn:Hp; [|exact Hnone].
  apply andb_true_iff in Hbest as [Heq Hpos].
  apply Z.eqb_eq in Heq. apply Z.ltb_lt in Hpos.
  unfold Eff.bind, Eff.lift.
  destruct (Ethers.parseEther (JS.ToString (MIN_PAIR_LIQUIDITY config)));
    [|exact Hnone].
  destruct (Ethers.parseEther (JS.ToString (MAX_PAIR_LIQUIDITY config)));
    [|exact Hnone].
  eexists. split; [reflexivity|]. cbn [pair isLiquid]. repeat split.
  - intros _. now exists p.
  - intros q [= <-]. lia.
  - discriminate.
Qed.


Lemma read_digits_repeat0 (n : nat) (acc : N) (cnt : nat) :
  exists cnt', Str.read_digits (Str.repeat0 n) acc cnt = ((acc * 10 ^ N.of_nat n)%N, cnt', "").
Proof.
  revert acc cnt. induction n as [|n IH]; intros acc cnt.
  - exists cnt. cbn. now rewrite N.mul_1_r.
  - cbn [Str.repeat0 Str.read_digits]. change (Str.is_digit "0") with true. cbn iota.
    destruct (IH (acc * 10 + Str.digit_val "0")%N (S cnt)) as [cnt' E].
    exists cnt'. rewrite E. f_equal. f_equal.
    change (Str.digit_val "0") with 0%N.
    rewrite Nat2N.inj_succ, N.pow_succ_r', N.add_0_r. symmetry. apply N.mul_assoc.
Qed.

Lemma parseUnits_one (decimals : nat) :
  Ethers.parseUnits "1" decimals = Ok (10 ^ Z.of_nat decimals).
Proof.
  unfold Ethers.parseUnits. cbn -[Z.pow Nat.ltb Ethers.pad_right0 Ethers.from_digits Z.mul].
  change (Ethers.from_digits "1") with 1.
  unfold Ethers.pad_right0, Ethers.from_digits.
  cbn [String.length append].
  change ("0" ++ Str.repeat0 (decimals - 1))%string
    with (String "0" (Str.repeat0 (decimals - 1))).
  cbn [Str.read_digits]. change (Str.is_digit "0") with true. cbn iota.
  destruct (read_digits_repeat0 (decimals - 1) (0 * 10 + Str.digit_val "0")%N 1) as [c E].
  rewrite E. change (0 * 10 + Str.digit_val "0")%N with 0%N.
  rewrite N.mul_0_l. cbn [Z.of_N].
  change (Str.is_digit "1") with true. cbn [orb andb negb].
  change (Nat.ltb decimals 0) with false. cbn iota.
  f_equal. lia.
Qed.

(** X5. For a token other than WETH with a liquid WETH pair,
    [getTokenValueInETH] returns
    [amount * (wethReserve * 10^18 / tokenReserve) / 10^decimals] in
    truncating integer arithmetic, with the token's reserve positive and
    both reserves taken from the pair [checkPairLiquidity] chose. *)
Theorem token_value_is_priced_by_the_pair (config : MarketConfig) (chain : Chain)
    (tokenAddress : string) (amount : Z) (st st1 st2 : State)
    (check : Liquidity) (info : TokenInfo) :
  String.eqb (Str.toLowerCase tokenAddress) (Str.toLowerCase (WETH config)) = false ->
  checkPairLiquidity config chain tokenAddress (WETH config) st = (Ok check, st1) ->
  isLiquid check = true ->
  getTokenInfo chain tokenAddress st1 = (Ok info, st2) ->
  (decimals info <= 256)%nat ->
  exists p,
    pair check = Some p /\
    let isToken0 :=
      String.eqb (Str.toLowerCase (token0 p)) (Str.toLowerCase tokenAddress) in
    let tokenReserve := if isToken0 then reserve0 p else reserve1 p in
    let wethReserve := if isToken0 then reserve1 p else reserve0 p in
    0 < tokenReserve /\
    getTokenValueInETH config chain tokenAddress amount st
    = (Ok (Z.quot (amount * Z.quot (wethReserve * 10 ^ 18) tokenReserve)
                  (10 ^ Z.of_nat (decimals info))),
       st2).
Proof.
  intros Hweth Hcheck Hliquid Hinfo Hdec.
  destruct (liquid_pair_has_token_reserves config chain tokenAddress (WETH config) st)
    as (l & Hl & Hpair & Hpos & _).
  rewrite Hcheck in Hl. cbn in Hl. injection Hl as <-.
  destruct (Hpair Hliquid) as [p Hp]. exists p. split; [exact Hp|].
  specialize (Hpos p Hp). unfold doubledReserveOf in Hpos.
  rewrite String.eqb_sym in Hpos.
  cbv zeta.
  assert (Hres : 0 < (if String.eqb (Str.toLowerCase (token0 p)) (Str.toLowerCase tokenAddress)
                      then reserve0 p else reserve1 p)).
  { revert Hpos.
    destruct (String.eqb (Str.toLowerCase (token0 p)) (Str.toLowerCase tokenAddress));
      lia. }
  split; [exact Hres|].
  unfold getTokenValueInETH, Eff.try_catch. rewrite Hweth.
  unfold Eff.bind at 1. rewrite Hcheck, Hliquid.
  unfold Eff.bind at 1. rewrite Hinfo, Hp.
  unfold Eff.bind, Eff.lift, parseUnitsBy.
  replace (Nat.leb (decimals info) 256) with true by (symmetry; now apply Nat.leb_le).
  rewrite parseUnits_one.
  change (Ethers.parseEther "1") with (Ok (A := Z) (10 ^ 18)).
  unfold Ethers.div.
  destruct (Z.eqb_spec (if String.eqb (Str.toLowerCase (token0 p)) (Str.toLowerCase tokenAddress)
                        then reserve0 p else reserve1 p) 0) as [E0|_]; [lia|].
  destruct (Z.eqb_spec (10 ^ Z.of_nat (decimals info)) 0) as [E0|_]; [|reflexivity].
  pose proof (Z.pow_pos_nonneg 10 (Z.of_nat (decimals info))). lia.
Qed.

End TokenLookupFacts.

(** ** The profit log *)

Section NumeralFacts.

Local Open Scope string_scope.
Local Open Scope Z_scope.

Lemma digit_val_char (d : N) : (d < 10)%N -> Str.digit_val (Str.digit_char d) = d.
Proof.
  intros H.
  assert (d = 0 \/ d = 1 \/ d = 2 \/ d = 3 \/ d = 4 \/ d = 5 \/ d = 6 \/ d = 7
          \/ d = 8 \/ d = 9)%N as Hd by lia.
  repeat (destruct Hd as [-> | Hd]; [reflexivity|]). now subst.
Qed.

(** Reading back the digits [digits_rev] writes in front of [acc]. *)
Lemma read_digits_rev (fuel : nat) (n : N) (acc : string) (a : N) (c : nat) :
  (n < 10 ^ N.of_nat (S fuel))%N ->
  exists k,
    Str.read_digits (Str.digits_rev fuel n acc) a c
    = Str.read_digits acc (a * 10 ^ N.of_nat (S k) + n)%N (S k + c).
Proof.
  revert n acc a c. induction fuel as [|fuel IH]; intros n acc a c Hn.
  - exists 0%nat. cbn [Str.digits_rev Str.read_digits].
    change (10 ^ N.of_nat 1)%N with 10%N in *.
    rewrite N.mod_small by exact Hn.
    rewrite digit_char_is_digit, digit_val_char by exact Hn. reflexivity.
  - cbn [Str.digits_rev].
    destruct (N.eqb_spec (n / 10) 0) as [Hsmall|Hbig].
    + exists 0%nat. cbn [Str.read_digits].
      assert (n < 10)%N as Hlt.
      { destruct (N.lt_ge_cases n 10) as [|Hge]; [assumption|].
        pose proof (N.Div0.div_le_mono 10 n 10 Hge) as H.
        change (10 / 10)%N with 1%N in H. lia. }
      change (10 ^ N.of_nat 1)%N with 10%N.
      rewrite N.mod_small by exact Hlt.
      rewrite digit_char_is_digit, digit_val_char by exact Hlt. reflexivity.
    + assert (Hdiv : (n / 10 < 10 ^ N.of_nat (S fuel))%N).
      { apply N.Div0.div_lt_upper_bound.
        rewrite <- N.pow_succ_r', <- Nat2N.inj_succ. exact Hn. }
      destruct (IH (n / 10)%N (String (Str.digit_char (n mod 10)) acc) a c Hdiv) as [k E].
      exists (S k). rewrite E. cbn [Str.read_digits].
      assert (Hm : (n mod 10 < 10)%N) by (apply N.mod_lt; lia).
      rewrite digit_char_is_digit, digit_val_char by exact Hm.
      rewrite (Nat2N.inj_succ (S k)), N.pow_succ_r'.
      pose proof (N.div_mod n 10 ltac:(lia)) as Hdm.
      set (X := (10 ^ N.of_nat (S k))%N).
      replace ((a * X + n / 10) * 10 + n mod 10)%N with (a * (10 * X) + n)%N.
      * reflexivity.
      * transitivity (a * (10 * X) + (10 * (n / 10) + n mod 10))%N;
          [now rewrite <- Hdm|ring].
Qed.

Lemma all_digits_rev (fuel : nat) (n : N) (acc : string) :
  BigNumberText.all_chars Str.is_digit (Str.digits_rev fuel n acc)
  = BigNumberText.all_chars Str.is_digit acc.
Proof.
  revert n acc. induction fuel as [|fuel IH]; intros n acc.
  - cbn. rewrite digit_char_is_digit by (apply N.mod_lt; lia). reflexivity.
  - cbn [Str.digits_rev]. destruct (n / 10 =? 0)%N.
    + cbn. rewrite digit_char_is_digit by (apply N.mod_lt; lia). reflexivity.
    + rewrite IH. cbn. rewrite digit_char_is_digit by (apply N.mod_lt; lia). reflexivity.
Qed.

Lemma log2_bound (n : N) : (n < 10 ^ N.of_nat (S (N.to_nat (N.log2 n))))%N.
Proof.
  rewrite Nat2N.inj_succ, N2Nat.id.
  destruct n as [|p]; [reflexivity|].
  pose proof (N.log2_spec (Npos p) ltac:(lia)) as [_ H].
  eapply N.lt_le_trans; [exact H|].
  apply N.pow_le_mono_l. lia.
Qed.

Lemma from_digits_of_N (n : N) : Ethers.from_digits (Str.of_N n) = Z.of_N n.
Proof.
  unfold Ethers.from_digits, Str.of_N.
  destruct (read_digits_rev (N.to_nat (N.log2 n)) n "" 0 0 (log2_bound n)) as [k E].
  rewrite E. cbn [Str.read_digits]. rewrite N.mul_0_l. reflexivity.
Qed.

Lemma all_digits_of_N (n : N) : BigNumberText.all_chars Str.is_digit (Str.of_N n) = true.
Proof. unfold Str.of_N. now rewrite all_digits_rev. Qed.

Lemma digit_is_not_x (c : ascii) :
  Str.is_digit c = true -> (Ascii.eqb c "x" || Ascii.eqb c "X")%bool = false.
Proof. destruct c as [[] [] [] [] [] [] [] []]; try discriminate; reflexivity. Qed.

Lemma from_string_digits (body : string) (c : ascii) (rest : string) :
  body = String c rest ->
  BigNumberText.all_chars Str.is_digit body = true ->
  BigNumberText.from_string body = Ok (BigNumberText.Number (Ethers.from_digits body)) /\
  BigNumberText.from_string (String "-" body)
  = Ok (BigNumberText.Number (- Ethers.from_digits body)).
Proof.
  intros -> Hall.
  assert (Hc : Str.is_digit c = true).
  { cbn in Hall. now apply andb_true_iff in Hall as [Hc _]. }
  assert (Hsign : match String c rest with
                  | String "-" r => (true, r)
                  | _ => (false, String c rest)
                  end = (false, String c rest)).
  { destruct c as [[] [] [] [] [] [] [] []]; try reflexivity; discriminate Hc. }
  assert (Hbody : forall (negative : bool) (value : string),
            match String c rest with
            | String "0" (String x (String c' rest')) =>
                if ((Ascii.eqb x "x" || Ascii.eqb x "X")
                    && BigNumberText.all_chars BigNumberText.is_hex_digit (String c' rest'))%bool
                then
                  if Ascii.eqb x "x"
                  then Ok (BigNumberText.Number
                             ((fun n : Z => if negative then - n else n)
                                (Z.of_N (BigNumberText.hex_value (String c' rest') 0))))
                  else Ok (BigNumberText.Unusable value)
                else if BigNumberText.all_chars Str.is_digit (String c rest)
                     then Ok (BigNumberText.Number
                                ((fun n : Z => if negative then - n else n)
                                   (Ethers.from_digits (String c rest))))
                     else Throw "invalid BigNumber string"
            | String _ _ =>
                if BigNumberText.all_chars Str.is_digit (String c rest)
                then Ok (BigNumberText.Number
                           ((fun n : Z => if negative then - n else n)
                              (Ethers.from_digits (String c rest))))
                else Throw "invalid BigNumber string"
            | EmptyString => Throw "invalid BigNumber string"
            end
            = Ok (BigNumberText.Number
                    (if negative then - Ethers.from_digits (String c rest)
                     else Ethers.from_digits (String c rest)))).
  { intros negative value.
    assert (Hx : forall x r, rest = String x r ->
                             (Ascii.eqb x "x" || Ascii.eqb x "X")%bool = false).
    { intros x r ->. cbn in Hall.
      apply andb_true_iff in Hall as [_ Hall].
      apply andb_true_iff in Hall as [Hx _]. now apply digit_is_not_x. }
    rewrite Hall.
    destruct c as [[] [] [] [] [] [] [] []]; try reflexivity;
      destruct rest as [|x [|c' rest']]; try reflexivity;
      rewrite (Hx x _ eq_refl); reflexivity. }
  split.
  - unfold BigNumberText.from_string. rewrite Hsign. apply (Hbody false).
  - unfold BigNumberText.from_string. apply (Hbody true).
Qed.

Lemma big_number_text_round_trip (a : Z) :
  BigNumberText.from_string (BigNumberText.toString a) = Ok (BigNumberText.Number a).
Proof.
  unfold BigNumberText.toString.
  destruct (of_N_head (Z.abs_N a)) as (c & rest & _ & E).
  destruct (from_string_digits (Str.of_N (Z.abs_N a)) c rest E (all_digits_of_N _))
    as [Hpos Hneg].
  rewrite from_digits_of_N in Hpos, Hneg.
  destruct (Z.ltb_spec a 0) as [Hlt|Hge].
  - change ("-" ++ Str.of_N (Z.abs_N a)) with (String "-" (Str.of_N (Z.abs_N a))).
    rewrite Hneg. do 2 f_equal. lia.
  - change ("" ++ Str.of_N (Z.abs_N a)) with (Str.of_N (Z.abs_N a)).
    rewrite Hpos. do 2 f_equal. lia.
Qed.

End NumeralFacts.

Section ProfitTrackerFacts.

Import ProfitTracker.
Local Open Scope string_scope.
Local Open Scope Z_scope.

Lemma saved_entries_convert_back (profits : list (Entry Z)) :
  mapResult (convert BigNumberText.from_string) (saveProfitHistory profits)
  = Ok (map asBuilt profits).
Proof.
  induction profits as [|[t v s p g n tk] rest IH]; [reflexivity|].
  cbn [saveProfitHistory map mapResult]. fold (saveProfitHistory rest).
  unfold convert at 1, bind.
  cbn [profit gasCost netProfit timestamp victimTxHash sandwichTxHash tokens].
  rewrite !big_number_text_round_trip.
  unfold bind in IH. rewrite IH. reflexivity.
Qed.

Lemma saved_entries_load_back (profits : list (Entry Z)) :
  loadProfitHistory (Present (Ok (saveProfitHistory profits))) = map asBuilt profits.
Proof.
  unfold loadProfitHistory, try_catch, bind.
  now rewrite saved_entries_convert_back.
Qed.

(** X7. What [saveProfitHistory] writes, [loadProfitHistory] reads
    back as the entries held, each amount a number again: every amount
    survives the passage through its decimal string, negative amounts
    included (the file's JSON carrying strings and integers
    unchanged). *)
Theorem profit_history_round_trip (profits : list (Entry Z)) :
  loadProfitHistory (Present (Ok (saveProfitHistory profits))) = map asBuilt profits.
Proof. apply saved_entries_load_back. Qed.

(** X8. One entry of the log file whose [profit] is not a numeral
    that [BigNumber.from] accepts makes [loadProfitHistory] drop every
    entry of the file: the tracker starts empty. *)
Theorem unreadable_amount_discards_history (before after : list (Entry string))
    (entry : Entry string) (message : string) :
  BigNumberText.from_string (profit entry) = Throw message ->
  loadProfitHistory (Present (Ok (before ++ entry :: after)%list)) = [].
Proof.
  intros Hbad. unfold loadProfitHistory, try_catch, bind.
  assert (H : exists m,
             mapResult (convert BigNumberText.from_string) (before ++ entry :: after)%list
             = Throw m).
  { induction before as [|e rest [m IH]].
    - cbn [app mapResult]. unfold convert, bind. rewrite Hbad. eauto.
    - cbn [app mapResult]. unfold bind at 1.
      destruct (convert BigNumberText.from_string e); [|eauto].
      unfold bind. rewrite IH. eauto. }
  destruct H as [m ->]. reflexivity.
Qed.

Lemma total_from (field : Entry Z -> Z) (profits : list (Entry Z)) (start : Z) :
  fold_left (fun sum entry => sum + field entry) profits start
  = start + total field profits.
Proof.
  unfold total. revert start. induction profits as [|e rest IH]; intros start.
  - cbn. lia.
  - cbn [fold_left]. rewrite IH, (IH (0 + field e)). lia.
Qed.

Lemma total_cons (field : Entry Z -> Z) (e : Entry Z) (rest : list (Entry Z)) :
  total field (e :: rest) = field e + total field rest.
Proof. unfold total at 1. cbn [fold_left]. rewrite total_from. lia. Qed.

(** X9. When every entry's net profit is its profit less its gas
    cost, as both processing loops record it, the three totals of
    [calculateStatistics] agree: total net profit is total profit less
    total gas cost. *)
Theorem totals_are_consistent (profits : list (Entry Z)) :
  Forall (fun e => netProfit e = profit e - gasCost e) profits ->
  total netProfit profits = total profit profits - total gasCost profits.
Proof.
  induction 1 as [|e rest He _ IH]; [reflexivity|].
  rewrite !total_cons, IH, He. lia.
Qed.


Lemma sumOver_set (field : PairData -> Z) (m : JSMap.t PairData) (key : string)
    (value : PairData) :
  sumOver field (JSMap.set m key value)
  = sumOver field m + field value
    - match JSMap.get m key with Some old => field old | None => 0 end.
Proof.
  induction m as [|[k v] rest IH]; cbn [JSMap.set JSMap.get sumOver fold_right snd].
  - lia.
  - destruct (String.eqb k key); cbn [sumOver fold_right snd].
    + lia.
    + fold (sumOver field (JSMap.set rest key value)). fold (sumOver field rest).
      rewrite IH. lia.
Qed.

Lemma addToPair_sum (field : PairData -> Z) (step : Entry Z -> Z)
    (m : JSMap.t PairData) (entry : Entry Z) :
  (forall p k a b, field {| pair := k; pd_tokenA := a; pd_tokenB := b;
                            totalProfit := totalProfit p + netProfit entry;
                            count := count p + 1 |}
                   = field p + step entry) ->
  (forall k a b, field {| pair := k; pd_tokenA := a; pd_tokenB := b;
                          totalProfit := 0; count := 0 |} = 0) ->
  sumOver field (addToPair m entry) = sumOver field m + step entry.
Proof.
  intros Hstep Hzero. unfold addToPair, JSMap.has.
  set (key := show (tokenA (tokens entry)) ++ "-" ++ show (tokenB (tokens entry))).
  destruct (JSMap.get m key) as [old|] eqn:Hget; cbn [negb].
  - rewrite Hget, sumOver_set, Hget, Hstep. lia.
  - rewrite get_set_same, !sumOver_set, get_set_same, Hget, Hstep, !Hzero. lia.
Qed.

(** X10. The per-pair table of [calculateStatistics] loses nothing:
    the pairs' profits sum to the total net profit, and their counts to
    the number of entries. *)
Theorem pair_totals_add_up (profits : list (Entry Z)) :
  sumOver totalProfit (pairProfits profits) = total netProfit profits /\
  sumOver count (pairProfits profits) = Z.of_nat (List.length profits).
Proof.
  unfold pairProfits.
  assert (H : forall start,
    sumOver totalProfit (fold_left addToPair profits start)
    = sumOver totalProfit start + total netProfit profits /\
    sumOver count (fold_left addToPair profits start)
    = sumOver count start + Z.of_nat (List.length profits)).
  { induction profits as [|e rest IH]; intros start.
    - cbn [fold_left List.length]. unfold total. cbn [fold_left Z.of_nat]. split; lia.
    - cbn [fold_left]. destruct (IH (addToPair start e)) as [H1 H2].
      rewrite H1, H2, total_cons.
      rewrite (addToPair_sum totalProfit netProfit) by reflexivity.
      rewrite (addToPair_sum count (fun _ => 1)) by reflexivity.
      cbn [List.length]. split; lia. }
  destruct (H []) as [H1 H2]. rewrite H1, H2. cbn [sumOver fold_right]. split; lia.
Qed.

Lemma run_snoc (st : State) (events : list Event) (event : Event) :
  run st (events ++ [event]) = step (run st events) event.
Proof. unfold run. now rewrite fold_left_app. Qed.

Lemma recorded_snoc (events : list Event) (event : Event) :
  recorded (events ++ [event])
  = (recorded events ++ match event with Recorded e => [e] | _ => [] end)%list.
Proof. unfold recorded. rewrite flat_map_app. cbn [flat_map]. now rewrite app_nil_r. Qed.

Lemma split_after_save (loaded : list (Entry Z)) (st : State) :
  splitAtLastWrite loaded (save st) (profits st) [].
Proof.
  unfold splitAtLastWrite. cbn [save profits written List.length].
  rewrite app_nil_r. repeat split; [lia|]. right. now exists (written st).
Qed.

Lemma split_after_push (loaded : list (Entry Z)) (st : State) (e : Entry Z)
    (kept unsaved : list (Entry Z)) :
  splitAtLastWrite loaded st kept unsaved ->
  (List.length (profits st ++ [e]) mod 5 <> 0)%nat ->
  splitAtLastWrite loaded
    {| profits := (profits st ++ [e])%list; written := written st;
       autoSaveInterval := autoSaveInterval st |}
    kept (unsaved ++ [e])%list.
Proof.
  intros (Hsplit & Hlen & Hw) Hnz. unfold splitAtLastWrite. cbn [profits written].
  repeat split.
  - now rewrite Hsplit, app_assoc.
  - rewrite !length_app in *. cbn [List.length] in *.
    set (n := List.length (profits st)) in *.
    pose proof (Nat.div_mod_eq n 5). pose proof (Nat.mod_upper_bound n 5 ltac:(lia)).
    pose proof (Nat.div_mod_eq (n + 1) 5).
    pose proof (Nat.mod_upper_bound (n + 1) 5 ltac:(lia)). lia.
  - exact Hw.
Qed.

(** What a run keeps: the entries held are those loaded followed by those
    recorded, and a run ending with [cleanup] has written them all. *)
Lemma run_invariant (loaded : list (Entry Z)) (events : list Event) :
  let st := run (constructed loaded) events in
  profits st = (loaded ++ recorded events)%list /\
  exists kept unsaved,
    splitAtLastWrite loaded st kept unsaved /\
    (forall before, events = (before ++ [CleanedUp])%list -> unsaved = []).
Proof.
  cbv zeta. induction events as [|event events IH] using rev_ind.
  - split; [cbn; now rewrite app_nil_r|].
    exists loaded, []. split.
    + unfold splitAtLastWrite. cbn [run fold_left constructed profits written List.length].
      rewrite app_nil_r. repeat split; [lia|now left].
    + intros [|? ?] H; discriminate H.
  - destruct IH as (Hp & kept & unsaved & Hsplit & _).
    rewrite run_snoc, recorded_snoc. set (st := run (constructed loaded) events) in *.
    assert (Hother : forall e' before,
              e' <> CleanedUp ->
              (events ++ [e'])%list = (before ++ [CleanedUp])%list -> False).
    { intros e' before Hne H. apply app_inj_tail in H as [_ H]. now apply Hne. }
    destruct event as [e| |]; cbn [step].
    + split.
      { unfold recordProfit. cbn [profits].
        destruct (Nat.eqb _ _); cbn [save profits]; now rewrite Hp, app_assoc. }
      unfold recordProfit. cbn [profits written autoSaveInterval].
      destruct (Nat.eqb_spec (List.length (profits st ++ [e]) mod 5) 0) as [Hz|Hnz].
      * eexists _, []. split; [apply split_after_save|reflexivity].
      * exists kept, (unsaved ++ [e])%list. split; [now apply split_after_push|].
        intros before H. exfalso. eapply Hother; [|exact H]. discriminate.
    + split.
      { unfold autoSave. destruct (autoSaveInterval st); cbn [save profits];
          now rewrite Hp, app_nil_r. }
      unfold autoSave. destruct (autoSaveInterval st).
      * eexists _, []. split; [apply split_after_save|reflexivity].
      * exists kept, unsaved. split; [exact Hsplit|].
        intros before H. exfalso. eapply Hother; [|exact H]. discriminate.
    + split; [unfold cleanup; cbn [save profits]; now rewrite Hp, app_nil_r|].
      unfold cleanup. eexists _, []. split; [apply split_after_save|reflexivity].
Qed.

Lemma combine_snoc {A B : Type} (l : list A) (l' : list B) (a : A) (b : B) :
  List.length l = List.length l' ->
  combine (l ++ [a]) (l' ++ [b]) = (combine l l' ++ [(a, b)])%list.
Proof.
  revert l'. induction l as [|x l IH]; intros [|y l'] H; try discriminate H.
  - reflexivity.
  - cbn [app combine]. f_equal. apply IH. now injection H.
Qed.

(** The file is what the last write made of it, when that write went
    through. *)
Lemma fileAfter_last_write (found : File) (earlier : list (list (Entry string)))
    (data : list (Entry string)) (outcomes : list (option File)) :
  List.length outcomes = List.length (earlier ++ [data]) ->
  last outcomes None = None ->
  fileAfter found (earlier ++ [data]) outcomes = Present (Ok data).
Proof.
  intros Hlen Hlast.
  destruct outcomes as [|o outcomes] using rev_ind.
  - rewrite length_app in Hlen. cbn in Hlen. lia.
  - clear IHoutcomes. rewrite last_last in Hlast. subst o.
    rewrite !length_app in Hlen. cbn [List.length] in Hlen.
    unfold fileAfter. rewrite combine_snoc by lia.
    rewrite fold_left_app. reflexivity.
Qed.

(** X11. A tracker constructed on a log whose entries load as numbers,
    then put through any sequence of [recordProfit] calls, firings of
    the five-minute timer and [cleanup] calls, holds the loaded entries
    followed by the recorded ones.  When its last write, if it made
    one, went through (earlier ones may have failed), the file loads
    back as the entries held less the newest few: no more of them than
    the number held exceeds a multiple of five, so at most four, and
    none when the run ended with [cleanup]. *)
Theorem a_restart_loses_fewer_than_five_entries (found : File) (loaded : list (Entry Z))
    (events : list Event) (outcomes : list (option File)) :
  let st := run (constructed loaded) events in
  loadProfitHistory found = map asBuilt loaded ->
  List.length outcomes = List.length (written st) ->
  last outcomes None = None ->
  profits st = (loaded ++ recorded events)%list /\
  exists kept unsaved,
    profits st = (kept ++ unsaved)%list /\
    (List.length unsaved <= List.length (profits st) mod 5)%nat /\
    loadProfitHistory (fileAfter found (written st) outcomes) = map asBuilt kept /\
    (forall before, events = (before ++ [CleanedUp])%list -> unsaved = []).
Proof.
  cbv zeta. intros Hfound Hlen Hlast.
  destruct (run_invariant loaded events) as (Hp & kept & unsaved & Hsplit & Hclean).
  split; [exact Hp|]. exists kept, unsaved.
  destruct Hsplit as (Hs & Hl & Hw).
  repeat split; [exact Hs|exact Hl| |exact Hclean].
  destruct Hw as [[Hnone ->]|[earlier Hw]].
  - rewrite Hnone in *. destruct outcomes; [|discriminate Hlen]. exact Hfound.
  - rewrite Hw in *. rewrite (fileAfter_last_write _ _ _ _ Hlen Hlast).
    apply saved_entries_load_back.
Qed.

End ProfitTrackerFacts.

(** ** The processing loops *)

Section SetFacts.

Lemma has_add_same (s : JSSet.t) (x : string) : JSSet.has (JSSet.add s x) x = true.
Proof.
  unfold JSSet.add. destruct (JSSet.has s x) eqn:E; [exact E|].
  unfold JSSet.has. rewrite existsb_app. cbn. rewrite String.eqb_refl.
  now rewrite orb_true_r.
Qed.

Lemma has_add_other (s : JSSet.t) (x y : string) :
  JSSet.has s y = true -> JSSet.has (JSSet.add s x) y = true.
Proof.
  intros H. unfold JSSet.add. destruct (JSSet.has s x); [exact H|].
  unfold JSSet.has in *. rewrite existsb_app, H. reflexivity.
Qed.

Lemma delete_absent {V : Type} (m : JSMap.t V) (key : string) :
  ~ In key (JSMap.keys m) -> JSMap.delete m key = m.
Proof.
  induction m as [|[k v] rest IH]; intros Hnot; [reflexivity|].
  cbn [JSMap.delete]. destruct (String.eqb_spec k key) as [->|Hne].
  - exfalso. apply Hnot. now left.
  - f_equal. apply IH. intros Hin. apply Hnot. now right.
Qed.

End SetFacts.

Section ProcessorLoopFacts.

Import ProcessorLoop.

Context {E : Type}.
Variable config : Config.
Variable optimize : Opportunity -> SandwichOptimizer.SandwichParams.
Variable execute :
  E -> Opportunity -> SandwichOptimizer.SandwichParams ->
  SandwichExecutor.ExecutionResult * E.
Variable recordedAt : string -> Z.

Local Abbreviation processEntry := (processEntry config optimize execute recordedAt).
Local Abbreviation pending :=
  (fun st : State E => OpportunityProcessor.pendingOpportunities (queue st)).
Local Abbreviation processed :=
  (fun st : State E => OpportunityProcessor.processedOpportunities (queue st)).

(** What one entry does to the queue, the processed set, the log of
    executor calls and the counters. *)
Lemma processor_entry_effect (now : Z) (st : State E) (txHash : string)
    (p : OpportunityProcessor.Pending) :
  let st' := processEntry now st (txHash, p) in
  let reaches := reachesExecutor config optimize now (txHash, p) in
  (pending st' = JSMap.delete (pending st) txHash
   \/ pending st' = JSMap.delete (JSMap.delete (pending st) txHash) txHash) /\
  JSSet.has (processed st') txHash = true /\
  (forall h, JSSet.has (processed st) h = true -> JSSet.has (processed st') h = true) /\
  executed st' = (executed st ++ if reaches then [txHash] else [])%list /\
  opportunitiesExecuted (stats st')
  = opportunitiesExecuted (stats st) + (if reaches then 1 else 0) /\
  successfulExecutions (stats st') + failedExecutions (stats st')
  = successfulExecutions (stats st) + failedExecutions (stats st)
    + (if reaches then 1 else 0).
Proof.
  cbv zeta. unfold ProcessorLoop.processEntry, reachesExecutor. cbn [snd].
  assert (Hsettle : forall P Q : Prop, P -> Q -> P /\ Q) by auto.
  destruct (OPPORTUNITY_TIMEOUT config <? now - OpportunityProcessor.detected p).
  { cbn. rewrite app_nil_r.
    repeat split; first [now left | apply has_add_same
                        | (intros; now apply has_add_other) | lia]. }
  cbn [negb andb].
  destruct (SandwichOptimizer.sp_profitable
              (optimize (OpportunityProcessor.opportunity p))).
  2:{ cbn. rewrite app_nil_r.
      repeat split; first [now left | apply has_add_same
                          | (intros; now apply has_add_other) | lia]. }
  cbn [negb]. unfold runExecutor. cbn [executor withStats].
  destruct (execute (executor st) (OpportunityProcessor.opportunity p)
              (optimize (OpportunityProcessor.opportunity p))) as [result ex].
  destruct (SandwichExecutor.success result).
  2:{ cbn. repeat split; first [now left | apply has_add_same
                               | (intros; now apply has_add_other) | lia]. }
  unfold recordSuccess.
  destruct (SandwichExecutor.profit result) as [profit|].
  2:{ cbn. repeat split; first [now right | apply has_add_same
                               | (intros; now do 2 apply has_add_other) | lia]. }
  destruct (SandwichExecutor.gasCost result) as [gasCost|].
  2:{ cbn. repeat split; first [now right | apply has_add_same
                               | (intros; now do 2 apply has_add_other) | lia]. }
  cbn. repeat split; first [now left | apply has_add_same
                           | (intros; now apply has_add_other) | lia].
Qed.


Lemma processor_entries_queue (now : Z) (entries : JSMap.t OpportunityProcessor.Pending)
    (st : State E) :
  pending st = entries ->
  NoDup (JSMap.keys entries) ->
  let st' := fold_left (processEntry now) entries st in
  pending st' = [] /\
  (forall h, In h (JSMap.keys entries) -> JSSet.has (processed st') h = true) /\
  (forall h, JSSet.has (processed st) h = true -> JSSet.has (processed st') h = true).
Proof.
  revert st. induction entries as [|[k p] rest IH]; intros st Hpending Hnodup; cbv zeta.
  - cbn. subst. repeat split; auto; intros h [].
  - cbn [fold_left].
    pose proof (processor_entry_effect now st k p) as (Hq & Hk & Hkeep & _).
    cbv zeta in Hq, Hk, Hkeep.
    set (st1 := processEntry now st (k, p)) in *.
    cbn [JSMap.keys map fst] in Hnodup. apply NoDup_cons_iff in Hnodup as [Hnotin Hrest].
    assert (Hq1 : pending st1 = rest).
    { rewrite Hpending in Hq. cbn [JSMap.delete] in Hq. rewrite String.eqb_refl in Hq.
      destruct Hq as [Hq|Hq]; [exact Hq|].
      rewrite Hq. now apply delete_absent. }
    destruct (IH st1 Hq1 Hrest) as (Hp' & Hin' & Hkeep').
    repeat split; auto.
    intros h [<-|Hin]; [now apply Hkeep'|now apply Hin'].
Qed.

Lemma processor_entries_log (now : Z) (entries : JSMap.t OpportunityProcessor.Pending)
    (st : State E) :
  let st' := fold_left (processEntry now) entries st in
  let reached := filter (reachesExecutor config optimize now) entries in
  executed st' = (executed st ++ map fst reached)%list /\
  opportunitiesExecuted (stats st')
  = opportunitiesExecuted (stats st) + Z.of_nat (List.length reached) /\
  successfulExecutions (stats st') + failedExecutions (stats st')
  = successfulExecutions (stats st) + failedExecutions (stats st)
    + Z.of_nat (List.length reached).
Proof.
  revert st. induction entries as [|[k p] rest IH]; intros st; cbv zeta.
  - cbn. rewrite app_nil_r. repeat split; lia.
  - cbn [fold_left].
    pose proof (processor_entry_effect now st k p) as (_ & _ & _ & Hex & Hn & Hsf).
    cbv zeta in Hex, Hn, Hsf.
    set (st1 := processEntry now st (k, p)) in *.
    destruct (IH st1) as (Hex' & Hn' & Hsf').
    cbn [filter]. destruct (reachesExecutor config optimize now (k, p)).
    + cbn [map fst List.length]. rewrite Hex', Hex, Hn', Hn, Hsf', Hsf, <- app_assoc.
      repeat split; try reflexivity; lia.
    + rewrite Hex', Hex, Hn', Hn, Hsf', Hsf, app_nil_r.
      repeat split; try reflexivity; lia.
Qed.

(** X12. A pass of the processor's loop that finds the network gas
    price within the maximum empties the queue: every opportunity that
    was queued is in the processed set afterwards, whatever became of
    it, and [addOpportunity] refuses its hash from then on. *)
Theorem pass_retires_every_queued_opportunity (now currentGasPrice maxGasPrice : Z)
    (st : State E) :
  NoDup (JSMap.keys (pending st)) ->
  Ethers.parseUnits (JS.ToString (MAX_GAS_PRICE config)) 9 = Ok maxGasPrice ->
  currentGasPrice <= maxGasPrice ->
  let st' := pass config optimize execute recordedAt now (Ok currentGasPrice) st in
  pending st' = [] /\
  forall txHash,
    In txHash (JSMap.keys (pending st)) ->
    JSSet.has (processed st') txHash = true /\
    forall later opportunity,
      OpportunityProcessor.addOpportunity (queue st') later txHash opportunity
      = (false, queue st').
Proof.
  intros Hnodup Hmax Hgas. cbv zeta. unfold pass, try_catch, bind. rewrite Hmax.
  replace (maxGasPrice <? currentGasPrice) with false by (symmetry; apply Z.ltb_ge; lia).
  destruct (processor_entries_queue now (pending st) st eq_refl Hnodup)
    as (Hempty & Hin & _).
  split; [exact Hempty|]. intros txHash Hq. specialize (Hin txHash Hq).
  split; [exact Hin|]. intros later opportunity.
  unfold OpportunityProcessor.addOpportunity. now rewrite Hin.
Qed.

Lemma NoDup_map_fst_filter {V : Type} (f : string * V -> bool) (m : JSMap.t V) :
  NoDup (JSMap.keys m) -> NoDup (map fst (filter f m)).
Proof.
  unfold JSMap.keys. induction m as [|[k v] rest IH]; intros H; [constructor|].
  cbn [map fst] in H. apply NoDup_cons_iff in H as [Hnotin Hrest].
  cbn [filter]. destruct (f (k, v)); [|now apply IH].
  cbn [map fst]. constructor; [|now apply IH].
  intros Hin. apply Hnotin. apply in_map_iff in Hin as ([k' v'] & <- & Hin).
  apply filter_In in Hin as [Hin _]. apply in_map_iff. now exists (k', v').
Qed.

(** X13. A pass of the processor's loop that finds the network gas
    price within the maximum calls the executor for exactly the queued
    entries that, by the clock read when the pass began, have not timed
    out and that the optimizer calls profitable: in the order of the
    queue, and once per hash; a pass that finds the price above the
    maximum, or cannot have it, calls the executor for none.
    [opportunitiesExecuted] grows by the number of calls, and every
    execution counted is also counted as a success or as a failure. *)
Theorem pass_executes_live_profitable_entries_in_queue_order (now : Z)
    (currentGasPrice : result Z) (st : State E) :
  let st' := pass config optimize execute recordedAt now currentGasPrice st in
  let reached :=
    match (currentGasPrice <- currentGasPrice ;;
           maxGasPrice <- Ethers.parseUnits (JS.ToString (MAX_GAS_PRICE config)) 9 ;;
           Ok (maxGasPrice <? currentGasPrice))%js with
    | Ok false => filter (reachesExecutor config optimize now) (pending st)
    | _ => []
    end in
  executed st' = (executed st ++ map fst reached)%list /\
  (forall entry, In entry reached ->
     In entry (pending st) /\
     now - OpportunityProcessor.detected (snd entry) <= OPPORTUNITY_TIMEOUT config /\
     SandwichOptimizer.sp_profitable
       (optimize (OpportunityProcessor.opportunity (snd entry))) = true) /\
  (NoDup (JSMap.keys (pending st)) -> NoDup (map fst reached)) /\
  opportunitiesExecuted (stats st')
  = opportunitiesExecuted (stats st) + Z.of_nat (List.length reached) /\
  opportunitiesExecuted (stats st') - successfulExecutions (stats st')
    - failedExecutions (stats st')
  = opportunitiesExecuted (stats st) - successfulExecutions (stats st)
    - failedExecutions (stats st).
Proof.
  cbv zeta.
  assert (Hidle :
    executed st = (executed st ++ map fst (@nil (string * OpportunityProcessor.Pending)))%list /\
    (forall entry : string * OpportunityProcessor.Pending, In entry [] ->
       In entry (pending st) /\
       now - OpportunityProcessor.detected (snd entry) <= OPPORTUNITY_TIMEOUT config /\
       SandwichOptimizer.sp_profitable
         (optimize (OpportunityProcessor.opportunity (snd entry))) = true) /\
    (NoDup (JSMap.keys (pending st)) ->
     NoDup (map fst (@nil (string * OpportunityProcessor.Pending)))) /\
    opportunitiesExecuted (stats st)
    = opportunitiesExecuted (stats st)
      + Z.of_nat (List.length (@nil (string * OpportunityProcessor.Pending))) /\
    opportunitiesExecuted (stats st) - successfulExecutions (stats st)
      - failedExecutions (stats st)
    = opportunitiesExecuted (stats st) - successfulExecutions (stats st)
      - failedExecutions (stats st)).
  { cbn. rewrite app_nil_r. repeat split; try lia; try constructor; intros []. }
  unfold pass, try_catch, bind.
  destruct currentGasPrice as [g|]; [|exact Hidle].
  destruct (Ethers.parseUnits (JS.ToString (MAX_GAS_PRICE config)) 9) as [m|];
    [|exact Hidle].
  destruct (m <? g); [exact Hidle|].
  destruct (processor_entries_log now (pending st) st) as (Hex & Hn & Hsf).
  split; [exact Hex|]. split; [|split; [apply NoDup_map_fst_filter|split; [exact Hn|lia]]].
  intros entry Hin. apply filter_In in Hin as [Hin Hreach].
  unfold reachesExecutor in Hreach. apply andb_true_iff in Hreach as [Hlive Hprofit].
  apply negb_true_iff, Z.ltb_ge in Hlive. auto.
Qed.

End ProcessorLoopFacts.

Section CleanupFacts.

Import ProcessorLoop.

(** X14. [cleanupProcessedOpportunities] leaves at most 10000
    hashes; a set of more than 10000 is cut to its 5000 newest, the
    hashes dropped being the oldest, and a dropped hash is no longer in
    the set. *)
Theorem cleanup_keeps_the_newest_hashes (processed : JSSet.t) :
  let kept := cleanupProcessedOpportunities processed in
  Z.of_nat (List.length kept) <= 10000 /\
  (10000 < Z.of_nat (List.length processed) -> Z.of_nat (List.length kept) = 5000) /\
  exists dropped,
    processed = (dropped ++ kept)%list /\
    (NoDup processed -> forall h, In h dropped -> JSSet.has kept h = false).
Proof.
  cbv zeta. unfold cleanupProcessedOpportunities.
  destruct (Z.ltb_spec 10000 (Z.of_nat (List.length processed))) as [Hbig|Hsmall].
  - set (n := Z.to_nat (Z.of_nat (List.length processed) - 5000)).
    assert (Hlen : List.length (skipn n processed) = (List.length processed - n)%nat)
      by apply length_skipn.
    split; [lia|]. split; [lia|].
    exists (firstn n processed). split; [symmetry; apply firstn_skipn|].
    intros Hnodup h Hin.
    rewrite <- (firstn_skipn n processed) in Hnodup.
    destruct (JSSet.has (skipn n processed) h) eqn:Hhas; [|reflexivity].
    exfalso. unfold JSSet.has in Hhas. apply existsb_exists in Hhas as (x & Hx & Heq).
    apply String.eqb_eq in Heq. subst x.
    apply NoDup_app_remove_l in Hnodup as Hn2.
    clear Hn2. revert Hnodup Hin Hx.
    generalize (firstn n processed) (skipn n processed). clear.
    intros l1 l2 Hnodup Hin Hx.
    induction l1 as [|a l1 IH]; [destruct Hin|].
    cbn [app] in Hnodup. apply NoDup_cons_iff in Hnodup as [Hnot Hrest].
    destruct Hin as [->|Hin]; [|now apply IH].
    apply Hnot, in_or_app. now right.
  - split; [lia|]. split; [lia|]. exists []. split; [reflexivity|]. intros _ h [].
Qed.

End CleanupFacts.

Section ObserverLoopFacts.

Import ObserverLoop.

Context {E : Type}.
Variable config : Config.
Variable getGasPrice : string -> result Z.
Variable execute :
  E -> Opportunity -> SandwichOptimizer.SandwichParams ->
  SandwichExecutor.ExecutionResult * E.
Variable recordedAt : string -> Z.

Local Abbreviation processEntry := (processEntry config getGasPrice execute recordedAt).
Local Abbreviation processEntries :=
  (processEntries config getGasPrice execute recordedAt).
Local Abbreviation expired := (expired config).
Local Abbreviation stays := (staysQueued config getGasPrice).
Local Abbreviation runs := (ObserverLoop.reachesExecutor config getGasPrice).

(** The residue of the counters that every step of the loop keeps. *)
Local Abbreviation unaccounted :=
  (fun st : State E =>
     opportunitiesExecuted (stats st) - successfulExecutions (stats st)
     - failedExecutions (stats st)).


Lemma observer_entry_effect (now : Z) (st : State E) (txHash : string)
    (p : MempoolObserver.Pending) :
  let r := processEntry now (txHash, p) st in
  let st' := snd r in
  unaccounted st' = unaccounted st /\
  lastStatsReport st' = lastStatsReport st /\
  ((expired now (txHash, p) = true /\ stays now (txHash, p) = false /\
    runs now (txHash, p) = false /\ fst r = Ok tt /\
    pendingOpportunities st' = JSMap.delete (pendingOpportunities st) txHash /\
    executed st' = executed st)
   \/
   (stays now (txHash, p) = true /\ runs now (txHash, p) = false /\ fst r = Ok tt /\
    pendingOpportunities st' = pendingOpportunities st /\
    executed st' = executed st)
   \/
   (stays now (txHash, p) = false /\ runs now (txHash, p) = true /\
    pendingOpportunities st' = JSMap.delete (pendingOpportunities st) txHash /\
    executed st' = (executed st ++ [txHash])%list)
   \/
   (stays now (txHash, p) = false /\ runs now (txHash, p) = false /\
    (exists message, fst r = Throw message) /\
    pendingOpportunities st' = pendingOpportunities st /\
    executed st' = executed st)).
Proof.
  cbv zeta. unfold ObserverLoop.processEntry, staysQueued, ObserverLoop.reachesExecutor,
    ObserverLoop.expired. cbn [fst snd].
  destruct (OPPORTUNITY_TIMEOUT config <? now - MempoolObserver.detected p).
  { cbn. repeat split; auto. left. repeat split; auto. }
  cbn [negb andb].
  destruct (ObserverLoop.gasPriceTooHigh config getGasPrice txHash) as [[|]|].
  - cbn. repeat split; auto. right. left. repeat split; auto.
  - unfold runExecutor. cbn [executor withStats].
    destruct (execute (executor st) (MempoolObserver.opportunity p)
                (MempoolObserver.sandwichParams p)) as [result ex].
    destruct (SandwichExecutor.success result);
      [destruct (SandwichExecutor.profit result);
       [destruct (SandwichExecutor.gasCost result)|]|];
      cbn; (split; [lia|]); (split; [reflexivity|]);
      right; right; left; repeat split; auto.
  - cbn. repeat split; auto. right. right. right. repeat split; eauto.
Qed.

Lemma delete_app_absent {V : Type} (kept rest : JSMap.t V) (k : string) (v : V) :
  ~ In k (JSMap.keys kept) ->
  JSMap.delete (kept ++ (k, v) :: rest)%list k = (kept ++ rest)%list.
Proof.
  induction kept as [|[k' v'] kept IH]; intros Hnot.
  - cbn. now rewrite String.eqb_refl.
  - cbn [app JSMap.delete]. destruct (String.eqb_spec k' k) as [->|Hne].
    + exfalso. apply Hnot. now left.
    + f_equal. apply IH. intros Hin. apply Hnot. now right.
Qed.

Lemma observer_entries_effect (now : Z) (entries kept : JSMap.t MempoolObserver.Pending)
    (st : State E) :
  pendingOpportunities st = (kept ++ entries)%list ->
  NoDup (JSMap.keys (kept ++ entries)%list) ->
  let r := processEntries now entries st in
  unaccounted (snd r) = unaccounted st /\
  lastStatsReport (snd r) = lastStatsReport st /\
  (exists reached,
     executed (snd r) = (executed st ++ map fst reached)%list /\
     forall entry, In entry reached -> In entry entries /\ runs now entry = true) /\
  (fst r = Ok tt ->
   pendingOpportunities (snd r) = (kept ++ filter (stays now) entries)%list /\
   executed (snd r) = (executed st ++ map fst (filter (runs now) entries))%list).
Proof.
  revert kept st. induction entries as [|[k p] rest IH]; intros kept st Hq Hnodup; cbv zeta.
  - cbn [ObserverLoop.processEntries Eff.ret fst snd filter map].
    rewrite !app_nil_r in *. repeat split; auto.
    exists []. cbn. rewrite app_nil_r. split; [reflexivity|]. intros ? [].
  - cbn [ObserverLoop.processEntries]. unfold Eff.bind.
    pose proof (observer_entry_effect now st k p) as (Hinv & Hlast & Hcases).
    cbv zeta in Hinv, Hlast, Hcases.
    assert (Hk : ~ In k (JSMap.keys kept)).
    { unfold JSMap.keys in *. rewrite map_app in Hnodup. cbn [map fst] in Hnodup.
      apply NoDup_remove_2 in Hnodup. intros Hin. apply Hnodup, in_or_app. now left. }
    assert (Hnodup' : NoDup (JSMap.keys (kept ++ rest)%list)).
    { unfold JSMap.keys in *. rewrite map_app in *. cbn [map fst] in Hnodup.
      now apply NoDup_remove_1 in Hnodup. }
    destruct (processEntry now (k, p) st) as [outcome st1].
    cbn [fst snd] in Hinv, Hlast, Hcases.
    destruct Hcases as [(Hexp & Hstays & Hruns & -> & Hp & Hex)
                       |[(Hstays & Hruns & -> & Hp & Hex)
                        |[(Hstays & Hruns & Hp & Hex)
                         |(Hstays & Hruns & [message ->] & Hp & Hex)]]].
    + (* timed out: dropped *)
      assert (Hq1 : pendingOpportunities st1 = (kept ++ rest)%list).
      { rewrite Hp, Hq. now apply delete_app_absent. }
      destruct (IH kept st1 Hq1 Hnodup')
        as (Hinv' & Hlast' & (reached & Hex' & Hreached) & Hdone).
      split; [lia|]. split; [congruence|]. split.
      { exists reached. rewrite Hex', Hex. split; [reflexivity|].
        intros entry Hin. destruct (Hreached entry Hin). split; [now right|assumption]. }
      intros Hfin. destruct (Hdone Hfin) as [Hpend Hexec].
      cbn [filter]. rewrite Hstays, Hruns, Hpend, Hexec, Hex. split; reflexivity.
    + (* gas price too high: stays queued *)
      assert (Hq1 : pendingOpportunities st1 = ((kept ++ [(k, p)]) ++ rest)%list).
      { rewrite Hp, Hq, <- app_assoc. reflexivity. }
      assert (Hnodup1 : NoDup (JSMap.keys ((kept ++ [(k, p)]) ++ rest)%list)).
      { rewrite <- app_assoc. exact Hnodup. }
      destruct (IH (kept ++ [(k, p)])%list st1 Hq1 Hnodup1)
        as (Hinv' & Hlast' & (reached & Hex' & Hreached) & Hdone).
      split; [lia|]. split; [congruence|]. split.
      { exists reached. rewrite Hex', Hex. split; [reflexivity|].
        intros entry Hin. destruct (Hreached entry Hin). split; [now right|assumption]. }
      intros Hfin. destruct (Hdone Hfin) as [Hpend Hexec].
      cbn [filter]. rewrite Hstays, Hruns, Hpend, Hexec, Hex, <- app_assoc.
      split; reflexivity.
    + (* handed to the executor *)
      assert (Hq1 : pendingOpportunities st1 = (kept ++ rest)%list).
      { rewrite Hp, Hq. now apply delete_app_absent. }
      destruct outcome as [[]|message].
      * destruct (IH kept st1 Hq1 Hnodup')
          as (Hinv' & Hlast' & (reached & Hex' & Hreached) & Hdone).
        split; [lia|]. split; [congruence|]. split.
        { exists ((k, p) :: reached). rewrite Hex', Hex, <- app_assoc.
          split; [reflexivity|].
          intros entry [<-|Hin]; [split; [now left|assumption]|].
          destruct (Hreached entry Hin). split; [now right|assumption]. }
        intros Hfin. destruct (Hdone Hfin) as [Hpend Hexec].
        cbn [filter]. rewrite Hstays, Hruns, Hpend, Hexec, Hex, <- app_assoc.
        split; reflexivity.
      * cbn [fst snd]. split; [lia|]. split; [congruence|]. split; [|discriminate].
        exists [(k, p)]. rewrite Hex. split; [reflexivity|].
        intros entry [<-|[]]. split; [now left|assumption].
    + (* the gas price could not be had: the pass ends in its catch *)
      cbn [fst snd]. split; [lia|]. split; [congruence|]. split; [|discriminate].
      exists []. rewrite Hex. cbn. rewrite app_nil_r. split; [reflexivity|].
      intros ? [].
Qed.

(** X15. A pass of the observer's loop that ends without an error
    keeps exactly the entries that have not timed out and met a gas
    price above the maximum at their turn, and has called the executor,
    in queue order and once per hash, for exactly the entries that have
    not timed out and met a gas price within the maximum. *)
Theorem observer_pass_keeps_only_entries_priced_out (now : Z) (st : State E) :
  NoDup (JSMap.keys (pendingOpportunities st)) ->
  let r := pass config getGasPrice execute recordedAt now st in
  fst r = Ok tt ->
  pendingOpportunities (snd r) = filter (stays now) (pendingOpportunities st) /\
  executed (snd r)
  = (executed st ++ map fst (filter (runs now) (pendingOpportunities st)))%list /\
  NoDup (map fst (filter (runs now) (pendingOpportunities st))).
Proof.
  intros Hnodup. cbv zeta. unfold pass, Eff.bind.
  pose proof (observer_entries_effect now (pendingOpportunities st) [] st eq_refl Hnodup)
    as (_ & _ & _ & Hdone).
  cbv zeta in Hdone.
  destruct (processEntries now (pendingOpportunities st) st) as [[[]|message] st1];
    cbn [fst snd] in *; [|discriminate].
  intros _. destruct (Hdone eq_refl) as [Hp Hex].
  unfold reportIfDue. cbn [fst snd].
  split; [|split; [|now apply NoDup_map_fst_filter]].
  - destruct (reportingInterval <? now - lastStatsReport st1); exact Hp.
  - destruct (reportingInterval <? now - lastStatsReport st1); exact Hex.
Qed.

(** The entries a run of the loop has gone through before it ends, and
    what it handed to the executor among them. *)
Lemma observer_entries_seen (now : Z) (entries : JSMap.t MempoolObserver.Pending)
    (st : State E) :
  let r := processEntries now entries st in
  unaccounted (snd r) = unaccounted st /\
  exists seen rest,
    entries = (seen ++ rest)%list /\
    executed (snd r) = (executed st ++ map fst (filter (runs now) seen))%list /\
    (fst r = Ok tt -> rest = []).
Proof.
  revert st. induction entries as [|[k p] rest IH]; intros st; cbv zeta.
  - cbn [ObserverLoop.processEntries Eff.ret fst snd]. split; [reflexivity|].
    exists [], []. cbn. rewrite app_nil_r. auto.
  - cbn [ObserverLoop.processEntries]. unfold Eff.bind.
    pose proof (observer_entry_effect now st k p) as (Hinv & _ & Hcases).
    cbv zeta in Hinv, Hcases.
    destruct (processEntry now (k, p) st) as [outcome st1].
    cbn [fst snd] in Hinv, Hcases.
    assert (Hstep : forall onlyIfRuns : list string,
              executed st1 = (executed st ++ onlyIfRuns)%list ->
              onlyIfRuns = (if runs now (k, p) then [k] else []) ->
              outcome = Ok tt ->
              unaccounted (snd (processEntries now rest st1)) = unaccounted st /\
              exists seen rest',
                ((k, p) :: rest = seen ++ rest')%list /\
                executed (snd (processEntries now rest st1))
                = (executed st ++ map fst (filter (runs now) seen))%list /\
                (fst (processEntries now rest st1) = Ok tt -> rest' = [])).
    { intros onlyIfRuns Hex Hruns _.
      destruct (IH st1) as (Hinv' & seen & rest' & -> & Hex' & Hdone).
      cbv zeta in Hinv', Hex', Hdone.
      split; [lia|]. exists ((k, p) :: seen), rest'. split; [reflexivity|].
      split; [|exact Hdone].
      rewrite Hex', Hex, Hruns, <- app_assoc. cbn [filter].
      destruct (runs now (k, p)); reflexivity. }
    destruct Hcases as [(_ & _ & Hruns & -> & _ & Hex)
                       |[(_ & Hruns & -> & _ & Hex)
                        |[(_ & Hruns & _ & Hex)
                         |(_ & Hruns & [message ->] & _ & Hex)]]].
    + apply (Hstep []); [now rewrite app_nil_r|now rewrite Hruns|reflexivity].
    + apply (Hstep []); [now rewrite app_nil_r|now rewrite Hruns|reflexivity].
    + destruct outcome as [[]|message].
      * apply (Hstep [k]); [exact Hex|now rewrite Hruns|reflexivity].
      * cbn [fst snd]. split; [exact Hinv|].
        exists [(k, p)], rest. split; [reflexivity|]. split; [|discriminate].
        cbn [filter]. rewrite Hruns. exact Hex.
    + cbn [fst snd]. split; [exact Hinv|].
      exists [], ((k, p) :: rest). split; [reflexivity|]. split; [|discriminate].
      cbn. now rewrite app_nil_r.
Qed.

(** X16. A pass of the observer's loop, however it ends, goes
    through the queue from its head, all of it when it ends without an
    error, and calls the executor, in queue order, for exactly the
    entries gone through whose gas-price check came back within the
    maximum and whose age is within the timeout by the one reading of
    the clock taken when the pass began.  Nothing bounds an entry's age
    at the moment it is executed: the executions before it are awaited
    and the clock is not read again.  Every execution counted is also
    counted as a success or as a failure. *)
Theorem observer_pass_tests_age_by_its_starting_clock (now : Z) (st : State E) :
  let r := pass config getGasPrice execute recordedAt now st in
  unaccounted (snd r) = unaccounted st /\
  exists seen rest,
    pendingOpportunities st = (seen ++ rest)%list /\
    (fst r = Ok tt -> rest = []) /\
    executed (snd r)
    = (executed st
       ++ map fst (filter (ObserverLoop.reachesExecutor config getGasPrice now) seen))%list /\
    forall entry,
      In entry (filter (ObserverLoop.reachesExecutor config getGasPrice now) seen) ->
      In entry (pendingOpportunities st) /\
      now - MempoolObserver.detected (snd entry) <= OPPORTUNITY_TIMEOUT config /\
      ObserverLoop.gasPriceTooHigh config getGasPrice (fst entry) = Ok false.
Proof.
  cbv zeta. unfold pass, Eff.bind.
  pose proof (observer_entries_seen now (pendingOpportunities st) st)
    as (Hinv & seen & rest & Hq & Hex & Hdone).
  cbv zeta in Hinv, Hex, Hdone.
  assert (Hreached : forall entry,
            In entry (filter (runs now) seen) ->
            In entry (pendingOpportunities st) /\
            now - MempoolObserver.detected (snd entry) <= OPPORTUNITY_TIMEOUT config /\
            ObserverLoop.gasPriceTooHigh config getGasPrice (fst entry) = Ok false).
  { intros entry Hin. apply filter_In in Hin as [Hin Hruns].
    split; [rewrite Hq; apply in_or_app; now left|].
    unfold ObserverLoop.reachesExecutor, ObserverLoop.expired in Hruns.
    apply andb_true_iff in Hruns as [Hlive Hgas].
    apply negb_true_iff, Z.ltb_ge in Hlive. split; [exact Hlive|].
    destruct (ObserverLoop.gasPriceTooHigh _ _ _) as [[|]|]; try discriminate.
    reflexivity. }
  destruct (processEntries now (pendingOpportunities st) st) as [[[]|message] st1];
    cbn [fst snd] in *.
  - unfold reportIfDue. cbn [fst snd].
    assert (Hsame : forall A (f : State E -> A),
               (forall s t, f {| pendingOpportunities := pendingOpportunities s;
                                 stats := stats s; lastStatsReport := t;
                                 executor := executor s;
                                 profitTracker := profitTracker s;
                                 executed := executed s |} = f s) ->
               f (if reportingInterval <? now - lastStatsReport st1
                  then {| pendingOpportunities := pendingOpportunities st1;
                          stats := stats st1; lastStatsReport := now;
                          executor := executor st1;
                          profitTracker := profitTracker st1;
                          executed := executed st1 |}
                  else st1) = f st1).
    { intros A f Hf. destruct (_ <? _); [apply Hf|reflexivity]. }
    rewrite (Hsame _ (fun s => unaccounted s)) by reflexivity.
    rewrite (Hsame _ (fun s => executed s)) by reflexivity.
    split; [exact Hinv|]. exists seen, rest. auto.
  - split; [exact Hinv|]. exists seen, rest.
    split; [exact Hq|]. split; [discriminate|]. auto.
Qed.

End ObserverLoopFacts.

(** ** Alerts, replacement and tracking of transactions *)

Section MonitoringFacts.

Import Monitoring.
Local Open Scope string_scope.
Local Open Scope Z_scope.

Lemma get_set_other {V : Type} (m : JSMap.t V) (key other : string) (value : V) :
  other <> key -> JSMap.get (JSMap.set m key value) other = JSMap.get m other.
Proof.
  intros Hne. induction m as [|[k v] rest IH]; cbn [JSMap.set JSMap.get].
  - destruct (String.eqb_spec key other); [congruence|reflexivity].
  - destruct (String.eqb_spec k key) as [->|Hk]; cbn [JSMap.get].
    + destruct (String.eqb_spec key other); [congruence|reflexivity].
    + destruct (String.eqb k other); [reflexivity|exact IH].
Qed.

(** The throttle's record for a key is the time of the newest alert
    posted under it, and alerts under one key are a throttle time
    apart. *)
Lemma sendAlert_invariant (st : State) (title level : string) (now : Z) :
  now <> 0 ->
  (forall key, JSMap.get (lastAlertTime st) key
               = option_map sentAt (last (map Some (postedUnder key (posted st))) None)) ->
  (forall a, In a (posted st) -> sentAt a <> 0) ->
  (forall key older a newer,
      postedUnder key (posted st) = (older ++ a :: newer)%list ->
      forall b, In b newer -> alertThrottleTime <= sentAt b - sentAt a) ->
  let st' := sendAlert st title level now in
  (forall key, JSMap.get (lastAlertTime st') key
               = option_map sentAt (last (map Some (postedUnder key (posted st'))) None)) /\
  (forall a, In a (posted st') -> sentAt a <> 0) /\
  (forall key older a newer,
      postedUnder key (posted st') = (older ++ a :: newer)%list ->
      forall b, In b newer -> alertThrottleTime <= sentAt b - sentAt a) /\
  enabled st' = enabled st /\ webhookUrl st' = webhookUrl st.
Proof.
  intros Hnow Hlast Hnonzero Hspaced. cbv zeta. unfold sendAlert.
  destruct (negb (enabled st) || noWebhook st); [auto|].
  set (k := throttleKey title level).
  destruct (throttled st k now) eqn:Hthr; [auto|].
  cbn [lastAlertTime posted enabled webhookUrl].
  set (alert := {| title := title; level := level; sentAt := now |}).
  assert (Hunder : forall key,
            postedUnder key (posted st ++ [alert])
            = (postedUnder key (posted st)
               ++ if String.eqb k key then [alert] else [])%list).
  { intros key. unfold postedUnder. rewrite filter_app. reflexivity. }
  split; [|split; [|split; [|split; reflexivity]]].
  - intros key. rewrite Hunder. destruct (String.eqb_spec k key) as [<-|Hne]; cbv iota.
    + rewrite get_set_same, map_app. cbn [map]. rewrite last_last. reflexivity.
    + rewrite get_set_other by congruence. rewrite app_nil_r. apply Hlast.
  - intros a Hin. apply in_app_or in Hin as [Hin|[<-|[]]]; [now apply Hnonzero|exact Hnow].
  - intros key older a newer Heq b Hb. rewrite Hunder in Heq.
    destruct (String.eqb_spec k key) as [<-|Hne]; cbv iota in Heq.
    2:{ rewrite app_nil_r in Heq. now apply (Hspaced key older a newer). }
    (* the new alert is the newest under its key *)
    destruct newer as [|n0 newer0] using rev_ind; [destruct Hb|].
    clear IHnewer0.
    change (older ++ a :: newer0 ++ [n0])%list
      with (older ++ (a :: newer0) ++ [n0])%list in Heq.
    rewrite app_assoc in Heq. apply app_inj_tail in Heq as [Hold <-].
    assert (Ha : In a (postedUnder k (posted st))).
    { rewrite Hold. apply in_or_app. right. now left. }
    (* the throttle let the alert through *)
    unfold throttled in Hthr. rewrite Hlast, Hold in Hthr.
    apply in_app_or in Hb as [Hb|[<-|[]]].
    + now apply (Hspaced k older a newer0).
    + change (sentAt alert) with now.
      destruct newer0 as [|n1 newer1] using rev_ind.
      * rewrite map_app in Hthr. cbn [map] in Hthr. rewrite last_last in Hthr.
        cbn [option_map] in Hthr.
        assert (sentAt a <> 0).
        { apply Hnonzero. unfold postedUnder in Ha. now apply filter_In in Ha as [Ha _]. }
        destruct (Z.eqb_spec (sentAt a) 0); [contradiction|]. cbn [negb andb] in Hthr.
        apply Z.ltb_ge in Hthr. exact Hthr.
      * clear IHnewer1.
        change (older ++ a :: newer1 ++ [n1])%list
          with (older ++ (a :: newer1) ++ [n1])%list in Hthr, Hold.
        rewrite app_assoc in Hthr, Hold.
        rewrite map_app in Hthr. cbn [map] in Hthr. rewrite last_last in Hthr.
        cbn [option_map] in Hthr.
        assert (Hn1 : In n1 (postedUnder k (posted st))).
        { rewrite Hold. apply in_or_app. right. now left. }
        assert (sentAt n1 <> 0).
        { apply Hnonzero. unfold postedUnder in Hn1.
          now apply filter_In in Hn1 as [Hn1 _]. }
        destruct (Z.eqb_spec (sentAt n1) 0); [contradiction|]. cbn [negb andb] in Hthr.
        apply Z.ltb_ge in Hthr.
        assert (alertThrottleTime <= sentAt n1 - sentAt a).
        { rewrite <- app_assoc in Hold. cbn [app] in Hold.
          apply (Hspaced k older a (newer1 ++ [n1])%list Hold).
          apply in_or_app. right. now left. }
        unfold alertThrottleTime in *. change (sentAt alert) with now. lia.
Qed.

Lemma sendAlerts_switched_off (st : State) (calls : list (string * string * Z)) :
  negb (enabled st) || noWebhook st = true -> sendAlerts st calls = st.
Proof.
  intros Hoff. induction calls as [|[[title level] now] rest IH]; [reflexivity|].
  unfold sendAlerts in *. cbn [fold_left]. unfold sendAlert at 2. rewrite Hoff. exact IH.
Qed.

(** X20. Of the alerts [sendAlert] posts under one title and level,
    any two are at least five minutes apart, whatever the sequence of
    calls (the clock never reading 0); with monitoring disabled or no
    webhook configured nothing is posted at all. *)
Theorem alerts_under_one_key_are_throttled (monitoringEnabled : bool)
    (url : option string) (calls : list (string * string * Z)) :
  Forall (fun call => snd call <> 0) calls ->
  let st := sendAlerts (constructed monitoringEnabled url) calls in
  (forall key older a newer b,
      postedUnder key (posted st) = (older ++ a :: newer)%list ->
      In b newer ->
      5 * 60 * 1000 <= sentAt b - sentAt a) /\
  (monitoringEnabled = false \/ url = None \/ url = Some "" -> posted st = []).
Proof.
  intros Hcalls. cbv zeta. split.
  - assert (H : forall st,
      (forall key, JSMap.get (lastAlertTime st) key
                   = option_map sentAt (last (map Some (postedUnder key (posted st))) None)) ->
      (forall a, In a (posted st) -> sentAt a <> 0) ->
      (forall key older a newer,
          postedUnder key (posted st) = (older ++ a :: newer)%list ->
          forall b, In b newer -> alertThrottleTime <= sentAt b - sentAt a) ->
      forall key older a newer,
        postedUnder key (posted (sendAlerts st calls)) = (older ++ a :: newer)%list ->
        forall b, In b newer -> alertThrottleTime <= sentAt b - sentAt a).
    { induction Hcalls as [|[[title level] now] rest Hnow _ IH]; intros st H1 H2 H3.
      - exact H3.
      - unfold sendAlerts. cbn [fold_left].
        fold (sendAlerts (sendAlert st title level now) rest).
        destruct (sendAlert_invariant st title level now Hnow H1 H2 H3)
          as (H1' & H2' & H3' & _).
        now apply IH. }
    intros key older a newer b Heq Hb.
    apply (H (constructed monitoringEnabled url)) with (key := key) (older := older)
                                                       (newer := newer);
      try assumption.
    + intros k. reflexivity.
    + intros ? [].
    + intros k o x n Hk. destruct o; discriminate.
  - intros Hoff. rewrite sendAlerts_switched_off; [reflexivity|].
    unfold noWebhook. cbn [enabled webhookUrl constructed].
    destruct Hoff as [-> | [-> | ->]]; [reflexivity| |];
      destruct monitoringEnabled; reflexivity.
Qed.

End MonitoringFacts.

Section ReplacementFacts.

Import Replacement.
Local Open Scope string_scope.
Local Open Scope Z_scope.

Variable config : Config.
Variable getTransaction : string -> result (option Transaction).
Variable signTransaction : ReplacementTx -> result string.
Variable sendTransaction : string -> result string.

Local Abbreviation speedUp :=
  (speedUpTransaction config getTransaction signTransaction sendTransaction).

(** The run of [speedUpTransaction], case by case. *)
Lemma speedUp_cases (txHash : string) (multiplier : option JS.number) :
  let factor := JS.Math_floor (JS.mul (match multiplier with
                                       | Some m => m
                                       | None => JS.lit "1.5"
                                       end) (JS.lit "100")) in
  (snd (speedUp txHash multiplier) = [GetTransaction txHash] /\
   success (fst (speedUp txHash multiplier)) = false)
  \/
  exists tx price scaled maxGasPrice,
    getTransaction txHash = Ok (Some tx) /\
    confirmed tx = false /\
    gasPrice tx = Some price /\
    Ethers.mul_number price factor = Ok scaled /\
    Ethers.parseUnits (JS.ToString (MAX_GAS_PRICE config)) 9 = Ok maxGasPrice /\
    let replacementTx :=
      {| r_to := to tx; r_from := from tx; r_nonce := nonce tx; r_data := data tx;
         r_value := value tx; r_gasLimit := gasLimit tx;
         r_gasPrice := Z.min (Z.quot scaled 100) maxGasPrice |} in
    match signTransaction replacementTx with
    | Throw message =>
        speedUp txHash multiplier
        = (failure message, [GetTransaction txHash; SignTransaction replacementTx])
    | Ok signedTx =>
        snd (speedUp txHash multiplier)
        = [GetTransaction txHash; SignTransaction replacementTx;
           SendTransaction signedTx] /\
        match sendTransaction signedTx with
        | Throw message => fst (speedUp txHash multiplier) = failure message
        | Ok newHash =>
            fst (speedUp txHash multiplier)
            = {| success := true; originalTxHash := Some txHash;
                 newTxHash := Some newHash;
                 newGasPrice := Some (r_gasPrice replacementTx);
                 error := None |}
        end
    end.
Proof.
  cbv zeta.
  remember (speedUp txHash multiplier) as run eqn:Hrun.
  cbv beta iota zeta delta [speedUpTransaction Eff.try_catch Eff.bind Eff.lift Eff.ret
                            request Ethers.div] in Hrun.
  destruct (getTransaction txHash) as [[tx|]|]; try (subst run; left; split; reflexivity).
  destruct (confirmed tx) eqn:Hconf; [subst run; left; split; reflexivity|].
  destruct (gasPrice tx) as [price|] eqn:Hprice; [|subst run; left; split; reflexivity].
  destruct (Ethers.mul_number price _) as [scaled|] eqn:Hmul;
    [|subst run; left; split; reflexivity].
  change (100 =? 0) with false in Hrun. cbv iota in Hrun.
  destruct (Ethers.parseUnits (JS.ToString (MAX_GAS_PRICE config)) 9) as [maxGasPrice|]
    eqn:Hmax; [|subst run; left; split; reflexivity].
  right. exists tx, price, scaled, maxGasPrice.
  repeat (split; [first [reflexivity|assumption]|]).
  assert (Hmin : (if maxGasPrice <? Z.quot scaled 100 then maxGasPrice else Z.quot scaled 100)
                 = Z.min (Z.quot scaled 100) maxGasPrice).
  { destruct (Z.ltb_spec maxGasPrice (Z.quot scaled 100)); lia. }
  rewrite Hmin in Hrun.
  set (r := {| r_to := to tx; r_from := from tx; r_nonce := nonce tx; r_data := data tx;
               r_value := value tx; r_gasLimit := gasLimit tx;
               r_gasPrice := Z.min (Z.quot scaled 100) maxGasPrice |}) in *.
  destruct (signTransaction r) as [signedTx|]; [|subst run; reflexivity].
  destruct (sendTransaction signedTx); subst run; split; reflexivity.
Qed.

(** X21. Whatever [speedUpTransaction] hands to the wallet for
    signing replaces a transaction that was found and is unconfirmed:
    it keeps the nonce, recipient, sender, data, value and gas limit of
    the original, and its gas price is at most the configured maximum;
    with the default multiplier an original that already bid the
    maximum or more is replaced at exactly the maximum; on success the
    gas price reported is the one signed. *)
Theorem replacement_respects_the_gas_price_cap (txHash : string)
    (multiplier : option JS.number) (replacementTx : ReplacementTx) :
  In (SignTransaction replacementTx) (snd (speedUp txHash multiplier)) ->
  exists tx maxGasPrice,
    getTransaction txHash = Ok (Some tx) /\
    confirmed tx = false /\
    Ethers.parseUnits (JS.ToString (MAX_GAS_PRICE config)) 9 = Ok maxGasPrice /\
    r_gasPrice replacementTx <= maxGasPrice /\
    r_nonce replacementTx = nonce tx /\
    r_to replacementTx = to tx /\
    r_from replacementTx = from tx /\
    r_data replacementTx = data tx /\
    r_value replacementTx = value tx /\
    r_gasLimit replacementTx = gasLimit tx /\
    (success (fst (speedUp txHash multiplier)) = true ->
     newGasPrice (fst (speedUp txHash multiplier)) = Some (r_gasPrice replacementTx)) /\
    (multiplier = None ->
     forall price, gasPrice tx = Some price -> 0 <= maxGasPrice <= price ->
       r_gasPrice replacementTx = maxGasPrice).
Proof.
  intros Hin.
  destruct (speedUp_cases txHash multiplier)
    as [[Hlog _]|(tx & price & scaled & maxGasPrice & Htx & Hconf & Hprice & Hmul & Hmax & H)].
  { rewrite Hlog in Hin. destruct Hin as [Hin|[]]. discriminate. }
  cbv zeta in H. exists tx, maxGasPrice.
  set (r := {| r_to := to tx; r_from := from tx; r_nonce := nonce tx; r_data := data tx;
               r_value := value tx; r_gasLimit := gasLimit tx;
               r_gasPrice := Z.min (Z.quot scaled 100) maxGasPrice |}) in *.
  assert (Hr : replacementTx = r).
  { destruct (signTransaction r) as [signedTx|].
    - destruct H as [Hlog _]. rewrite Hlog in Hin.
      destruct Hin as [Hin|[Hin|[Hin|[]]]]; try discriminate. now injection Hin.
    - rewrite H in Hin. cbn [snd] in Hin.
      destruct Hin as [Hin|[Hin|[]]]; try discriminate. now injection Hin. }
  subst replacementTx. cbn [r r_gasPrice r_nonce r_to r_from r_data r_value r_gasLimit].
  repeat (split; [first [assumption | reflexivity | lia]|]).
  split.
  - intros Hsuccess.
    destruct (signTransaction r) as [signedTx|].
    + destruct H as [_ H]. destruct (sendTransaction signedTx).
      * rewrite H. reflexivity.
      * rewrite H in Hsuccess. discriminate.
    + rewrite H in Hsuccess. discriminate.
  - intros -> price' Hprice' Hrange. rewrite Hprice in Hprice'. injection Hprice' as <-.
    assert (Hfactor : JS.Math_floor (JS.mul (JS.lit "1.5") (JS.lit "100"))
                      = JS.of_Z 150) by (vm_compute; reflexivity).
    rewrite Hfactor in Hmul.
    assert (H150 : Ethers.from_number (JS.of_Z 150) = Ok 150) by (vm_compute; reflexivity).
    unfold Ethers.mul_number, bind in Hmul. rewrite H150 in Hmul. injection Hmul as <-.
    assert (price <= Z.quot (price * 150) 100).
    { apply Z.quot_le_lower_bound; lia. }
    lia.
Qed.

End ReplacementFacts.

Section TrackingFacts.

Import Tracking.
Local Open Scope string_scope.
Local Open Scope Z_scope.

Lemma has_delete_same {V : Type} (m : JSMap.t V) (key : string) :
  NoDup (JSMap.keys m) -> JSMap.has (JSMap.delete m key) key = false.
Proof.
  unfold JSMap.has. induction m as [|[k v] rest IH]; intros Hnodup; [reflexivity|].
  cbn [JSMap.keys map fst] in Hnodup. apply NoDup_cons_iff in Hnodup as [Hnot Hrest].
  cbn [JSMap.delete]. destruct (String.eqb_spec k key) as [->|Hne].
  - destruct (JSMap.get rest key) as [v'|] eqn:Hget; [|reflexivity].
    exfalso. apply Hnot. clear -Hget. induction rest as [|[k' v''] rest IH]; [discriminate|].
    cbn [JSMap.get] in Hget. cbn [JSMap.keys map fst].
    destruct (String.eqb_spec k' key) as [->|Hne]; [now left|right; now apply IH].
  - cbn [JSMap.get]. destruct (String.eqb_spec k key); [contradiction|]. now apply IH.
Qed.

(** Once resolved, no signal changes what was resolved or the map. *)
Lemma signal_after_resolution (txHash : string) (signals : list Signal) (st : State) :
  resolved st = true ->
  let st' := fold_left (signal txHash) signals st in
  resolved st' = true /\ resolutions st' = resolutions st /\
  pendingTxs st' = pendingTxs st.
Proof.
  revert st. induction signals as [|s rest IH]; intros st Hres; cbv zeta.
  - auto.
  - cbn [fold_left].
    assert (Hstep : resolved (signal txHash st s) = true /\
                    resolutions (signal txHash st s) = resolutions st /\
                    pendingTxs (signal txHash st s) = pendingTxs st).
    { destruct s; unfold signal; rewrite Hres; cbn [negb andb];
        rewrite ?andb_false_r; cbn; auto. }
    destruct Hstep as (H1 & H2 & H3).
    destruct (IH (signal txHash st s) H1) as (H1' & H2' & H3').
    repeat split; congruence.
Qed.

(** X22. A tracked transaction is resolved exactly once, by whichever
    of its timeout and its receipt comes first: with a timeout error, or
    by the receipt's status as success or revert.  Nothing that arrives
    later resolves it again, and its hash is no longer among the pending
    transactions. *)
Theorem tracking_resolves_once_by_the_first_signal (pending : JSMap.t Z)
    (txHash : string) (startTime : Z) (first : Signal) (later : list Signal) :
  NoDup (JSMap.keys pending) ->
  let tracking := trackTransaction pending txHash startTime in
  let st := fold_left (signal txHash) (first :: later) tracking in
  JSMap.get (pendingTxs tracking) txHash = Some startTime /\
  resolutions tracking = [] /\
  resolutions st
  = [match first with
     | TimerFired =>
         {| success := false; error := Some "Transaction timeout"; receipt := None |}
     | ReceiptArrived r =>
         if SandwichExecutor.status r =? 1
         then {| success := true; error := None; receipt := Some r |}
         else {| success := false; error := Some "Transaction reverted";
                 receipt := Some r |}
     end] /\
  resolved st = true /\
  JSMap.has (pendingTxs st) txHash = false.
Proof.
  intros Hnodup. cbv zeta. split; [apply get_set_same|]. split; [reflexivity|].
  cbn [fold_left].
  set (st1 := signal txHash (trackTransaction pending txHash startTime) first).
  assert (H1 : resolved st1 = true) by (destruct first; reflexivity).
  destruct (signal_after_resolution txHash later st1 H1) as (Hres & Hsame & Hmap).
  rewrite Hsame, Hmap. split; [destruct first; reflexivity|]. split; [exact Hres|].
  assert (Hdel : pendingTxs st1
                 = JSMap.delete (JSMap.set pending txHash startTime) txHash)
    by (destruct first; reflexivity).
  rewrite Hdel. apply has_delete_same. now apply keys_set_NoDup.
Qed.

End TrackingFacts.

(** ** What the classifier reports *)

Section ClassifierFacts.

Import TransactionDecoder.
Local Open Scope string_scope.
Local Open Scope Z_scope.

Variable config : Config.
Variable minOpportunitySize : Z.
Variable parseTransaction : string -> string -> result (option DecodedInput).
Variable isTokenBlacklisted : string -> result bool.
Variable checkPairLiquidity : string -> string -> result LiquidityCheck.
Variable getTokenValueInETH : string -> option Z -> result Z.
Variable getPairAddress : string -> string -> string -> result string.
Variable getPairReserves : string -> string -> string -> result (option PairInfo).
Variable now : Z.

Local Abbreviation analyze :=
  (analyzePendingTransaction config minOpportunitySize parseTransaction
     isTokenBlacklisted checkPairLiquidity getTokenValueInETH getPairAddress
     getPairReserves now).

(** X25. An opportunity [analyzePendingTransaction] reports has
    passed every filter: the recipient is a supported router, the call
    decodes to a swap whose details could be extracted, the path has two
    tokens or more and its ends are a valid pair, the input is worth at
    least the minimum size, the pair has reserves, the estimated profit
    is positive and the confidence not below 0.7; its fields are those
    of the transaction and of the parameters computed, with a suggested
    gas price of 115% of the victim's. *)
Theorem reported_opportunity_passed_every_filter (tx : Tx) (opp : Opportunity) :
  analyze tx = Ok (Some opp) ->
  exists decodedInput swapDetails tokenA tokenB rest tokenInValue params,
    to tx = Some (router opp) /\
    isSupportedRouter config (router opp) = true /\
    parseTransaction (Str.toLowerCase (router opp)) (data tx) = Ok (Some decodedInput) /\
    isSwapFunction (name decodedInput) = true /\
    extractSwapDetails config decodedInput tx = Some swapDetails /\
    sd_path swapDetails = Some (path opp) /\
    path opp = tokenA :: tokenB :: rest /\
    isValidTokenPair isTokenBlacklisted checkPairLiquidity (Some (path opp)) = Ok true /\
    sd_amountIn swapDetails = Some (amountIn opp) /\
    getTokenValueInETH tokenA (Some (amountIn opp)) = Ok tokenInValue /\
    minOpportunitySize <= tokenInValue /\
    getPairAddress tokenA tokenB (router opp) = Ok (pairAddress opp) /\
    getPairReserves (pairAddress opp) tokenA tokenB = Ok (Some (pairInfo opp)) /\
    calculateSandwichParameters (path opp) (Some (amountIn opp)) (pairInfo opp)
    = Ok params /\
    estimatedProfit opp = p_estimatedProfit params /\
    0 < estimatedProfit opp /\
    confidence opp = p_confidence params /\
    JS.lt (confidence opp) (JS.lit "0.7") = false /\
    victimTx opp = hash tx /\
    gasPrice opp = tx_gasPrice tx /\
    suggestedGasPrice opp = Z.quot (tx_gasPrice tx * 115) 100 /\
    submittedTime opp = now.
Proof.
  unfold analyzePendingTransaction.
  destruct (to tx) as [router|] eqn:Hto; [|discriminate].
  destruct (isSupportedRouter config router) eqn:Hrouter; [|discriminate].
  cbn [negb]. unfold try_catch, analyzeSupported.
  destruct (negb (hasRouterInterface config (Str.toLowerCase router))); [discriminate|].
  destruct (parseTransaction (Str.toLowerCase router) (data tx)) as [[decoded|]|] eqn:Hparse;
    try discriminate.
  destruct (isSwapFunction (name decoded)) eqn:Hswap; [|discriminate]. cbn [negb].
  destruct (extractSwapDetails config decoded tx) as [details|] eqn:Hdetails;
    [|discriminate].
  unfold bind at 1.
  destruct (isValidTokenPair isTokenBlacklisted checkPairLiquidity (sd_path details)) as [[|]|] eqn:Hvalid; try discriminate.
  cbn [negb].
  destruct (sd_path details) as [[|tokenA [|tokenB rest]]|] eqn:Hpath; try discriminate.
  unfold bind at 1.
  destruct (getTokenValueInETH tokenA (sd_amountIn details)) as [value|] eqn:Hvalue;
    [|discriminate].
  destruct (Z.ltb_spec value minOpportunitySize) as [|Hsize]; [discriminate|].
  unfold bind at 1.
  destruct (getPairAddress tokenA tokenB router) as [pairAddr|] eqn:Hpair; [|discriminate].
  unfold bind at 1.
  destruct (getPairReserves pairAddr tokenA tokenB) as [[info|]|] eqn:Hreserves;
    try discriminate.
  unfold bind at 1.
  destruct (calculateSandwichParameters (tokenA :: tokenB :: rest) (sd_amountIn details) info)
    as [params|] eqn:Hparams; [|discriminate].
  destruct (Z.leb_spec (p_estimatedProfit params) 0) as [|Hprofit]; [discriminate|].
  cbn [orb].
  destruct (JS.lt (p_confidence params) (JS.lit "0.7")) eqn:Hconf; [discriminate|].
  unfold bind, Ethers.div. change (100 =? 0) with false. cbv iota.
  assert (Hamount : exists a, sd_amountIn details = Some a).
  { destruct (sd_amountIn details) as [a|]; [now exists a|]. discriminate Hparams. }
  destruct Hamount as [a Ha]. rewrite Ha in *.
  intros [= <-]. cbn.
  exists decoded, details, tokenA, tokenB, rest, value, params.
  repeat (split; [first [assumption|reflexivity|lia]|]). reflexivity.
Qed.

(** X26. [isValidTokenPair] looks at the first and the last token of
    a path only: the tokens between them change nothing, so a path is
    judged as the direct pair of its ends; a path of fewer than two
    tokens, or none, is invalid. *)
Theorem only_the_ends_of_a_path_are_vetted (tokenA tokenB : string)
    (hops hops' : list string) :
  let valid := isValidTokenPair isTokenBlacklisted checkPairLiquidity in
  valid (Some (tokenA :: hops ++ [tokenB])%list)
  = valid (Some (tokenA :: hops' ++ [tokenB])%list) /\
  valid (Some (tokenA :: hops ++ [tokenB])%list) = valid (Some [tokenA; tokenB]) /\
  valid (Some [tokenA]) = Ok false /\
  valid (Some []) = Ok false /\
  valid None = Ok false.
Proof.
  cbv zeta.
  assert (H : forall mid,
            isValidTokenPair isTokenBlacklisted checkPairLiquidity
              (Some (tokenA :: mid ++ [tokenB])%list)
            = isValidTokenPair isTokenBlacklisted checkPairLiquidity
                (Some [tokenA; tokenB])).
  { intros mid. unfold isValidTokenPair.
    change (tokenA :: mid ++ [tokenB])%list with ((tokenA :: mid) ++ [tokenB])%list.
    rewrite last_last. change (last [tokenA; tokenB] tokenA) with tokenB.
    destruct mid; reflexivity. }
  repeat split; try reflexivity; [now rewrite !H|apply H].
Qed.

Lemma withoutWETH_clean (path : option (list string)) (rest : list string) :
  withoutWETH config path = Ok rest ->
  exists given,
    path = Some given /\
    rest = filter (fun t => negb (String.eqb (Str.toLowerCase t)
                                             (Str.toLowerCase (WETH_ADDRESS config))))
                  given /\
    Forall (fun t => Str.toLowerCase t <> Str.toLowerCase (WETH_ADDRESS config)) rest.
Proof.
  unfold withoutWETH, undefined_property. destruct path as [given|]; [|discriminate].
  intros [= <-]. exists given. split; [reflexivity|]. split; [reflexivity|].
  apply Forall_forall. intros t Hin. apply filter_In in Hin as [_ Hne].
  apply negb_true_iff in Hne. now apply String.eqb_neq in Hne.
Qed.

(** X27. The details [extractSwapDetails] returns either keep the
    decoded path and take the input from [amountIn] or [amountInMax], or
    belong to an ETH swap: the decoded path with every occurrence of
    WETH (in any case) removed and the configured WETH address put at
    the start, the input being the transaction's value, or at the
    end. *)
Theorem extracted_path_names_weth_once (decodedInput : DecodedInput) (tx : Tx)
    (details : SwapDetails) :
  extractSwapDetails config decodedInput tx = Some details ->
  (sd_path details = arg_path (args decodedInput) /\
   (sd_amountIn details = arg_amountIn (args decodedInput)
    \/ sd_amountIn details = arg_amountInMax (args decodedInput)))
  \/
  exists given others,
    arg_path (args decodedInput) = Some given /\
    others = filter (fun t => negb (String.eqb (Str.toLowerCase t)
                                               (Str.toLowerCase (WETH_ADDRESS config))))
                    given /\
    Forall (fun t => Str.toLowerCase t <> Str.toLowerCase (WETH_ADDRESS config)) others /\
    ((sd_path details = Some (WETH_ADDRESS config :: others)
      /\ sd_amountIn details = Some (value tx))
     \/
     (sd_path details = Some (others ++ [WETH_ADDRESS config])%list
      /\ (sd_amountIn details = arg_amountIn (args decodedInput)
          \/ sd_amountIn details = arg_amountInMax (args decodedInput)))).
Proof.
  unfold extractSwapDetails, try_catch.
  destruct (Str.includes (name decodedInput) "swapExactTokensForTokens").
  { intros [= <-]. left. cbn. auto. }
  destruct (Str.includes (name decodedInput) "swapTokensForExactTokens").
  { intros [= <-]. left. cbn. auto. }
  assert (Hrest : forall k : list string -> result (option SwapDetails),
            bind (withoutWETH config (arg_path (args decodedInput))) k
            = match withoutWETH config (arg_path (args decodedInput)) with
              | Ok rest => k rest
              | Throw m => Throw m
              end) by reflexivity.
  destruct (Str.includes (name decodedInput) "swapExactETHForTokens").
  { rewrite Hrest.
    destruct (withoutWETH config (arg_path (args decodedInput))) as [others|] eqn:Hw;
      [|discriminate].
    destruct (withoutWETH_clean _ _ Hw) as (given & Hgiven & Hothers & Hclean).
    intros [= <-]. right. exists given, others. cbn. auto 10. }
  destruct (Str.includes (name decodedInput) "swapExactTokensForETH").
  { rewrite Hrest.
    destruct (withoutWETH config (arg_path (args decodedInput))) as [others|] eqn:Hw;
      [|discriminate].
    destruct (withoutWETH_clean _ _ Hw) as (given & Hgiven & Hothers & Hclean).
    intros [= <-]. right. exists given, others. cbn. auto 10. }
  destruct (Str.includes (name decodedInput) "swapTokensForExactETH").
  { rewrite Hrest.
    destruct (withoutWETH config (arg_path (args decodedInput))) as [others|] eqn:Hw;
      [|discriminate].
    destruct (withoutWETH_clean _ _ Hw) as (given & Hgiven & Hothers & Hclean).
    intros [= <-]. right. exists given, others. cbn. auto 10. }
  destruct (Str.includes (name decodedInput) "swapETHForExactTokens"); [|discriminate].
  rewrite Hrest.
  destruct (withoutWETH config (arg_path (args decodedInput))) as [others|] eqn:Hw;
    [|discriminate].
  destruct (withoutWETH_clean _ _ Hw) as (given & Hgiven & Hothers & Hclean).
  intros [= <-]. right. exists given, others. cbn. auto 10.
Qed.

End ClassifierFacts.

Section ClassifierAmounts.

Import TransactionDecoder.
Local Open Scope string_scope.
Local Open Scope Z_scope.

Lemma front_run_ratio :
  Ethers.from_number (JS.Math_floor (JS.mul (JS.lit "0.2") (JS.lit "100"))) = Ok 20.
Proof. vm_compute. reflexivity. Qed.

(** X28. [calculateSandwichParameters] throws exactly when the input
    reserve is 0 or the victim's amount is 2^53 thousandths of it or
    more.  Otherwise the amounts it returns depend on the victim's
    amount alone: the front-run is 20% of it, the back-run 95% of the
    front-run, the estimated profit 0.2%, all truncated; for a victim
    amount that is not negative the back-run is at most the front-run,
    the front-run at most the victim's amount, and the profit is
    positive exactly from 500 wei on. *)
Theorem sandwich_parameters_ignore_the_pool_depth (tokenIn : string) (rest : list string)
    (victimAmountIn : Z) (pairInfo : PairInfo) :
  let reserveIn :=
    if String.eqb (Str.toLowerCase tokenIn) (Str.toLowerCase (token0 pairInfo))
    then reserve0 pairInfo else reserve1 pairInfo in
  match calculateSandwichParameters (tokenIn :: rest) (Some victimAmountIn) pairInfo with
  | Ok params =>
      reserveIn <> 0 /\
      Z.abs (Z.quot (victimAmountIn * 1000) reserveIn) < 2 ^ 53 /\
      p_optimalFrontRunAmount params = Z.quot (victimAmountIn * 20) 100 /\
      p_optimalBackRunAmount params = Z.quot (Z.quot (victimAmountIn * 20) 100 * 95) 100 /\
      p_estimatedProfit params = Z.quot (victimAmountIn * 20) 10000 /\
      (0 <= victimAmountIn ->
       0 <= p_optimalBackRunAmount params <= p_optimalFrontRunAmount params /\
       p_optimalFrontRunAmount params <= victimAmountIn /\
       (0 < p_estimatedProfit params <-> 500 <= victimAmountIn))
  | Throw _ =>
      reserveIn = 0 \/ 2 ^ 53 <= Z.abs (Z.quot (victimAmountIn * 1000) reserveIn)
  end.
Proof.
  intros reserveIn. unfold calculateSandwichParameters. fold reserveIn.
  rewrite front_run_ratio. cbn [bind].
  unfold Ethers.div at 1. change (100 =? 0) with false. cbv iota.
  unfold Ethers.div at 1.
  destruct (Z.eqb_spec reserveIn 0) as [Hzero|Hpool]; [cbn [bind]; now left|].
  cbn [bind]. unfold Ethers.toNumber.
  destruct (Z.ltb_spec (Z.abs (Z.quot (victimAmountIn * 1000) reserveIn)) (2 ^ 53))
    as [Hsmall|Hlarge]; [|cbn [bind]; now right].
  cbn [bind]. unfold Ethers.div. change (10000 =? 0) with false.
  change (100 =? 0) with false.
  cbv iota. cbn [bind p_optimalFrontRunAmount p_optimalBackRunAmount p_estimatedProfit].
  split; [exact Hpool|]. split; [exact Hsmall|].
  repeat split; try reflexivity.
  - apply Z.quot_pos; [|lia]. apply Z.mul_nonneg_nonneg; [|lia].
    apply Z.quot_pos; lia.
  - pose proof (Z.quot_pos (victimAmountIn * 20) 100 ltac:(lia) ltac:(lia)) as Hfront.
    apply Z.quot_le_upper_bound; lia.
  - apply Z.quot_le_upper_bound; lia.
  - intros Hprofit.
    destruct (Z.lt_ge_cases victimAmountIn 500) as [Hlt|]; [|assumption].
    rewrite Z.quot_small in Hprofit; lia.
  - intros Hvictim. apply Z.quot_str_pos; lia.
Qed.

End ClassifierAmounts.

Section GasPriceFacts.

Import SandwichOptimizer.
Local Open Scope string_scope.
Local Open Scope Z_scope.

(** X29. For a victim's and a network gas price that are not
    negative, [calculateOptimalGasPrice] returns a price that is at
    least both, at most 115% of the victim's or 110% of the network's,
    whichever is larger, and above the victim's whenever the victim bids
    7 wei or more. *)
Theorem front_run_gas_price_outbids_the_victim (victimGasPrice : Z)
    (networkConditions : NetworkConditions) :
  0 <= victimGasPrice ->
  0 <= nc_gasPrice networkConditions ->
  let price := calculateOptimalGasPrice victimGasPrice networkConditions in
  victimGasPrice <= price /\
  nc_gasPrice networkConditions <= price /\
  (7 <= victimGasPrice -> victimGasPrice < price) /\
  100 * price <= Z.max (115 * victimGasPrice) (110 * nc_gasPrice networkConditions).
Proof.
  intros Hvictim Hnetwork price. subst price.
  unfold calculateOptimalGasPrice.
  set (g := nc_gasPrice networkConditions) in *.
  rewrite !Z.quot_div_nonneg by lia.
  pose proof (Z.div_mod (victimGasPrice * 115) 100 ltac:(lia)) as Hv.
  pose proof (Z.mod_pos_bound (victimGasPrice * 115) 100 ltac:(lia)) as Hvb.
  pose proof (Z.div_mod (g * 110) 100 ltac:(lia)) as Hg.
  pose proof (Z.mod_pos_bound (g * 110) 100 ltac:(lia)) as Hgb.
  destruct (Z.ltb_spec (g * 110 / 100) (victimGasPrice * 115 / 100));
    repeat split; intros; lia.
Qed.

End GasPriceFacts.

(** ** Pools without reserves *)

Section EmptyPool.

Import SandwichOptimizer.
Local Open Scope string_scope.
Local Open Scope Z_scope.

Lemma Math_min_zero_signless (c : JS.number) :
  JS.signless c = true ->
  JS.Math_min (S754_zero false) c = S754_zero false
  \/ JS.Math_min (S754_zero false) c = S754_nan.
Proof.
  destruct c as [[]|[]| |[] m e]; try discriminate; intros _;
    cbv [JS.Math_min JS.is_nan orb JS.lt SFltb SFcompare]; auto.
Qed.

Lemma unconstrained_unfold (params : Params) :
  unconstrainedOptimum (locals params)
  = JS.div (JS.sub (JS.sqrt (JS.mul (JS.mul (JS.StringToNumber
                                               (Ethers.formatEther (reserveIn params)))
                                            (JS.StringToNumber
                                               (Ethers.formatEther (victimAmount params))))
                                    (JS.div (fee params) (JS.lit "1000"))))
                   (JS.StringToNumber (Ethers.formatEther (reserveIn params))))
           (JS.div (fee params) (JS.lit "1000")).
Proof. reflexivity. Qed.

Lemma frontRunOutput_unfold (params : Params) :
  frontRunOutput (locals params)
  = JS.div (JS.mul (JS.mul (JS.StringToNumber (Ethers.formatEther (reserveOut params)))
                           (cappedOptimalAmount (locals params)))
                   (JS.div (fee params) (JS.lit "1000")))
           (JS.StringToNumber
              (Ethers.formatEther (reserveIn params)
               ++ JS.ToString (JS.mul (cappedOptimalAmount (locals params))
                                      (JS.div (fee params) (JS.lit "1000"))))).
Proof. reflexivity. Qed.

Lemma empty_reserve_clamp (params : Params) :
  reserveIn params = 0 ->
  fee params = JS.lit "997" ->
  0 <= victimAmount params ->
  cappedOptimalAmount (locals params) = S754_zero false
  \/ cappedOptimalAmount (locals params) = S754_nan.
Proof.
  intros Hreserve Hfee Hv.
  destruct (formatEther_head _ Hv) as (ch & rest & Hd & E).
  pose proof (StringToNumber_digit_signless ch rest Hd) as HV. rewrite <- E in HV.
  rewrite capped_unfold, unconstrained_unfold, v_unfold, Hreserve, Hfee.
  set (V := JS.StringToNumber (Ethers.formatEther (victimAmount params))) in *.
  assert (Hcap : JS.signless (JS.mul V (JS.lit "0.3")) = true)
    by (apply mul_signless; [exact HV|reflexivity]).
  set (C := JS.mul V (JS.lit "0.3")) in *. clearbody C.
  clearbody V.
  destruct V as [[]|[]| |[] m e]; try discriminate HV.
  all: match goal with
       | |- context [JS.Math_max ?a ?b] =>
           let r := eval vm_compute in (JS.Math_max a b) in
           replace (JS.Math_max a b) with r by (vm_compute; reflexivity)
       end.
  - now apply Math_min_zero_signless.
  - right. reflexivity.
  - right. reflexivity.
  - now apply Math_min_zero_signless.
Qed.

Theorem empty_input_reserve_is_rejected (params : Params) :
  reserveIn params = 0 ->
  fee params = JS.lit "997" ->
  0 <= victimAmount params ->
  calculateOptimalFrontRunAmount params = Throw "invalid decimal value".
Proof.
  intros Hreserve Hfee Hv.
  pose proof (empty_reserve_clamp params Hreserve Hfee Hv) as Hclamp.
  unfold calculateOptimalFrontRunAmount.
  rewrite frontRunOutput_unfold, Hreserve, Hfee.
  set (l := locals params) in *. clearbody l.
  set (Y := JS.StringToNumber (Ethers.formatEther (reserveOut params))). clearbody Y.
  destruct Hclamp as [-> | ->].
  - destruct Y as [[]|[]| |[] m e]; vm_compute; reflexivity.
  - vm_compute. reflexivity.
Qed.

End EmptyPool.

Section EmptyPoolOptimizer.

Import SandwichOptimizer.
Local Open Scope string_scope.
Local Open Scope Z_scope.

(** X30. For a pool without reserves and a victim amount that is not
    negative, a NaN reaches [parseEther]:
    [calculateOptimalFrontRunAmount] throws, and
    [calculateOptimalSandwichParams] returns the object of its [catch],
    not profitable and without amounts or gas price. *)
Theorem empty_pool_is_never_profitable (config : Config)
    (mulNumber : Z -> JS.number -> result Z) (provider : Provider) (now : Z)
    (opportunity : Opportunity) :
  0 <= amountIn opportunity ->
  reserve0 (pairInfo opportunity) = 0 ->
  reserve1 (pairInfo opportunity) = 0 ->
  calculateOptimalFrontRunAmount
    {| reserveIn := 0; reserveOut := 0; victimAmount := amountIn opportunity;
       fee := JS.lit "997" |}
  = Throw "invalid decimal value" /\
  let r := calculateOptimalSandwichParams config mulNumber provider now opportunity in
  sp_profitable r = false /\
  sp_frontRunAmount r = None /\
  sp_netProfit r = None /\
  sp_gasPrice r = None.
Proof.
  intros Hamount Hreserve0 Hreserve1.
  assert (Hthrow : calculateOptimalFrontRunAmount
                     {| reserveIn := 0; reserveOut := 0;
                        victimAmount := amountIn opportunity; fee := JS.lit "997" |}
                   = Throw "invalid decimal value")
    by (apply empty_input_reserve_is_rejected; [reflexivity|reflexivity|exact Hamount]).
  split; [exact Hthrow|].
  assert (Hlocals : exists message,
             sandwichLocals config provider now opportunity = Throw message).
  { unfold sandwichLocals.
    destruct (path opportunity) as [|tokenIn rest]; [eexists; reflexivity|].
    rewrite Hreserve0, Hreserve1.
    replace (if String.eqb (Str.toLowerCase tokenIn)
                           (Str.toLowerCase (token0 (pairInfo opportunity)))
             then 0 else 0) with 0 by (now destruct (String.eqb _ _)).
    rewrite Hthrow. eexists; reflexivity. }
  destruct Hlocals as [message Hlocals].
  unfold calculateOptimalSandwichParams. rewrite Hlocals.
  repeat split.
Qed.

End EmptyPoolOptimizer.

(** ** Dispatch, deny-list and seen hashes *)

Section DispatchFacts.

Import SandwichExecutor.
Local Open Scope string_scope.
Local Open Scope Z_scope.

Variable config : Config.
Variable getTransactionCount : result Z.
Variable send : Submission -> result string.
Variable trackTransaction : string -> Tracked.

Local Abbreviation dispatch := (executeSandwich config getTransactionCount send trackTransaction).

Lemma submitAndTrack_outcome (s : Submission) :
  snd (submitAndTrack send trackTransaction s) = [Submit s] /\
  (success (fst (submitAndTrack send trackTransaction s)) = true ->
   exists hash receipt,
     send s = Ok hash /\ trackTransaction hash = Confirmed receipt /\
     txHash (fst (submitAndTrack send trackTransaction s)) = Some hash /\
     gasCost (fst (submitAndTrack send trackTransaction s))
     = Some (gasUsed receipt * effectiveGasPrice receipt)).
Proof.
  unfold submitAndTrack. split; [reflexivity|]. cbn [fst].
  destruct (send s) as [hash|message]; [|discriminate].
  cbn [bind]. destruct (trackTransaction hash) as [receipt| |] eqn:Htracked;
    try discriminate.
  intros _. exists hash, receipt. repeat split. exact Htracked.
Qed.

(** X24. Once [refreshNonce] has returned, [executeSandwich] takes
    the nonce and advances the counter whatever follows: an empty path
    sends nothing, and otherwise exactly one contract call is made, with
    that nonce, the parameters' gas price and limit and the victim
    amount bounded by 90% and 110%, whether or not it is accepted.  A
    result reported as success is a call that was accepted and whose
    receipt confirmed it. *)
Theorem every_dispatch_past_the_refresh_uses_up_a_nonce (st st1 : State) (now : Z)
    (log0 : list Event) (opportunity : Opportunity)
    (params : SandwichOptimizer.SandwichParams) :
  refreshNonce getTransactionCount st now = (Ok st1, log0) ->
  let nonce := match currentNonce st1 with Some n => n | None => 0 end in
  let '(result, st2, log) := dispatch st now opportunity params in
  currentNonce st2 = Some (nonce + 1) /\
  lastNonceRefresh st2 = lastNonceRefresh st1 /\
  (path opportunity = [] /\ log = log0 /\ success result = false
   \/
   exists s,
     log = (log0 ++ [Submit s])%list /\
     s_nonce s = nonce /\
     s_victimAmountMin s = Z.quot (amountIn opportunity * 90) 100 /\
     s_victimAmountMax s = Z.quot (amountIn opportunity * 110) 100 /\
     s_gasPrice s = SandwichOptimizer.sp_gasPrice params /\
     s_gasLimit s = SandwichOptimizer.sp_gasLimit params /\
     (success result = true ->
      exists hash receipt,
        send s = Ok hash /\ trackTransaction hash = Confirmed receipt /\
        txHash result = Some hash /\
        gasCost result = Some (gasUsed receipt * effectiveGasPrice receipt))).
Proof.
  intros Hrefresh nonce. unfold executeSandwich. rewrite Hrefresh.
  unfold takeNonce. fold nonce.
  destruct (path opportunity) as [|a rest] eqn:Hpath; cbn [nth_error].
  { repeat split. left. repeat split. }
  set (direct := String.eqb _ _ && USE_DIRECT_ETH config).
  destruct direct.
  - unfold executeWithETH.
    match goal with
    | |- context [submitAndTrack send trackTransaction ?s] =>
        pose proof (submitAndTrack_outcome s) as [Hlog Hsuccess];
        destruct (submitAndTrack send trackTransaction s) as [r log'] eqn:Hrun
    end.
    cbn [fst snd] in Hlog, Hsuccess. subst log'.
    repeat split. right. eexists. split; [reflexivity|].
    repeat (split; [reflexivity|]). exact Hsuccess.
  - unfold executeWithFlashLoan.
    match goal with
    | |- context [submitAndTrack send trackTransaction ?s] =>
        pose proof (submitAndTrack_outcome s) as [Hlog Hsuccess];
        destruct (submitAndTrack send trackTransaction s) as [r log'] eqn:Hrun
    end.
    cbn [fst snd] in Hlog, Hsuccess. subst log'.
    repeat split. right. eexists. split; [reflexivity|].
    repeat (split; [reflexivity|]). exact Hsuccess.
Qed.

End DispatchFacts.

Section BlacklistFacts.

Import TokenManager.
Local Open Scope string_scope.

(** X6. [isTokenBlacklisted] only ever adds to the deny-list.  Once
    it has answered [true] for a token, every later call for that token,
    in any case of its address and whatever the chain then returns, is
    answered [true] from the list; an answer [false] leaves the list as
    it was. *)
Theorem blacklist_verdict_is_remembered (getCode getCode' : string -> result string)
    (blacklist : JSSet.t) (tokenAddress : string) :
  let '(verdict, blacklist') := isTokenBlacklisted getCode blacklist tokenAddress in
  incl blacklist blacklist' /\
  (verdict = true ->
   forall sameToken,
     Str.toLowerCase sameToken = Str.toLowerCase tokenAddress ->
     isTokenBlacklisted getCode' blacklist' sameToken = (true, blacklist')) /\
  (verdict = false -> blacklist' = blacklist).
Proof.
  unfold isTokenBlacklisted.
  destruct (JSSet.has blacklist (Str.toLowerCase tokenAddress)) eqn:Hlisted.
  - split; [apply incl_refl|]. split; [|discriminate].
    intros _ sameToken ->. now rewrite Hlisted.
  - unfold detectTokenFees. cbn [bind try_catch].
    destruct (try_catch _ _).
    + split.
      { unfold JSSet.add. rewrite Hlisted. now apply incl_appl, incl_refl. }
      split; [|discriminate].
      intros _ sameToken ->. now rewrite has_add_same.
    + split; [apply incl_refl|]. split; [discriminate|reflexivity].
Qed.

End BlacklistFacts.

Section SeenHashes.

Import MempoolObserver.
Local Open Scope Z_scope.

Lemma markProcessed_bounded (st : State) (txHash : string) :
  Z.of_nat (List.length (processedTxs st)) <= 10000 ->
  Z.of_nat (List.length (processedTxs (markProcessed st txHash))) <= 10000 /\
  accepts (markProcessed st txHash) txHash = false.
Proof.
  intros Hbound. unfold markProcessed, accepts. cbn [processedTxs].
  pose proof (has_add_same (processedTxs st) txHash) as Hadded.
  destruct (Z.ltb_spec 10000 (Z.of_nat (List.length (JSSet.add (processedTxs st) txHash))))
    as [Hfull|Hroom].
  - revert Hfull. unfold JSSet.add.
    destruct (JSSet.has (processedTxs st) txHash); [lia|].
    rewrite length_app. cbn [List.length]. intros Hfull.
    rewrite length_skipn, length_app. cbn [List.length].
    assert (Hdrop : (1000 <= List.length (processedTxs st))%nat).
    { apply Nat2Z.inj_le. change (Z.of_nat 1000) with 1000. lia. }
    split.
    + rewrite Nat2Z.inj_sub by lia. change (Z.of_nat 1000) with 1000. lia.
    + rewrite skipn_app.
      replace (1000 - List.length (processedTxs st))%nat with 0%nat by lia.
      cbn [skipn]. unfold JSSet.has. rewrite existsb_app. cbn [existsb].
      rewrite String.eqb_refl. now rewrite orb_true_r.
  - split; [lia|]. now rewrite Hadded.
Qed.

End SeenHashes.

(** ** The observer's handler and subscription *)

Section HandlerFacts.

Import MempoolObserver.
Local Open Scope Z_scope.

(** X17. [handlePendingTransaction] counts the transaction as
    analysed and leaves the set of seen hashes alone.  It changes the
    queue in one case only: the transaction was found, has a recipient
    and a gas price within the maximum, the classifier reported an
    opportunity and the optimizer called it profitable; the entry is
    then stored under the notified hash. *)
Theorem handler_stores_only_profitable_opportunities (st : State) (maxGasPrice : result Z)
    (lookup : result (option TransactionDecoder.Tx))
    (analyze : TransactionDecoder.Tx -> result (option Opportunity))
    (optimize : Opportunity -> SandwichOptimizer.SandwichParams)
    (now : Z) (txHash : string) :
  let st' := handlePendingTransaction st maxGasPrice lookup analyze optimize now txHash in
  processedTxs st' = processedTxs st /\
  txsAnalyzed st' = txsAnalyzed st + 1 /\
  (pendingOpportunities st' = pendingOpportunities st
   \/
   exists tx router limit opp,
     lookup = Ok (Some tx) /\
     TransactionDecoder.to tx = Some router /\
     maxGasPrice = Ok limit /\
     TransactionDecoder.tx_gasPrice tx <= limit /\
     analyze tx = Ok (Some opp) /\
     SandwichOptimizer.sp_profitable (optimize opp) = true /\
     opportunitiesDetected st' = opportunitiesDetected st + 1 /\
     pendingOpportunities st'
     = JSMap.set (pendingOpportunities st) txHash
         {| opportunity := opp; sandwichParams := optimize opp; detected := now |}).
Proof.
  cbv zeta. unfold handlePendingTransaction.
  destruct lookup as [[tx|]|]; try (repeat split; now left).
  destruct (TransactionDecoder.to tx) as [router|] eqn:Hto;
    [|destruct maxGasPrice; repeat split; now left].
  destruct maxGasPrice as [limit|]; [|repeat split; now left].
  unfold isTxGasPriceTooHigh.
  destruct (Z.ltb_spec limit (TransactionDecoder.tx_gasPrice tx)) as [|Hprice];
    [repeat split; now left|].
  destruct (analyze tx) as [[opp|]|] eqn:Hanalysis; try (repeat split; now left).
  destruct (SandwichOptimizer.sp_profitable (optimize opp)) eqn:Hprofitable;
    cbn [negb]; [|repeat split; now left].
  cbn [processedTxs txsAnalyzed pendingOpportunities opportunitiesDetected].
  repeat split. right. exists tx, router, limit, opp. repeat split; assumption.
Qed.

(** X19. [BigNumber.mul] of ethers 5 converts its argument with
    [BigNumber.from], which rejects the fractional [GAS_BUFFER] 1.2.
    With that multiplication [calculateOptimalSandwichParams] ends in
    its [catch] for every opportunity, returning an object that is not
    profitable and has no gas price or limit, and
    [handlePendingTransaction] queues nothing. *)
Theorem nothing_is_queued_with_the_library_multiplication (config : Config)
    (provider : SandwichOptimizer.Provider) (clock : Z) (st : State)
    (maxGasPrice : result Z) (lookup : result (option TransactionDecoder.Tx))
    (analyze : TransactionDecoder.Tx -> result (option Opportunity))
    (now : Z) (txHash : string) :
  let optimize :=
    SandwichOptimizer.calculateOptimalSandwichParams config Ethers.mul_number provider
      clock in
  Ethers.mul_number 600000 SandwichOptimizer.GAS_BUFFER = Throw "underflow" /\
  (forall opportunity,
      SandwichOptimizer.sp_profitable (optimize opportunity) = false /\
      SandwichOptimizer.sp_gasPrice (optimize opportunity) = None /\
      SandwichOptimizer.sp_gasLimit (optimize opportunity) = None) /\
  pendingOpportunities
    (handlePendingTransaction st maxGasPrice lookup analyze optimize now txHash)
  = pendingOpportunities st.
Proof.
  cbv zeta.
  assert (Hmul : forall a, Ethers.mul_number a SandwichOptimizer.GAS_BUFFER
                           = Throw "underflow") by reflexivity.
  assert (Hcatch : forall opportunity,
             SandwichOptimizer.calculateOptimalSandwichParams config Ethers.mul_number
               provider clock opportunity
             = {| SandwichOptimizer.sp_flashLoanAmount := None;
                  SandwichOptimizer.sp_frontRunAmount := None;
                  SandwichOptimizer.sp_backRunAmount := None;
                  SandwichOptimizer.sp_expectedProfit := None;
                  SandwichOptimizer.sp_netProfit := None;
                  SandwichOptimizer.sp_gasPrice := None;
                  SandwichOptimizer.sp_gasLimit := None;
                  SandwichOptimizer.sp_profitable := false;
                  SandwichOptimizer.sp_confidence := JS.lit "0" |}).
  { intros opportunity. unfold SandwichOptimizer.calculateOptimalSandwichParams.
    destruct (SandwichOptimizer.sandwichLocals config provider clock opportunity);
      [|reflexivity].
    cbn [bind]. rewrite Hmul. reflexivity. }
  split; [apply Hmul|]. split.
  - intros opportunity. rewrite Hcatch. repeat split.
  - apply unprofitable_is_dropped. intros tx opp _. now rewrite Hcatch.
Qed.

End HandlerFacts.

Section SubscriptionFacts.

Import MempoolObserver Subscription.
Local Open Scope Z_scope.

Variable maxGasPrice : result Z.

Lemma onMessage_invariant (st : State) (n : Notification) :
  Z.of_nat (List.length (processedTxs st)) <= 10000 ->
  let st' := onMessage maxGasPrice st n in
  Z.of_nat (List.length (processedTxs st')) <= 10000 /\
  accepts st' (txHash n) = false /\
  txsAnalyzed st <= txsAnalyzed st' <= txsAnalyzed st + 1.
Proof.
  intros Hbound. cbv zeta. unfold onMessage.
  destruct (accepts st (txHash n)) eqn:Haccepts; [|repeat split; try assumption; lia].
  set (handled := handlePendingTransaction _ _ _ _ _ _ _).
  assert (Hhandled : processedTxs handled = processedTxs st /\
                     txsAnalyzed handled = txsAnalyzed st + 1).
  { subst handled. unfold handlePendingTransaction.
    destruct (getTransaction n) as [[tx|]|]; try (split; reflexivity).
    destruct (TransactionDecoder.to tx), maxGasPrice as [limit|]; try (split; reflexivity).
    destruct (isTxGasPriceTooHigh limit tx); try (split; reflexivity).
    destruct (analyze n tx) as [[opp|]|]; try (split; reflexivity).
    destruct (SandwichOptimizer.sp_profitable (optimize n opp)); split; reflexivity. }
  destruct Hhandled as [Hsame Hcount].
  destruct (markProcessed_bounded handled (txHash n)) as [Hlen Hrefused];
    [now rewrite Hsame|].
  repeat split; try assumption; cbn [markProcessed txsAnalyzed]; lia.
Qed.

(** X18. With notifications handled one after another, the set of
    seen hashes never exceeds 10000, a notification that repeats the
    hash just handled changes nothing, and no more transactions are
    analysed than notifications arrived. *)
Theorem notified_hash_is_analysed_once_while_remembered
    (earlier : list Notification) (n again : Notification) :
  txHash again = txHash n ->
  let st := deliver maxGasPrice initial (earlier ++ [n]) in
  onMessage maxGasPrice st again = st /\
  Z.of_nat (List.length (processedTxs st)) <= 10000 /\
  0 <= txsAnalyzed st <= Z.of_nat (List.length (earlier ++ [n])).
Proof.
  intros Hsame. cbv zeta.
  assert (Hinv : forall ns st,
             Z.of_nat (List.length (processedTxs st)) <= 10000 ->
             Z.of_nat (List.length (processedTxs (deliver maxGasPrice st ns))) <= 10000 /\
             txsAnalyzed st <= txsAnalyzed (deliver maxGasPrice st ns)
             <= txsAnalyzed st + Z.of_nat (List.length ns)).
  { induction ns as [|m ns IH]; intros st Hst; [cbn; lia|].
    unfold deliver in *. cbn [fold_left List.length].
    destruct (onMessage_invariant st m Hst) as (Hlen & _ & Hcount).
    destruct (IH _ Hlen) as [Hlen' Hcount']. lia. }
  destruct (Hinv (earlier ++ [n])%list initial ltac:(cbn; lia)) as [Hlen Hcount].
  split; [|split; [exact Hlen|exact Hcount]].
  unfold deliver in *. rewrite fold_left_app. cbn [fold_left].
  destruct (Hinv earlier initial ltac:(cbn; lia)) as [Hlen' _].
  destruct (onMessage_invariant _ n Hlen') as (_ & Hrefused & _).
  unfold onMessage at 1. rewrite Hsame. unfold deliver in Hrefused.
  now rewrite Hrefused.
Qed.

End SubscriptionFacts.

(** ** Instances *)

Section TokenLookupWitnesses.

Import TokenLookups.
Local Open Scope string_scope.
Local Open Scope Z_scope.

(** DAI on the example chain: fetched once, then answered from the cache under its lower-cased address. *)
Lemma token_info_is_served_from_cache_witness :
  let first := getTokenInfo Examples.chain Scenarios.DAI initial in
  getTokenInfo Examples.chain (Str.toLowerCase Scenarios.DAI) (snd first)
  = (Ok {| address := Scenarios.DAI; symbol := "DAI"; name := "Dai Stablecoin";
           decimals := 18 |},
     tick (snd first)).
Proof.
  exact (proj2 (proj2
    (token_info_is_served_from_cache Examples.chain Examples.chain initial
       Scenarios.DAI (Str.toLowerCase Scenarios.DAI)
       {| call_symbol := Ok "DAI"; call_name := Ok "Dai Stablecoin";
          call_decimals := Ok 18%nat |}
       eq_refl eq_refl eq_refl eq_refl))).
Defined.

(** The DAI/WETH pool of the example chain, asked for again under its lower-cased address and with the tokens swapped. *)
Lemma pair_reserves_are_served_from_cache_witness :
  let st1 := snd (getPairReserves Examples.chain Examples.daiPairAddress
                    Scenarios.DAI (WETH Examples.market) initial) in
  fst (getPairReserves Examples.chain (Str.toLowerCase Examples.daiPairAddress)
         (WETH Examples.market) Scenarios.DAI st1)
  = fst (getPairReserves Examples.chain Examples.daiPairAddress
           Scenarios.DAI (WETH Examples.market) initial).
Proof.
  cbv zeta.
  pose proof (pair_reserves_are_served_from_cache Examples.chain Examples.chain initial
                Examples.daiPairAddress (Str.toLowerCase Examples.daiPairAddress)
                Scenarios.DAI (WETH Examples.market) (WETH Examples.market) Scenarios.DAI
                {| pairAddress := Examples.daiPairAddress;
                   token0 := Str.toLowerCase Scenarios.DAI;
                   token1 := Str.toLowerCase (WETH Examples.market);
                   reserve0 := Scenarios.ether 2000000;
                   reserve1 := Scenarios.ether 1000;
                   timestamp := 1700000000000 |}
                eq_refl eq_refl eq_refl eq_refl) as H.
  cbv zeta in H. destruct H as [Hagain _]. rewrite Hagain. reflexivity.
Defined.

End TokenLookupWitnesses.

Section Witnesses.

Local Open Scope string_scope.
Local Open Scope Z_scope.

(** 2000 DAI against a pool of 2,000,000 DAI and 1,000 WETH are worth 1 ETH. *)
Lemma token_value_is_priced_by_the_pair_witness :
  fst (TokenLookups.getTokenValueInETH Examples.market Examples.chain Scenarios.DAI
         (Scenarios.ether 2000) TokenLookups.initial)
  = Ok (Scenarios.ether 1).
Proof.
  pose (checked := TokenLookups.checkPairLiquidity Examples.market Examples.chain
                     Scenarios.DAI (TokenLookups.WETH Examples.market)
                     TokenLookups.initial).
  pose (check := match fst checked with Ok c => c | Throw _ => TokenLookups.notLiquid end).
  pose (looked := TokenLookups.getTokenInfo Examples.chain Scenarios.DAI (snd checked)).
  pose (info := match fst looked with
                | Ok i => i
                | Throw _ => {| TokenLookups.address := ""; TokenLookups.symbol := "";
                                TokenLookups.name := ""; TokenLookups.decimals := 0 |}
                end).
  destruct (token_value_is_priced_by_the_pair Examples.market Examples.chain
              Scenarios.DAI (Scenarios.ether 2000) TokenLookups.initial
              (snd checked) (snd looked) check info)
    as (p & Hpair & Hvalue).
  - vm_compute. reflexivity.
  - vm_compute. reflexivity.
  - vm_compute. reflexivity.
  - vm_compute. reflexivity.
  - apply Nat.leb_le. vm_compute. reflexivity.
  - cbv zeta in Hvalue. destruct Hvalue as [_ Hvalue]. rewrite Hvalue.
    vm_compute in Hpair. injection Hpair as <-. vm_compute. reflexivity.
Defined.

(** A log of three entries, the second with a profit of ["0.01"]. *)
Lemma unreadable_amount_discards_history_witness :
  ProfitTracker.loadProfitHistory
    (ProfitTracker.Present
       (Ok (ProfitTracker.saveProfitHistory [Examples.firstProfit]
            ++ Examples.editedEntry
               :: ProfitTracker.saveProfitHistory [Examples.secondProfit])%list))
  = [].
Proof.
  exact (unreadable_amount_discards_history
           (ProfitTracker.saveProfitHistory [Examples.firstProfit])
           (ProfitTracker.saveProfitHistory [Examples.secondProfit])
           Examples.editedEntry "invalid BigNumber string" eq_refl).
Defined.

(** The two example entries. *)
Lemma totals_are_consistent_witness :
  ProfitTracker.total ProfitTracker.netProfit [Examples.firstProfit; Examples.secondProfit]
  = ProfitTracker.total ProfitTracker.profit [Examples.firstProfit; Examples.secondProfit]
    - ProfitTracker.total ProfitTracker.gasCost
        [Examples.firstProfit; Examples.secondProfit].
Proof.
  apply totals_are_consistent.
  constructor; [reflexivity|]. constructor; [reflexivity|]. constructor.
Defined.

(** The example processor at a network gas price of 50 gwei. *)
Lemma pass_retires_every_queued_opportunity_witness :
  let st' :=
    ProcessorLoop.pass Scenarios.defaultConfig (fun _ => Examples.profitableParams)
      Examples.confirmingExecutor (fun _ => Examples.passAt) Examples.passAt
      (Ok (Scenarios.gwei 50)) Examples.processor in
  OpportunityProcessor.pendingOpportunities (ProcessorLoop.queue st') = [] /\
  JSSet.has (OpportunityProcessor.processedOpportunities (ProcessorLoop.queue st'))
            Examples.victimHash = true.
Proof.
  cbv zeta.
  destruct (pass_retires_every_queued_opportunity Scenarios.defaultConfig
              (fun _ => Examples.profitableParams) Examples.confirmingExecutor
              (fun _ => Examples.passAt) Examples.passAt (Scenarios.gwei 50)
              (Scenarios.gwei 100) Examples.processor)
    as [Hempty Hretired].
  - repeat constructor. intros [].
  - vm_compute. reflexivity.
  - vm_compute. discriminate.
  - split; [exact Hempty|]. apply Hretired. left. reflexivity.
Defined.

(** The example observer at a network gas price of 150 gwei: its entry stays and nothing is executed. *)
Lemma observer_pass_keeps_only_entries_priced_out_witness :
  let r :=
    ObserverLoop.pass Scenarios.defaultConfig (fun _ => Ok (Scenarios.gwei 150))
      Examples.confirmingExecutor (fun _ => Examples.passAt) Examples.passAt
      Examples.observer in
  ObserverLoop.pendingOpportunities (snd r)
  = ObserverLoop.pendingOpportunities Examples.observer /\
  ObserverLoop.executed (snd r) = [].
Proof.
  cbv zeta.
  destruct (observer_pass_keeps_only_entries_priced_out Scenarios.defaultConfig
              (fun _ => Ok (Scenarios.gwei 150)) Examples.confirmingExecutor
              (fun _ => Examples.passAt) Examples.passAt Examples.observer)
    as (Hkept & Hran & _).
  - repeat constructor. intros [].
  - vm_compute. reflexivity.
  - rewrite Hkept, Hran. split; vm_compute; reflexivity.
Defined.

(** An observer with two entries at a network gas price of 50 gwei: both
    are executed, in queue order, the second after the first has taken a
    minute to confirm, by which time it is older than the ten seconds
    of [OPPORTUNITY_TIMEOUT]. *)
Lemma observer_pass_tests_age_by_its_starting_clock_witness :
  let r :=
    ObserverLoop.pass Scenarios.defaultConfig (fun _ => Ok (Scenarios.gwei 50))
      Examples.confirmingExecutor Examples.slowConfirmations Examples.passAt
      Examples.busyObserver in
  opportunitiesExecuted (ObserverLoop.stats (snd r))
  - successfulExecutions (ObserverLoop.stats (snd r))
  - failedExecutions (ObserverLoop.stats (snd r))
  = 0 /\
  ObserverLoop.executed (snd r) = [Examples.victimHash; Examples.laterVictimHash] /\
  map ProfitTracker.timestamp
      (ProfitTracker.profits (ObserverLoop.profitTracker (snd r)))
  = [Examples.passAt + 60000; Examples.passAt + 120000] /\
  OPPORTUNITY_TIMEOUT Scenarios.defaultConfig
  < (Examples.passAt + 60000) - (Examples.passAt - 100).
Proof.
  cbv zeta.
  destruct (observer_pass_tests_age_by_its_starting_clock Scenarios.defaultConfig
              (fun _ => Ok (Scenarios.gwei 50)) Examples.confirmingExecutor
              Examples.slowConfirmations Examples.passAt Examples.busyObserver)
    as [Hcount _].
  split; [rewrite Hcount; reflexivity|].
  split; [vm_compute; reflexivity|].
  split; vm_compute; reflexivity.
Defined.

(** A first run: two profits, a save by the timer, a third profit; the
    one write went through. *)
Lemma a_restart_loses_fewer_than_five_entries_witness :
  let events :=
    [ProfitTracker.Recorded Examples.firstProfit;
     ProfitTracker.Recorded Examples.secondProfit;
     ProfitTracker.TimerFired;
     ProfitTracker.Recorded Examples.firstProfit] in
  let st := ProfitTracker.run (ProfitTracker.constructed []) events in
  ProfitTracker.profits st
  = [Examples.firstProfit; Examples.secondProfit; Examples.firstProfit] /\
  exists kept unsaved,
    ProfitTracker.profits st = (kept ++ unsaved)%list /\
    (List.length unsaved <= 3)%nat /\
    ProfitTracker.loadProfitHistory
      (ProfitTracker.fileAfter ProfitTracker.Absent (ProfitTracker.written st) [None])
    = map ProfitTracker.asBuilt kept /\
    kept = [Examples.firstProfit; Examples.secondProfit].
Proof.
  cbv zeta.
  destruct (a_restart_loses_fewer_than_five_entries ProfitTracker.Absent []
              [ProfitTracker.Recorded Examples.firstProfit;
               ProfitTracker.Recorded Examples.secondProfit;
               ProfitTracker.TimerFired;
               ProfitTracker.Recorded Examples.firstProfit]
              [None] eq_refl eq_refl eq_refl)
    as (Hheld & kept & unsaved & Hsplit & Hfew & Hfile & _).
  split; [exact Hheld|]. exists kept, unsaved.
  split; [exact Hsplit|]. split; [exact Hfew|]. split; [exact Hfile|].
  assert (Hsame : map ProfitTracker.asBuilt kept
                  = map ProfitTracker.asBuilt
                        [Examples.firstProfit; Examples.secondProfit]).
  { rewrite <- Hfile. vm_compute. reflexivity. }
  clear - Hsame.
  assert (Hinj : forall a b, ProfitTracker.asBuilt a = ProfitTracker.asBuilt b -> a = b).
  { intros [] [] H. injection H. intros. subst. reflexivity. }
  destruct kept as [|k1 [|k2 [|k3 kept]]]; try discriminate Hsame.
  cbn [map] in Hsame.
  pose proof (f_equal (fun l => nth 0 l (ProfitTracker.asBuilt k1)) Hsame) as H1.
  pose proof (f_equal (fun l => nth 1 l (ProfitTracker.asBuilt k1)) Hsame) as H2.
  cbn [nth] in H1, H2. now rewrite (Hinj _ _ H1), (Hinj _ _ H2).
Defined.

(** One hash notified twice. *)
Lemma notified_hash_is_analysed_once_while_remembered_witness :
  let st :=
    Subscription.deliver (Ok (Scenarios.gwei 100)) MempoolObserver.initial
      [Examples.unknownTransaction] in
  Subscription.onMessage (Ok (Scenarios.gwei 100)) st Examples.unknownTransaction = st /\
  MempoolObserver.txsAnalyzed st = 1.
Proof.
  cbv zeta. split; [|reflexivity].
  exact (proj1 (notified_hash_is_analysed_once_while_remembered
                  (Ok (Scenarios.gwei 100)) [] Examples.unknownTransaction
                  Examples.unknownTransaction eq_refl)).
Defined.

(** Three low-balance warnings: the second is throttled, the third posted 400 seconds after the first. *)
Lemma alerts_under_one_key_are_throttled_witness :
  let st :=
    Monitoring.sendAlerts
      (Monitoring.constructed true (Some "https://hooks.example.org/alerts"))
      Examples.lowBalanceAlerts in
  map Monitoring.sentAt (Monitoring.posted st)
  = [Examples.passAt; Examples.passAt + 400000] /\
  5 * 60 * 1000 <= (Examples.passAt + 400000) - Examples.passAt.
Proof.
  cbv zeta. split; [vm_compute; reflexivity|].
  refine (proj1 (alerts_under_one_key_are_throttled true
                   (Some "https://hooks.example.org/alerts")
                   Examples.lowBalanceAlerts _)
            "Low contract balance-warning" []
            {| Monitoring.title := "Low contract balance"; Monitoring.level := "warning";
               Monitoring.sentAt := Examples.passAt |}
            [{| Monitoring.title := "Low contract balance"; Monitoring.level := "warning";
                Monitoring.sentAt := Examples.passAt + 400000 |}]
            {| Monitoring.title := "Low contract balance"; Monitoring.level := "warning";
               Monitoring.sentAt := Examples.passAt + 400000 |}
            _ _).
  - repeat constructor; discriminate.
  - vm_compute. reflexivity.
  - left. reflexivity.
Defined.

(** A transaction pending at 90 gwei: 135 gwei are asked for and 100 gwei signed. *)
Lemma replacement_respects_the_gas_price_cap_witness :
  In (Replacement.SignTransaction Examples.replacement)
     (snd (Replacement.speedUpTransaction Scenarios.defaultConfig
             (fun _ => Ok (Some Examples.stuckTransaction))
             (fun _ => Ok "0xf86c")
             (fun _ => Ok "0x3333333333333333333333333333333333333333333333333333333333333333")
             Examples.victimHash None)) /\
  Replacement.r_gasPrice Examples.replacement <= Scenarios.gwei 100.
Proof.
  assert (Hsigned :
    In (Replacement.SignTransaction Examples.replacement)
       (snd (Replacement.speedUpTransaction Scenarios.defaultConfig
               (fun _ => Ok (Some Examples.stuckTransaction))
               (fun _ => Ok "0xf86c")
               (fun _ => Ok "0x3333333333333333333333333333333333333333333333333333333333333333")
               Examples.victimHash None))).
  { vm_compute. right. left. reflexivity. }
  split; [exact Hsigned|].
  destruct (replacement_respects_the_gas_price_cap Scenarios.defaultConfig
              (fun _ => Ok (Some Examples.stuckTransaction))
              (fun _ => Ok "0xf86c")
              (fun _ => Ok "0x3333333333333333333333333333333333333333333333333333333333333333")
              Examples.victimHash None Examples.replacement Hsigned)
    as (tx & maxGasPrice & _ & _ & Hmax & Hcapped & _).
  vm_compute in Hmax. injection Hmax as <-. exact Hcapped.
Defined.

(** The timer fires, then the receipt arrives. *)
Lemma tracking_resolves_once_by_the_first_signal_witness :
  let receipt :=
    {| SandwichExecutor.status := 1; SandwichExecutor.events := [];
       SandwichExecutor.gasUsed := 450000;
       SandwichExecutor.effectiveGasPrice := Scenarios.gwei 55 |} in
  Tracking.resolutions
    (fold_left (Tracking.signal Examples.victimHash)
       [Tracking.TimerFired; Tracking.ReceiptArrived receipt]
       (Tracking.trackTransaction [] Examples.victimHash Examples.passAt))
  = [{| Tracking.success := false; Tracking.error := Some "Transaction timeout";
        Tracking.receipt := None |}].
Proof.
  cbv zeta.
  exact (proj1 (proj2 (proj2
    (tracking_resolves_once_by_the_first_signal [] Examples.victimHash Examples.passAt
       Tracking.TimerFired
       [Tracking.ReceiptArrived
          {| SandwichExecutor.status := 1; SandwichExecutor.events := [];
             SandwichExecutor.gasUsed := 450000;
             SandwichExecutor.effectiveGasPrice := Scenarios.gwei 55 |}]
       (NoDup_nil string))))).
Defined.

(** Two overlapping calls on an executor holding nonce 7. *)
Lemma fresh_nonce_calls_get_consecutive_nonces_witness :
  let final :=
    SandwichExecutor.run
      {| SandwichExecutor.currentNonce := Some 7; SandwichExecutor.lastNonceRefresh := 0 |}
      (map SandwichExecutor.Entered [1000; 2000])
      [SandwichExecutor.Run 0; SandwichExecutor.Run 1; SandwichExecutor.Run 1;
       SandwichExecutor.Run 0] in
  exists k,
    Permutation (SandwichExecutor.assigned (snd final)) (SandwichExecutor.consecutive 7 k) /\
    SandwichExecutor.currentNonce (fst final) = Some (7 + Z.of_nat k).
Proof.
  apply fresh_nonce_calls_get_consecutive_nonces.
  - reflexivity.
  - repeat constructor; vm_compute; discriminate.
Defined.

(** A fresh executor whose contract call is rejected: nonce 7 is used up. *)
Lemma every_dispatch_past_the_refresh_uses_up_a_nonce_witness :
  let dispatched :=
    SandwichExecutor.executeSandwich Scenarios.defaultConfig (Ok 7)
      (fun _ => Throw "insufficient funds for gas * price + value")
      (fun _ => SandwichExecutor.TimedOut)
      SandwichExecutor.initial Examples.passAt Scenarios.thinPoolOpportunity
      Examples.profitableParams in
  SandwichExecutor.success (fst (fst dispatched)) = false /\
  SandwichExecutor.currentNonce (snd (fst dispatched)) = Some 8.
Proof.
  cbv zeta. split; [reflexivity|].
  pose proof (every_dispatch_past_the_refresh_uses_up_a_nonce Scenarios.defaultConfig
                (Ok 7) (fun _ => Throw "insufficient funds for gas * price + value")
                (fun _ => SandwichExecutor.TimedOut)
                SandwichExecutor.initial
                {| SandwichExecutor.currentNonce := Some 7;
                   SandwichExecutor.lastNonceRefresh := Examples.passAt |}
                Examples.passAt [SandwichExecutor.GetTransactionCount]
                Scenarios.thinPoolOpportunity Examples.profitableParams eq_refl) as H.
  cbv zeta in H.
  destruct (SandwichExecutor.executeSandwich _ _ _ _ _ _ _ _) as [[result st2] log].
  exact (proj1 H).
Defined.

(** A swap of 10 WETH for DAI against a pool of 20,000 WETH. *)
Lemma reported_opportunity_passed_every_filter_witness :
  TransactionDecoder.analyzePendingTransaction Scenarios.defaultConfig
    (Scenarios.ether 5) (fun _ _ => Ok (Some Examples.swapCall)) (fun _ => Ok false)
    (fun _ _ => Ok {| TransactionDecoder.isLiquid := true;
                      TransactionDecoder.isTooDeep := false |})
    (fun _ amount => Ok (match amount with Some a => a | None => 0 end))
    (fun _ _ _ => Ok Examples.daiPairAddress)
    (fun _ _ _ => Ok (Some Examples.deepPool))
    1699999000000 Examples.swapTransaction
  = Ok (Some (Scenarios.opportunityOver (Scenarios.ether 20000) (Scenarios.ether 40000000)
                (Scenarios.ether 10) (Scenarios.gwei 20))) /\
  suggestedGasPrice
    (Scenarios.opportunityOver (Scenarios.ether 20000) (Scenarios.ether 40000000)
       (Scenarios.ether 10) (Scenarios.gwei 20))
  = Scenarios.gwei 23.
Proof.
  assert (Hfound :
    TransactionDecoder.analyzePendingTransaction Scenarios.defaultConfig
      (Scenarios.ether 5) (fun _ _ => Ok (Some Examples.swapCall)) (fun _ => Ok false)
      (fun _ _ => Ok {| TransactionDecoder.isLiquid := true;
                        TransactionDecoder.isTooDeep := false |})
      (fun _ amount => Ok (match amount with Some a => a | None => 0 end))
      (fun _ _ _ => Ok Examples.daiPairAddress)
      (fun _ _ _ => Ok (Some Examples.deepPool))
      1699999000000 Examples.swapTransaction
    = Ok (Some (Scenarios.opportunityOver (Scenarios.ether 20000)
                  (Scenarios.ether 40000000) (Scenarios.ether 10) (Scenarios.gwei 20))))
    by (vm_compute; reflexivity).
  split; [exact Hfound|].
  destruct (reported_opportunity_passed_every_filter _ _ _ _ _ _ _ _ _ _ _ Hfound)
    as (decoded & details & tokenA & tokenB & rest & value & params & H).
  decompose [and] H. etransitivity; [eassumption|]. vm_compute. reflexivity.
Defined.

(** The same swap paid in ETH. *)
Lemma extracted_path_names_weth_once_witness :
  exists details,
    TransactionDecoder.extractSwapDetails Scenarios.defaultConfig Examples.ethSwapCall
      Examples.swapTransaction = Some details /\
    exists p, TransactionDecoder.sd_path details = Some p.
Proof.
  eexists. split; [reflexivity|].
  destruct (extracted_path_names_weth_once Scenarios.defaultConfig Examples.ethSwapCall
              Examples.swapTransaction _ eq_refl)
    as [[Hpath _]|(given & others & _ & _ & _ & [[Hpath _]|[Hpath _]])];
    rewrite Hpath; eexists; reflexivity.
Defined.

(** A victim at 20 gwei on a network at 50 gwei. *)
Lemma front_run_gas_price_outbids_the_victim_witness :
  Scenarios.gwei 20
  < SandwichOptimizer.calculateOptimalGasPrice (Scenarios.gwei 20)
      (SandwichOptimizer.getNetworkConditions Scenarios.calmProvider 0).
Proof.
  apply (front_run_gas_price_outbids_the_victim (Scenarios.gwei 20)
           (SandwichOptimizer.getNetworkConditions Scenarios.calmProvider 0));
    vm_compute; discriminate.
Defined.

(** A victim of 10 WETH on a pool with no reserves. *)
Lemma empty_pool_is_never_profitable_witness :
  SandwichOptimizer.sp_profitable
    (SandwichOptimizer.calculateOptimalSandwichParams Scenarios.defaultConfig
       Examples.lenientMul Scenarios.calmProvider 0
       (Scenarios.opportunityOver 0 0 (Scenarios.ether 10) (Scenarios.gwei 20)))
  = false.
Proof.
  apply (empty_pool_is_never_profitable Scenarios.defaultConfig Examples.lenientMul
           Scenarios.calmProvider 0
           (Scenarios.opportunityOver 0 0 (Scenarios.ether 10) (Scenarios.gwei 20))).
  - vm_compute. discriminate.
  - reflexivity.
  - reflexivity.
Defined.

End Witnesses.
